(** * Radio transmission simulation: global medium and local radio system

    A shallow embedding of [auxiliary_classes.py], [global_system.py] and
    [local_system.py], followed by the properties established about them.

    Modelling conventions.
    - In the model of the two systems Python numbers (carrier frequencies,
      capacities, step duration) are exact rationals [Q]; [==] on numbers is
      [Qeq_bool], [int(x)] truncates toward zero.  Identifiers and memory
      offsets are integers [Z].  The properties of the systems are stated
      through the tests the code makes on numbers, whatever their outcome.
    - Python computes with double precision numbers: differences and
      quotients are rounded and a number can be infinite or NaN.  The
      functions whose result is a comparison or an arithmetic operation on
      numbers are therefore also given over IEEE binary64 ([Float64]), as
      Python evaluates them; an [int] of magnitude up to 2^53 is the double
      of the same value.
    - A Python [dict] is an insertion-ordered association list with unique
      keys ([Py.dict]); iteration follows the list order.
    - [Radiosignal] objects are mutated in place while they are relayed and
      the very same object is stored in several lists.  They therefore live
      in a store ([Heap]) and every list of signals of the global medium is
      a list of references into that store.
    - Transmit-receive devices of one local system are shared between the
      registry of antennas and the per-step channel lists; the lists hold
      the key of the device in the registry.
    - A call that raises returns the exception together with the state
      reached so far: a Python caller that catches the exception observes
      exactly that state. *)

From Stdlib Require Import ZArith QArith Qabs List Bool Lia Lqa.
From Stdlib Require Import SpecFloat.
Import ListNotations.

(** ** Python primitives *)

Module Py.

Inductive failure : Type :=
| RangeMinAboveMax
| FrequencyBelowRange
| FrequencyAboveRange
| WorksOnAnotherMode (id_antenna : Z)
| WorksOnAnotherFrequency (id_antenna : Z)
| NotEnoughChannelCapacity (id_antenna : Z).

Inductive exn : Type :=
| AssertionError
| KeyError (key : Z)
| ZeroDivisionError
| TypeError
| Exception (what : failure).

(** Truth value of a number: everything but zero. *)
Definition truthy (x : Q) : bool := negb (Qeq_bool x 0).

(** [x or d] for an optional number [x]. *)
Definition or_else (x : option Q) (d : Q) : Q :=
  match x with
  | Some q => if truthy q then q else d
  | None => d
  end.

(** [int(x)]. *)
Definition int (x : Q) : Z := Z.quot (Qnum x) (Z.pos (Qden x)).

Definition lt (x y : Q) : bool := negb (Qle_bool y x).
Definition gt (x y : Q) : bool := lt y x.
Definition ge (x y : Q) : bool := Qle_bool y x.

Definition eq_opt_Z (a b : option Z) : bool :=
  match a, b with
  | Some x, Some y => Z.eqb x y
  | None, None => true
  | _, _ => false
  end.

Definition eq_opt_Q (a b : option Q) : bool :=
  match a, b with
  | Some x, Some y => Qeq_bool x y
  | None, None => true
  | _, _ => false
  end.

(** Insertion-ordered dictionaries with integer keys. *)
Definition dict (V : Type) : Type := list (Z * V).

Fixpoint dict_get {V : Type} (k : Z) (d : dict V) : option V :=
  match d with
  | [] => None
  | (k', v) :: d' => if Z.eqb k' k then Some v else dict_get k d'
  end.

Fixpoint dict_set {V : Type} (k : Z) (v : V) (d : dict V) : dict V :=
  match d with
  | [] => [(k, v)]
  | (k', v') :: d' =>
      if Z.eqb k' k then (k', v) :: d' else (k', v') :: dict_set k v d'
  end.

Definition dict_mem {V : Type} (k : Z) (d : dict V) : bool :=
  match dict_get k d with Some _ => true | None => false end.

(** [d.get(k, [])]. *)
Definition dict_list {V : Type} (k : Z) (d : dict (list V)) : list V :=
  match dict_get k d with Some l => l | None => [] end.

(** [d.setdefault(k, [])]. *)
Definition setdefault {V : Type} (k : Z) (d : dict (list V)) : dict (list V) :=
  if dict_mem k d then d else dict_set k [] d.

(** [d[k].append(x)] on a key that is present. *)
Definition append_at {V : Type} (k : Z) (x : V) (d : dict (list V)) : dict (list V) :=
  dict_set k (dict_list k d ++ [x]) d.

Definition values {V : Type} (d : dict V) : list V := map snd d.

(** In-place mutation of the object stored under [k]. *)
Fixpoint dict_update {V : Type} (k : Z) (f : V -> V) (d : dict V) : dict V :=
  match d with
  | [] => []
  | (k', v) :: d' =>
      if Z.eqb k' k then (k', f v) :: d' else (k', v) :: dict_update k f d'
  end.

End Py.

(** ** auxiliary_classes.py *)

Module MemoryBlock.
Record t : Type := make
  { memory_id : Z;
    block_start : Z;
    block_end : Z }.

Definition size (m : t) : Z := block_end m - block_start m.

(** Tuple equality of the [NamedTuple]. *)
Definition eqb (a b : t) : bool :=
  Z.eqb (memory_id a) (memory_id b)
  && Z.eqb (block_start a) (block_start b)
  && Z.eqb (block_end a) (block_end b).
End MemoryBlock.

Module Radiosignal.
Record t : Type := make
  { id_transmitter : Z;
    id_receiver : Z;
    memory : MemoryBlock.t;
    frequency : Q;
    id_antenna_receiver : option Z }.

(** [Radiosignal.__eq__]. *)
Definition eqb (self other : t) : bool :=
  Z.eqb (id_transmitter self) (id_transmitter other)
  && Z.eqb (id_receiver self) (id_receiver other)
  && MemoryBlock.eqb (memory self) (memory other)
  && Qeq_bool (frequency self) (frequency other)
  && Py.eq_opt_Z (id_antenna_receiver self) (id_antenna_receiver other).
End Radiosignal.

Module ListenEtherTask.
Record t : Type := make
  { frequency_recipiency : Q;
    id_antenna_receiver : option Z;
    frequency_transmission_relay : option Q;
    id_destination_relay : option Z;
    id_antenna_destination_relay : option Z;
    save_relayed_signals_locally_relay : bool }.

(** [ListenEtherTask.__eq__]. *)
Definition eqb (self other : t) : bool :=
  Qeq_bool (frequency_recipiency self) (frequency_recipiency other)
  && Py.eq_opt_Q (frequency_transmission_relay self) (frequency_transmission_relay other)
  && Py.eq_opt_Z (id_destination_relay self) (id_destination_relay other)
  && Bool.eqb (save_relayed_signals_locally_relay self)
              (save_relayed_signals_locally_relay other)
  && Py.eq_opt_Z (id_antenna_receiver self) (id_antenna_receiver other)
  && Py.eq_opt_Z (id_antenna_destination_relay self) (id_antenna_destination_relay other).

(** [task in tasks]. *)
Definition mem (task : t) (tasks : list t) : bool :=
  existsb (fun other => eqb other task) tasks.
End ListenEtherTask.

(** ** The store of [Radiosignal] objects *)

Module Heap.
Definition ref : Type := nat.

(** [cell] gives the current fields of every object; [fresh] is the next
    unused address.  Addresses at or above [fresh] are never reached. *)
Record t : Type := make
  { cell : ref -> Radiosignal.t;
    fresh : ref }.

Definition store (r : ref) (s : Radiosignal.t) (h : t) : t :=
  {| cell := fun r' => if Nat.eqb r' r then s else cell h r';
     fresh := fresh h |}.

Definition alloc (s : Radiosignal.t) (h : t) : ref * t :=
  (fresh h,
   {| cell := fun r' => if Nat.eqb r' (fresh h) then s else cell h r';
      fresh := S (fresh h) |}).

Definition empty : t :=
  {| cell := fun _ =>
       Radiosignal.make 0 0 (MemoryBlock.make 0 0 0) 0 None;
     fresh := O |}.

(** [signal in signals]: identity first, then [__eq__]. *)
Definition mem (h : t) (signal : ref) (signals : list ref) : bool :=
  existsb (fun other =>
             Nat.eqb other signal
             || Radiosignal.eqb (cell h other) (cell h signal)) signals.
End Heap.

(** ** global_system.py *)

Module GlobalSystem.

Record RadioTransmissionMediumConsumerProperties : Type :=
  { frequency : Q;
    id_consumer : Z }.

Record RadioTransmissionMediumConsumer : Type :=
  { properties : RadioTransmissionMediumConsumerProperties;
    (* id of the receiver -> signals queued for it *)
    dict_id_receiver_signals_to_send : Py.dict (list Heap.ref);
    (* int(frequency) -> signals delivered during the step *)
    dict_frequency_signal_to_receive : Py.dict (list Heap.ref);
    listen_ether_tasks : list ListenEtherTask.t;
    (* int(frequency) -> every signal seen during the step *)
    dict_getting_information : Py.dict (list Heap.ref) }.

Abbreviation Consumer := RadioTransmissionMediumConsumer.

Definition new_consumer (p : RadioTransmissionMediumConsumerProperties) : Consumer :=
  {| properties := p;
     dict_id_receiver_signals_to_send := [];
     dict_frequency_signal_to_receive := [];
     listen_ether_tasks := [];
     dict_getting_information := [] |}.

Definition set_signals_to_send (d : Py.dict (list Heap.ref)) (c : Consumer) : Consumer :=
  {| properties := properties c;
     dict_id_receiver_signals_to_send := d;
     dict_frequency_signal_to_receive := dict_frequency_signal_to_receive c;
     listen_ether_tasks := listen_ether_tasks c;
     dict_getting_information := dict_getting_information c |}.

Definition set_signal_to_receive (d : Py.dict (list Heap.ref)) (c : Consumer) : Consumer :=
  {| properties := properties c;
     dict_id_receiver_signals_to_send := dict_id_receiver_signals_to_send c;
     dict_frequency_signal_to_receive := d;
     listen_ether_tasks := listen_ether_tasks c;
     dict_getting_information := dict_getting_information c |}.

Definition set_tasks (l : list ListenEtherTask.t) (c : Consumer) : Consumer :=
  {| properties := properties c;
     dict_id_receiver_signals_to_send := dict_id_receiver_signals_to_send c;
     dict_frequency_signal_to_receive := dict_frequency_signal_to_receive c;
     listen_ether_tasks := l;
     dict_getting_information := dict_getting_information c |}.

Definition set_getting_information (d : Py.dict (list Heap.ref)) (c : Consumer) : Consumer :=
  {| properties := properties c;
     dict_id_receiver_signals_to_send := dict_id_receiver_signals_to_send c;
     dict_frequency_signal_to_receive := dict_frequency_signal_to_receive c;
     listen_ether_tasks := listen_ether_tasks c;
     dict_getting_information := d |}.

Definition clear_tasks (c : Consumer) : Consumer :=
  set_tasks [] (set_signals_to_send [] c).

(** [send_signal]: the new [Radiosignal] object is allocated in the store. *)
Definition send_signal (c : Consumer) (h : Heap.t) (id_receiver : Z)
    (memory : MemoryBlock.t) (frequency_arg : option Q)
    (id_antenna_receiver : option Z) : Consumer * Heap.t * bool :=
  let frequency' := Py.or_else frequency_arg (frequency (properties c)) in
  let id_transmitter := id_consumer (properties c) in
  if Z.eqb id_transmitter id_receiver then (c, h, false)
  else
    let (signal, h') :=
      Heap.alloc (Radiosignal.make id_transmitter id_receiver memory frequency'
                                   id_antenna_receiver) h in
    let d := Py.setdefault id_receiver (dict_id_receiver_signals_to_send c) in
    (set_signals_to_send (Py.append_at id_receiver signal d) c, h', true).

Definition receive_signal (c : Consumer) (frequency_arg : option Q) : list Heap.ref :=
  let frequency' := Py.or_else frequency_arg (frequency (properties c)) in
  Py.dict_list (Py.int frequency') (dict_frequency_signal_to_receive c).

Definition listen_ether (c : Consumer) (id_antenna_receiver : option Z)
    (frequency_recipiency : option Q) : Consumer * bool :=
  let task :=
    ListenEtherTask.make
      (Py.or_else frequency_recipiency (frequency (properties c)))
      id_antenna_receiver None None None false in
  if negb (ListenEtherTask.mem task (listen_ether_tasks c))
  then (set_tasks (listen_ether_tasks c ++ [task]) c, true)
  else (c, false).

Definition i_am_repeater (c : Consumer) (id_destination_relay : Z)
    (id_antenna_receiver : option Z) (id_antenna_destination_relay : option Z)
    (frequency_recipiency frequency_transmission_relay : option Q)
    (save_relayed_signals_locally_relay : bool) : Consumer * bool :=
  if Z.eqb (id_consumer (properties c)) id_destination_relay then (c, false)
  else
    (set_tasks
       (listen_ether_tasks c ++
          [ListenEtherTask.make
             (Py.or_else frequency_recipiency (frequency (properties c)))
             id_antenna_receiver
             (Some (Py.or_else frequency_transmission_relay (frequency (properties c))))
             (Some id_destination_relay)
             id_antenna_destination_relay
             save_relayed_signals_locally_relay]) c,
     true).

Definition release (c : Consumer) : Consumer :=
  set_signal_to_receive [] (set_signals_to_send [] c).

(** The medium: the registry of consumers, the matching accuracy and the
    store of the signals travelling through it. *)
Record RadioTransmissionMediumSystem : Type :=
  { consumers : Py.dict Consumer;
    frequency_accuracy : Q;
    signals : Heap.t }.

Abbreviation Medium := RadioTransmissionMediumSystem.

Definition init : Medium :=
  {| consumers := []; frequency_accuracy := 10; signals := Heap.empty |}.

Definition set_consumers (d : Py.dict Consumer) (st : Medium) : Medium :=
  {| consumers := d;
     frequency_accuracy := frequency_accuracy st;
     signals := signals st |}.

Definition set_signals (h : Heap.t) (st : Medium) : Medium :=
  {| consumers := consumers st;
     frequency_accuracy := frequency_accuracy st;
     signals := h |}.

(** Mutation of the consumer object registered under [id]. *)
Definition update_consumer (id : Z) (f : Consumer -> Consumer) (st : Medium) : Medium :=
  set_consumers (Py.dict_update id f (consumers st)) st.

(** [register_consumer] returns the consumer registered under the id; the
    model returns its key. *)
Definition register_consumer (p : RadioTransmissionMediumConsumerProperties)
    (st : Medium) : Medium * Z :=
  if Py.dict_mem (id_consumer p) (consumers st) then (st, id_consumer p)
  else (set_consumers (Py.dict_set (id_consumer p) (new_consumer p) (consumers st)) st,
        id_consumer p).

Definition can_consumer_receive_signal_by_frequency (st : Medium)
    (signal_frequency receiver_frequency : Q) : bool :=
  Py.lt (Qabs (signal_frequency - receiver_frequency)) (frequency_accuracy st).

Definition can_consumer_receive_signal_by_antenna
    (signal_id_antenna : option Z) (receiver_id_antenna : Z) : bool :=
  Py.eq_opt_Z signal_id_antenna (Some receiver_id_antenna).

(** Outcome of [add_signal]; [OutOfFuel] is the model's own bound on the
    depth of the recursion. *)
Inductive result : Type :=
| Returned (st : Medium)
| Raised (e : Py.exn) (st : Medium)
| OutOfFuel.

Definition signal (st : Medium) (r : Heap.ref) : Radiosignal.t :=
  Heap.cell (signals st) r.

(** [recipient.dict_getting_information[key]] of the consumer registered
    under [id], read in the current state. *)
Definition getting_information (st : Medium) (id key : Z) : list Heap.ref :=
  match Py.dict_get id (consumers st) with
  | Some c => Py.dict_list key (dict_getting_information c)
  | None => []
  end.

(** [recipient.dict_getting_information.setdefault(key, [])]. *)
Definition open_information (key : Z) (c : Consumer) : Consumer :=
  set_getting_information (Py.setdefault key (dict_getting_information c)) c.

Definition record_information (key : Z) (r : Heap.ref) (c : Consumer) : Consumer :=
  set_getting_information (Py.append_at key r (dict_getting_information c)) c.

Definition deposit (key : Z) (r : Heap.ref) (c : Consumer) : Consumer :=
  set_signal_to_receive
    (Py.append_at key r (Py.setdefault key (dict_frequency_signal_to_receive c))) c.

(** The three assignments that retarget the signal object. *)
Definition retarget (listener : ListenEtherTask.t) (dest : Z) (f_out : Q)
    (s : Radiosignal.t) : Radiosignal.t :=
  Radiosignal.make (Radiosignal.id_transmitter s) dest (Radiosignal.memory s) f_out
    (ListenEtherTask.id_antenna_destination_relay listener).

Definition set_id_receiver (dest : Z) (s : Radiosignal.t) : Radiosignal.t :=
  Radiosignal.make (Radiosignal.id_transmitter s) dest (Radiosignal.memory s)
    (Radiosignal.frequency s) (Radiosignal.id_antenna_receiver s).

(** Body of the loop over the recipient's tasks.  [recur] is the recursive
    call; [id] is the key of [recipient], bound before the loop. *)
Definition on_listener (recur : Medium -> Heap.ref -> result) (id : Z)
    (r : Heap.ref) (listener : ListenEtherTask.t) (st : Medium) : result :=
  match ListenEtherTask.id_antenna_receiver listener with
  | None => Raised Py.AssertionError st
  | Some antenna =>
      if can_consumer_receive_signal_by_frequency st
           (Radiosignal.frequency (signal st r))
           (ListenEtherTask.frequency_recipiency listener)
         && can_consumer_receive_signal_by_antenna
              (Radiosignal.id_antenna_receiver (signal st r)) antenna
      then
        let key := Py.int (ListenEtherTask.frequency_recipiency listener) in
        let st1 := update_consumer id (open_information key) st in
        if negb (Heap.mem (signals st1) r (getting_information st1 id key))
        then
          let st2 := update_consumer id (record_information key r) st1 in
          match ListenEtherTask.id_destination_relay listener with
          | Some dest =>
              let st3 :=
                if ListenEtherTask.save_relayed_signals_locally_relay listener
                then update_consumer id (deposit key r) st2
                else st2 in
              match ListenEtherTask.frequency_transmission_relay listener with
              | None =>
                  Raised Py.AssertionError
                    (set_signals
                       (Heap.store r (set_id_receiver dest (signal st3 r)) (signals st3))
                       st3)
              | Some f_out =>
                  recur
                    (set_signals
                       (Heap.store r (retarget listener dest f_out (signal st3 r))
                                   (signals st3))
                       st3)
                    r
              end
          | None => Returned (update_consumer id (deposit key r) st2)
          end
        else Returned st1
      else Returned st
  end.

Fixpoint for_listeners (recur : Medium -> Heap.ref -> result) (id : Z)
    (r : Heap.ref) (tasks : list ListenEtherTask.t) (st : Medium) : result :=
  match tasks with
  | [] => Returned st
  | listener :: tasks' =>
      match on_listener recur id r listener st with
      | Returned st' => for_listeners recur id r tasks' st'
      | other => other
      end
  end.

(** [add_signal]; [fuel] bounds the depth of the recursion. *)
Fixpoint add_signal (fuel : nat) (st : Medium) (r : Heap.ref) : result :=
  match fuel with
  | O => OutOfFuel
  | S fuel' =>
      let id := Radiosignal.id_receiver (signal st r) in
      match Py.dict_get id (consumers st) with
      | None => Returned st
      | Some recipient =>
          for_listeners (add_signal fuel') id r (listen_ether_tasks recipient) st
      end
  end.

(** Number of (consumer, task) pairs whose bucket of
    [dict_getting_information] does not hold the object [r] yet. *)
Definition pending_tasks (r : Heap.ref) (c : Consumer) : nat :=
  length
    (filter (fun listener =>
               negb (existsb (Nat.eqb r)
                       (Py.dict_list
                          (Py.int (ListenEtherTask.frequency_recipiency listener))
                          (dict_getting_information c))))
            (listen_ether_tasks c)).

Definition pending (st : Medium) (r : Heap.ref) : nat :=
  list_sum (map (fun kc => pending_tasks r (snd kc)) (consumers st)).

(** [add_signal] with a depth that always suffices. *)
Definition add_signal_run (st : Medium) (r : Heap.ref) : result :=
  add_signal (S (pending st r)) st r.

Fixpoint add_signals (rs : list Heap.ref) (st : Medium) : result :=
  match rs with
  | [] => Returned st
  | r :: rs' =>
      match add_signal_run st r with
      | Returned st' => add_signals rs' st'
      | other => other
      end
  end.

(** [imitation_step]: the queues are not touched by [add_signal], so the
    signals to deliver are read once, in iteration order. *)
Definition imitation_step (duration : Q) (st : Medium) : result :=
  let st1 :=
    set_consumers
      (map (fun kc =>
              (fst kc,
               set_getting_information [] (set_signal_to_receive [] (snd kc))))
           (consumers st)) st in
  let queued :=
    concat (map (fun kc => concat (Py.values (dict_id_receiver_signals_to_send (snd kc))))
                (consumers st1)) in
  match add_signals queued st1 with
  | Returned st2 =>
      Returned (set_consumers
                  (map (fun kc => (fst kc, clear_tasks (snd kc))) (consumers st2)) st2)
  | other => other
  end.

End GlobalSystem.

(** ** local_system.py *)

Module LocalSystem.

Inductive CommunicationModeType : Type :=
| TRANSMISSION
| RECEPTION
| RELAYING_IN
| RELAYING_OUT
| FREE.

Definition mode_eqb (a b : CommunicationModeType) : bool :=
  match a, b with
  | TRANSMISSION, TRANSMISSION
  | RECEPTION, RECEPTION
  | RELAYING_IN, RELAYING_IN
  | RELAYING_OUT, RELAYING_OUT
  | FREE, FREE => true
  | _, _ => false
  end.

(** *** Local consumers *)

Record RadiotransmissionConsumer : Type :=
  { consumer_frequency : Q;
    dict_id_receiver_signals_to_send : Py.dict (list Radiosignal.t);
    listen_ether_tasks : list ListenEtherTask.t }.

Definition new_consumer (frequency : Q) : RadiotransmissionConsumer :=
  {| consumer_frequency := frequency;
     dict_id_receiver_signals_to_send := [];
     listen_ether_tasks := [] |}.

Definition clear_tasks (c : RadiotransmissionConsumer) : RadiotransmissionConsumer :=
  {| consumer_frequency := consumer_frequency c;
     dict_id_receiver_signals_to_send := [];
     listen_ether_tasks := [] |}.

Definition send_signal (c : RadiotransmissionConsumer) (id_receiver : Z)
    (memory : MemoryBlock.t) (frequency : Q)
  : RadiotransmissionConsumer * Radiosignal.t :=
  let signal := Radiosignal.make (-1) id_receiver memory frequency None in
  ({| consumer_frequency := consumer_frequency c;
      dict_id_receiver_signals_to_send :=
        Py.append_at id_receiver signal
          (Py.setdefault id_receiver (dict_id_receiver_signals_to_send c));
      listen_ether_tasks := listen_ether_tasks c |},
   signal).

Definition listen_ether (c : RadiotransmissionConsumer)
    (frequency_recipiency : option Q) : RadiotransmissionConsumer * bool :=
  let task :=
    ListenEtherTask.make (Py.or_else frequency_recipiency (consumer_frequency c))
      None None None None false in
  if negb (ListenEtherTask.mem task (listen_ether_tasks c))
  then ({| consumer_frequency := consumer_frequency c;
           dict_id_receiver_signals_to_send := dict_id_receiver_signals_to_send c;
           listen_ether_tasks := listen_ether_tasks c ++ [task] |}, true)
  else (c, false).

Definition i_am_repeater (c : RadiotransmissionConsumer) (id_destination_relay : Z)
    (frequency_recipiency frequency_transmission_relay : option Q)
    (save_relayed_signals_locally_relay : bool) : RadiotransmissionConsumer * bool :=
  let task :=
    ListenEtherTask.make
      (Py.or_else frequency_recipiency (consumer_frequency c))
      None
      (Some (Py.or_else frequency_transmission_relay (consumer_frequency c)))
      (Some id_destination_relay)
      None
      save_relayed_signals_locally_relay in
  if ListenEtherTask.mem task (listen_ether_tasks c) then (c, false)
  else ({| consumer_frequency := consumer_frequency c;
           dict_id_receiver_signals_to_send := dict_id_receiver_signals_to_send c;
           listen_ether_tasks := listen_ether_tasks c ++ [task] |}, true).

(** *** Transmit-receive devices *)

(** The fields of the dataclass that the code reads; the remaining ones
    (mass, guidance time, loss coefficients, noise, network id, offset
    angle) are inert data. *)
Record TransmitReceiveDeviceProperties : Type :=
  { channel_capacity_transmit : Q;
    channel_capacity_receive : Q;
    frequency_range_min : Q;
    frequency_range_max : Q;
    consumption : Q;
    consumption_transmission : option Q;
    consumption_reception : option Q }.

(** [__post_init__], run by the constructor of the dataclass. *)
Definition post_init (p : TransmitReceiveDeviceProperties)
  : Py.exn + TransmitReceiveDeviceProperties :=
  if Py.gt (frequency_range_min p) (frequency_range_max p)
  then inl (Py.Exception Py.RangeMinAboveMax)
  else inr {| channel_capacity_transmit := channel_capacity_transmit p;
              channel_capacity_receive := channel_capacity_receive p;
              frequency_range_min := frequency_range_min p;
              frequency_range_max := frequency_range_max p;
              consumption := consumption p;
              consumption_transmission :=
                match consumption_transmission p with
                | None => Some (consumption p)
                | Some x => Some x
                end;
              consumption_reception :=
                match consumption_reception p with
                | None => Some (consumption p)
                | Some x => Some x
                end |}.

Record TransmitReceiveDevice : Type :=
  { id_antenna : Z;
    properties : TransmitReceiveDeviceProperties;
    frequency : Q;
    communication_mode : CommunicationModeType }.

(** [TransmitReceiveDevice.__init__]. *)
Definition new_device (id : Z) (p : TransmitReceiveDeviceProperties)
  : TransmitReceiveDevice :=
  {| id_antenna := id;
     properties := p;
     frequency := (frequency_range_max p + frequency_range_min p) / 2;
     communication_mode := FREE |}.

Definition set_mode (m : CommunicationModeType) (d : TransmitReceiveDevice)
  : TransmitReceiveDevice :=
  {| id_antenna := id_antenna d;
     properties := properties d;
     frequency := frequency d;
     communication_mode := m |}.

Definition set_frequency (f : Q) (d : TransmitReceiveDevice)
  : Py.exn + TransmitReceiveDevice :=
  if Py.lt f (frequency_range_min (properties d))
  then inl (Py.Exception Py.FrequencyBelowRange)
  else if Py.gt f (frequency_range_max (properties d))
  then inl (Py.Exception Py.FrequencyAboveRange)
  else inr {| id_antenna := id_antenna d;
              properties := properties d;
              frequency := f;
              communication_mode := communication_mode d |}.

(** Both branches of [set_consumption] return without any effect. *)
Definition set_consumption (d : TransmitReceiveDevice) : TransmitReceiveDevice := d.

(** The devices of a channel are references: keys of the registry. *)
Record RelayChannel : Type :=
  { antenna_in : Z;
    antenna_out : Z;
    id_destination_relay : Z;
    id_antenna_destination_relay : option Z;
    save_relayed_signals_locally_relay : bool }.

(** [RelayChannel.__eq__]; devices compare by identity. *)
Definition relay_eqb (self other : RelayChannel) : bool :=
  Z.eqb (antenna_in self) (antenna_in other)
  && Z.eqb (antenna_out self) (antenna_out other)
  && Z.eqb (id_destination_relay self) (id_destination_relay other)
  && Py.eq_opt_Z (id_antenna_destination_relay self) (id_antenna_destination_relay other)
  && Bool.eqb (save_relayed_signals_locally_relay self)
              (save_relayed_signals_locally_relay other).

(** *** The local system *)

Record RadiotransmissionSystem : Type :=
  { (* key of the bound consumer in the registry of the medium *)
    global_consumer : Z;
    consumers : Py.dict RadiotransmissionConsumer;
    antennas : Py.dict TransmitReceiveDevice;
    frequency_accuracy : Q;
    list_transmission_channel : list Z;
    dict_reception_channel : Py.dict Z;
    (* deep copies of the devices *)
    dict_reception_channel_from_prev_step : Py.dict TransmitReceiveDevice;
    list_relay_channel : list RelayChannel;
    dict_signals_to_send : Py.dict (list Radiosignal.t);
    dict_id_device_memory_blocks_to_receive : Py.dict (list MemoryBlock.t);
    duration : option Q }.

Abbreviation System := RadiotransmissionSystem.

Definition new_system (global_consumer : Z) : System :=
  {| global_consumer := global_consumer;
     consumers := [];
     antennas := [];
     frequency_accuracy := 1;
     list_transmission_channel := [];
     dict_reception_channel := [];
     dict_reception_channel_from_prev_step := [];
     list_relay_channel := [];
     dict_signals_to_send := [];
     dict_id_device_memory_blocks_to_receive := [];
     duration := None |}.

Definition set_consumers (x : Py.dict RadiotransmissionConsumer) (s : System) : System :=
  {| global_consumer := global_consumer s; consumers := x; antennas := antennas s;
     frequency_accuracy := frequency_accuracy s;
     list_transmission_channel := list_transmission_channel s;
     dict_reception_channel := dict_reception_channel s;
     dict_reception_channel_from_prev_step := dict_reception_channel_from_prev_step s;
     list_relay_channel := list_relay_channel s;
     dict_signals_to_send := dict_signals_to_send s;
     dict_id_device_memory_blocks_to_receive := dict_id_device_memory_blocks_to_receive s;
     duration := duration s |}.

Definition set_antennas (x : Py.dict TransmitReceiveDevice) (s : System) : System :=
  {| global_consumer := global_consumer s; consumers := consumers s; antennas := x;
     frequency_accuracy := frequency_accuracy s;
     list_transmission_channel := list_transmission_channel s;
     dict_reception_channel := dict_reception_channel s;
     dict_reception_channel_from_prev_step := dict_reception_channel_from_prev_step s;
     list_relay_channel := list_relay_channel s;
     dict_signals_to_send := dict_signals_to_send s;
     dict_id_device_memory_blocks_to_receive := dict_id_device_memory_blocks_to_receive s;
     duration := duration s |}.

Definition set_transmission_channel (x : list Z) (s : System) : System :=
  {| global_consumer := global_consumer s; consumers := consumers s;
     antennas := antennas s; frequency_accuracy := frequency_accuracy s;
     list_transmission_channel := x;
     dict_reception_channel := dict_reception_channel s;
     dict_reception_channel_from_prev_step := dict_reception_channel_from_prev_step s;
     list_relay_channel := list_relay_channel s;
     dict_signals_to_send := dict_signals_to_send s;
     dict_id_device_memory_blocks_to_receive := dict_id_device_memory_blocks_to_receive s;
     duration := duration s |}.

Definition set_reception_channel (x : Py.dict Z) (s : System) : System :=
  {| global_consumer := global_consumer s; consumers := consumers s;
     antennas := antennas s; frequency_accuracy := frequency_accuracy s;
     list_transmission_channel := list_transmission_channel s;
     dict_reception_channel := x;
     dict_reception_channel_from_prev_step := dict_reception_channel_from_prev_step s;
     list_relay_channel := list_relay_channel s;
     dict_signals_to_send := dict_signals_to_send s;
     dict_id_device_memory_blocks_to_receive := dict_id_device_memory_blocks_to_receive s;
     duration := duration s |}.

Definition set_reception_channel_from_prev_step (x : Py.dict TransmitReceiveDevice)
    (s : System) : System :=
  {| global_consumer := global_consumer s; consumers := consumers s;
     antennas := antennas s; frequency_accuracy := frequency_accuracy s;
     list_transmission_channel := list_transmission_channel s;
     dict_reception_channel := dict_reception_channel s;
     dict_reception_channel_from_prev_step := x;
     list_relay_channel := list_relay_channel s;
     dict_signals_to_send := dict_signals_to_send s;
     dict_id_device_memory_blocks_to_receive := dict_id_device_memory_blocks_to_receive s;
     duration := duration s |}.

Definition set_relay_channel (x : list RelayChannel) (s : System) : System :=
  {| global_consumer := global_consumer s; consumers := consumers s;
     antennas := antennas s; frequency_accuracy := frequency_accuracy s;
     list_transmission_channel := list_transmission_channel s;
     dict_reception_channel := dict_reception_channel s;
     dict_reception_channel_from_prev_step := dict_reception_channel_from_prev_step s;
     list_relay_channel := x;
     dict_signals_to_send := dict_signals_to_send s;
     dict_id_device_memory_blocks_to_receive := dict_id_device_memory_blocks_to_receive s;
     duration := duration s |}.

Definition set_signals_to_send (x : Py.dict (list Radiosignal.t)) (s : System) : System :=
  {| global_consumer := global_consumer s; consumers := consumers s;
     antennas := antennas s; frequency_accuracy := frequency_accuracy s;
     list_transmission_channel := list_transmission_channel s;
     dict_reception_channel := dict_reception_channel s;
     dict_reception_channel_from_prev_step := dict_reception_channel_from_prev_step s;
     list_relay_channel := list_relay_channel s;
     dict_signals_to_send := x;
     dict_id_device_memory_blocks_to_receive := dict_id_device_memory_blocks_to_receive s;
     duration := duration s |}.

Definition set_memory_blocks_to_receive (x : Py.dict (list MemoryBlock.t)) (s : System)
  : System :=
  {| global_consumer := global_consumer s; consumers := consumers s;
     antennas := antennas s; frequency_accuracy := frequency_accuracy s;
     list_transmission_channel := list_transmission_channel s;
     dict_reception_channel := dict_reception_channel s;
     dict_reception_channel_from_prev_step := dict_reception_channel_from_prev_step s;
     list_relay_channel := list_relay_channel s;
     dict_signals_to_send := dict_signals_to_send s;
     dict_id_device_memory_blocks_to_receive := x;
     duration := duration s |}.

Definition set_duration (x : option Q) (s : System) : System :=
  {| global_consumer := global_consumer s; consumers := consumers s;
     antennas := antennas s; frequency_accuracy := frequency_accuracy s;
     list_transmission_channel := list_transmission_channel s;
     dict_reception_channel := dict_reception_channel s;
     dict_reception_channel_from_prev_step := dict_reception_channel_from_prev_step s;
     list_relay_channel := list_relay_channel s;
     dict_signals_to_send := dict_signals_to_send s;
     dict_id_device_memory_blocks_to_receive := dict_id_device_memory_blocks_to_receive s;
     duration := x |}.

(** Mutation of the device object registered under [id]. *)
Definition update_antenna (id : Z) (f : TransmitReceiveDevice -> TransmitReceiveDevice)
    (s : System) : System :=
  set_antennas (Py.dict_update id f (antennas s)) s.

Definition register_consumer (frequency : Q) (s : System) : System * Z :=
  let id_consumer := Z.of_nat (length (consumers s)) in
  (set_consumers (Py.dict_set id_consumer (new_consumer frequency) (consumers s)) s,
   id_consumer).

Definition add_device (device_properties : TransmitReceiveDeviceProperties)
    (s : System) : System :=
  let id_ := Z.of_nat (length (antennas s)) in
  set_antennas (Py.dict_set id_ (new_device id_ device_properties) (antennas s)) s.

(** [if frequency: antenna.set_frequency(frequency)] on the device
    registered under [id], which the caller has looked up before. *)
Definition tune (frequency_arg : option Q) (id : Z) (s : System) : Py.exn + System :=
  match frequency_arg with
  | None => inr s
  | Some f =>
      if Py.truthy f then
        match Py.dict_get id (antennas s) with
        | None => inr s
        | Some d =>
            match set_frequency f d with
            | inl e => inl e
            | inr d' => inr (set_antennas (Py.dict_set id d' (antennas s)) s)
            end
        end
      else inr s
  end.

(** [antenna.frequency != frequency] for an optional [frequency]. *)
Definition frequency_differs (d : TransmitReceiveDevice) (frequency_arg : option Q) : bool :=
  match frequency_arg with
  | None => true
  | Some f => negb (Qeq_bool (frequency d) f)
  end.

Definition assign_device_as_transmitter (s : System) (memory_block : MemoryBlock.t)
    (id_antenna_arg id_receiver : Z) (frequency_arg : option Q)
    (id_antenna_receiver : option Z) : System * (Py.exn + bool) :=
  match Py.dict_get id_antenna_arg (antennas s) with
  | None => (s, inl (Py.KeyError id_antenna_arg))
  | Some antenna =>
      if negb (mode_eqb (communication_mode antenna) FREE)
         && negb (mode_eqb (communication_mode antenna) TRANSMISSION)
      then (s, inl (Py.Exception (Py.WorksOnAnotherMode id_antenna_arg)))
      else if existsb (Z.eqb id_antenna_arg) (list_transmission_channel s)
              && (frequency_differs antenna frequency_arg
                  && match frequency_arg with Some _ => true | None => false end)
      then (s, inl (Py.Exception (Py.WorksOnAnotherFrequency id_antenna_arg)))
      else
        let s1 := update_antenna id_antenna_arg (set_mode TRANSMISSION) s in
        match tune frequency_arg id_antenna_arg s1 with
        | inl e => (s1, inl e)
        | inr s2 =>
            let antenna_frequency :=
              match Py.dict_get id_antenna_arg (antennas s2) with
              | Some d => frequency d
              | None => frequency antenna
              end in
            let signal :=
              Radiosignal.make (-1) id_receiver memory_block antenna_frequency
                id_antenna_receiver in
            let s3 :=
              set_signals_to_send
                (Py.append_at (id_antenna antenna) signal
                   (Py.setdefault (id_antenna antenna) (dict_signals_to_send s2))) s2 in
            let s4 :=
              if negb (existsb (Z.eqb id_antenna_arg) (list_transmission_channel s3))
              then set_transmission_channel
                     (list_transmission_channel s3 ++ [id_antenna_arg]) s3
              else s3 in
            (s4, inr false)
        end
  end.

Definition assign_device_as_receiver (s : System) (id_antenna_arg : Z)
    (frequency_arg : option Q) : System * (Py.exn + bool) :=
  match Py.dict_get id_antenna_arg (antennas s) with
  | None => (s, inl (Py.KeyError id_antenna_arg))
  | Some antenna =>
      if negb (mode_eqb (communication_mode antenna) FREE)
         && negb (mode_eqb (communication_mode antenna) RECEPTION)
      then (s, inl (Py.Exception (Py.WorksOnAnotherMode id_antenna_arg)))
      else if existsb (Z.eqb id_antenna_arg) (Py.values (dict_reception_channel s))
              && frequency_differs antenna frequency_arg
      then (s, inl (Py.Exception (Py.WorksOnAnotherFrequency id_antenna_arg)))
      else
        let s1 := update_antenna id_antenna_arg (set_mode RECEPTION) s in
        match tune frequency_arg id_antenna_arg s1 with
        | inl e => (s1, inl e)
        | inr s2 =>
            let s3 :=
              if negb (Py.dict_mem id_antenna_arg (dict_reception_channel s2))
              then set_reception_channel
                     (Py.dict_set id_antenna_arg id_antenna_arg
                        (dict_reception_channel s2)) s2
              else s2 in
            (s3, inr true)
        end
  end.

Definition assign_device_as_repeater (s : System) (id_antenna_in id_antenna_out : Z)
    (id_destination_relay_arg : Z) (id_antenna_destination_relay_arg : option Z)
    (frequency_in frequency_out : option Q)
    (save_relayed_signals_locally_relay_arg : bool) : System * (Py.exn + bool) :=
  match Py.dict_get id_antenna_in (antennas s) with
  | None => (s, inl (Py.KeyError id_antenna_in))
  | Some a_in =>
      match Py.dict_get id_antenna_out (antennas s) with
      | None => (s, inl (Py.KeyError id_antenna_out))
      | Some a_out =>
          if negb (mode_eqb (communication_mode a_in) FREE)
             && negb (mode_eqb (communication_mode a_in) RELAYING_IN)
          then (s, inl (Py.Exception (Py.WorksOnAnotherMode id_antenna_in)))
          else if negb (mode_eqb (communication_mode a_in) FREE)
                  && negb (mode_eqb (communication_mode a_in) RELAYING_OUT)
          then (s, inl (Py.Exception (Py.WorksOnAnotherMode id_antenna_out)))
          else if existsb (Z.eqb id_antenna_in) (map antenna_in (list_relay_channel s))
                  && Py.truthy (frequency a_in)
          then (s, inl (Py.Exception (Py.WorksOnAnotherFrequency id_antenna_in)))
          else if existsb (Z.eqb id_antenna_out) (map antenna_out (list_relay_channel s))
                  && Py.truthy (frequency a_out)
          then (s, inl (Py.Exception (Py.WorksOnAnotherFrequency id_antenna_out)))
          else
            let s1 := update_antenna id_antenna_in (set_mode RELAYING_IN) s in
            let s2 := update_antenna id_antenna_out (set_mode RELAYING_OUT) s1 in
            match tune frequency_in id_antenna_in s2 with
            | inl e => (s2, inl e)
            | inr s3 =>
                match tune frequency_out id_antenna_out s3 with
                | inl e => (s3, inl e)
                | inr s4 =>
                    let relay_channel :=
                      {| antenna_in := id_antenna_in;
                         antenna_out := id_antenna_out;
                         id_destination_relay := id_destination_relay_arg;
                         id_antenna_destination_relay := id_antenna_destination_relay_arg;
                         save_relayed_signals_locally_relay :=
                           save_relayed_signals_locally_relay_arg |} in
                    let s5 :=
                      if negb (existsb (fun other => relay_eqb other relay_channel)
                                       (list_relay_channel s4))
                      then set_relay_channel (list_relay_channel s4 ++ [relay_channel]) s4
                      else s4 in
                    (s5, inr true)
                end
            end
      end
  end.

(** *** Calls on the bound global consumer

    The local system holds a reference to a consumer object of the
    medium; the object is found under [global_consumer] in the registry. *)

Definition world : Type := GlobalSystem.RadioTransmissionMediumSystem * System.

Definition global_send_signal (m : GlobalSystem.RadioTransmissionMediumSystem) (gc : Z)
    (id_receiver : Z) (memory : MemoryBlock.t) (frequency_arg : option Q)
    (id_antenna_receiver : option Z) : GlobalSystem.RadioTransmissionMediumSystem :=
  match Py.dict_get gc (GlobalSystem.consumers m) with
  | None => m
  | Some c =>
      let '(c', h', _) :=
        GlobalSystem.send_signal c (GlobalSystem.signals m) id_receiver memory
          frequency_arg id_antenna_receiver in
      GlobalSystem.set_signals h'
        (GlobalSystem.set_consumers (Py.dict_set gc c' (GlobalSystem.consumers m)) m)
  end.

Definition global_listen_ether (m : GlobalSystem.RadioTransmissionMediumSystem) (gc : Z)
    (id_antenna_receiver : option Z) (frequency_recipiency : option Q)
  : GlobalSystem.RadioTransmissionMediumSystem :=
  GlobalSystem.update_consumer gc
    (fun c => fst (GlobalSystem.listen_ether c id_antenna_receiver frequency_recipiency)) m.

Definition global_i_am_repeater (m : GlobalSystem.RadioTransmissionMediumSystem) (gc : Z)
    (id_destination_relay_arg : Z) (id_antenna_receiver : option Z)
    (id_antenna_destination_relay_arg : option Z)
    (frequency_recipiency frequency_transmission_relay : option Q)
    (save : bool) : GlobalSystem.RadioTransmissionMediumSystem :=
  GlobalSystem.update_consumer gc
    (fun c => fst (GlobalSystem.i_am_repeater c id_destination_relay_arg
                     id_antenna_receiver id_antenna_destination_relay_arg
                     frequency_recipiency frequency_transmission_relay save)) m.

(** The signals returned by [receive_signal], with their current fields. *)
Definition global_receive_signal (m : GlobalSystem.RadioTransmissionMediumSystem) (gc : Z)
    (frequency_arg : option Q) : list Radiosignal.t :=
  match Py.dict_get gc (GlobalSystem.consumers m) with
  | None => []
  | Some c => map (GlobalSystem.signal m) (GlobalSystem.receive_signal c frequency_arg)
  end.

(** *** finalize_step *)

Definition keep_memory (id : Z) (memory : MemoryBlock.t) (s : System) : System :=
  set_memory_blocks_to_receive
    (Py.append_at id memory
       (Py.setdefault id (dict_id_device_memory_blocks_to_receive s))) s.

(** Inner loop of [finalize_step] for the entry [id |-> antenna] of the
    snapshot. *)
Fixpoint accept_signals (id : Z) (antenna : TransmitReceiveDevice)
    (received : list Radiosignal.t) (s : System) : System * (Py.exn + unit) :=
  match received with
  | [] => (s, inr tt)
  | signal :: rest =>
      if Py.eq_opt_Z (Radiosignal.id_antenna_receiver signal) (Some id) then
        match duration s with
        | None => (s, inl Py.TypeError)
        | Some d =>
            if Qeq_bool d 0 then (s, inl Py.ZeroDivisionError)
            else if Py.ge (channel_capacity_receive (properties antenna))
                          (inject_Z (MemoryBlock.size (Radiosignal.memory signal)) / d)
            then accept_signals id antenna rest
                   (keep_memory id (Radiosignal.memory signal) s)
            else accept_signals id antenna rest s
        end
      else accept_signals id antenna rest s
  end.

Fixpoint finalize_loop (m : GlobalSystem.RadioTransmissionMediumSystem)
    (snapshot : Py.dict TransmitReceiveDevice) (s : System) : System * (Py.exn + unit) :=
  match snapshot with
  | [] => (s, inr tt)
  | (id, antenna) :: rest =>
      match accept_signals id antenna
              (global_receive_signal m (global_consumer s) (Some (frequency antenna))) s
      with
      | (s', inr _) => finalize_loop m rest s'
      | raised => raised
      end
  end.

Definition finalize_step (m : GlobalSystem.RadioTransmissionMediumSystem) (s : System)
  : System * (Py.exn + unit) :=
  finalize_loop m (dict_reception_channel_from_prev_step s) s.

(** [get_antennas_signals]: the accessor over the accumulated results. *)
Definition get_antennas_signals (s : System) (id : Z) : list MemoryBlock.t :=
  Py.dict_list id (dict_id_device_memory_blocks_to_receive s).

(** *** imitation_step *)

(** Inner loop over the signals staged on the device [id |-> antenna]. *)
Fixpoint send_staged (duration_arg : Q) (id : Z) (antenna : TransmitReceiveDevice)
    (staged : list Radiosignal.t) (w : world) : world * (Py.exn + unit) :=
  match staged with
  | [] => (w, inr tt)
  | signal :: rest =>
      if Qeq_bool duration_arg 0 then (w, inl Py.ZeroDivisionError)
      else if Py.ge (channel_capacity_transmit (properties antenna))
                    (inject_Z (MemoryBlock.size (Radiosignal.memory signal)) / duration_arg)
      then
        let s1 := update_antenna id (fun d => set_consumption (set_mode TRANSMISSION d))
                    (snd w) in
        let m1 := global_send_signal (fst w) (global_consumer s1)
                    (Radiosignal.id_receiver signal) (Radiosignal.memory signal)
                    (Some (Radiosignal.frequency signal))
                    (Radiosignal.id_antenna_receiver signal) in
        send_staged duration_arg id antenna rest (m1, s1)
      else (w, inl (Py.Exception (Py.NotEnoughChannelCapacity id)))
  end.

Fixpoint send_loop (duration_arg : Q) (staged : Py.dict (list Radiosignal.t))
    (w : world) : world * (Py.exn + unit) :=
  match staged with
  | [] => (w, inr tt)
  | (id, signals) :: rest =>
      match Py.dict_get id (antennas (snd w)) with
      | None => (w, inl (Py.KeyError id))
      | Some antenna =>
          match send_staged duration_arg id antenna signals w with
          | (w', inr _) => send_loop duration_arg rest w'
          | raised => raised
          end
      end
  end.

(** Body of the loop over the reception channels. *)
Definition listen_on (w : world) (antenna_ref : Z) : world :=
  let s1 := update_antenna antenna_ref (fun d => set_consumption (set_mode RECEPTION d))
              (snd w) in
  match Py.dict_get antenna_ref (antennas s1) with
  | None => (fst w, s1)
  | Some d =>
      (global_listen_ether (fst w) (global_consumer s1)
         (Some (id_antenna d)) (Some (frequency d)), s1)
  end.

(** Body of the loop over the relay channels. *)
Definition relay_on (w : world) (channel : RelayChannel) : world :=
  let s1 := update_antenna (antenna_in channel)
              (fun d => set_consumption (set_mode RELAYING_IN d)) (snd w) in
  let s2 := update_antenna (antenna_out channel)
              (fun d => set_consumption (set_mode RELAYING_OUT d)) s1 in
  match Py.dict_get (antenna_in channel) (antennas s2),
        Py.dict_get (antenna_out channel) (antennas s2) with
  | Some d_in, Some d_out =>
      (global_i_am_repeater (fst w) (global_consumer s2)
         (id_destination_relay channel) (Some (id_antenna d_in))
         (id_antenna_destination_relay channel)
         (Some (frequency d_in)) (Some (frequency d_out))
         (save_relayed_signals_locally_relay channel), s2)
  | _, _ => (fst w, s2)
  end.

(** [deepcopy(self.dict_reception_channel)]: the devices are copied by
    value, so later mutations of the registry do not reach the copy. *)
Fixpoint deepcopy (registry : Py.dict TransmitReceiveDevice) (channels : Py.dict Z)
  : Py.dict TransmitReceiveDevice :=
  match channels with
  | [] => []
  | (id, antenna_ref) :: rest =>
      match Py.dict_get antenna_ref registry with
      | Some d => (id, d) :: deepcopy registry rest
      | None => deepcopy registry rest
      end
  end.

(** Everything [imitation_step] does after the three loops. *)
Definition end_of_step (s : System) : System :=
  let s1 := set_reception_channel_from_prev_step
              (deepcopy (antennas s) (dict_reception_channel s)) s in
  let s2 := set_memory_blocks_to_receive [] s1 in
  let s3 := set_signals_to_send [] s2 in
  let s4 := set_relay_channel []
              (set_reception_channel [] (set_transmission_channel [] s3)) in
  let s5 := set_antennas
              (map (fun kd => (fst kd, set_mode FREE (snd kd))) (antennas s4)) s4 in
  set_consumers (map (fun kc => (fst kc, clear_tasks (snd kc))) (consumers s5)) s5.

Definition imitation_step (duration_arg : Q) (w : world) : world * (Py.exn + unit) :=
  let w0 := (fst w, set_duration (Some duration_arg) (snd w)) in
  match send_loop duration_arg (dict_signals_to_send (snd w0)) w0 with
  | (w1, inl e) => (w1, inl e)
  | (w1, inr _) =>
      let w2 := fold_left listen_on (Py.values (dict_reception_channel (snd w1))) w1 in
      let w3 := fold_left relay_on (list_relay_channel (snd w2)) w2 in
      ((fst w3, end_of_step (snd w3)), inr tt)
  end.

(** *** The interface of the local system as a set of calls *)

Inductive call : Type :=
| AddDevice (constructor_arguments : TransmitReceiveDeviceProperties)
| AssignTransmitter (memory_block : MemoryBlock.t) (id_antenna_arg id_receiver : Z)
    (frequency_arg : option Q) (id_antenna_receiver : option Z)
| AssignReceiver (id_antenna_arg : Z) (frequency_arg : option Q)
| AssignRepeater (id_antenna_in id_antenna_out id_destination_relay_arg : Z)
    (id_antenna_destination_relay_arg : option Z)
    (frequency_in frequency_out : option Q) (save : bool)
| ImitationStep (duration_arg : Q)
| FinalizeStep.

(** The three assignment calls. *)
Definition is_assignment (c : call) : bool :=
  match c with
  | AssignTransmitter _ _ _ _ _ | AssignReceiver _ _
  | AssignRepeater _ _ _ _ _ _ _ => true
  | _ => false
  end.

(** The state after a call, whether it returned or raised. *)
Definition run (c : call) (w : world) : world :=
  match c with
  | AddDevice args =>
      match post_init args with
      | inl _ => w
      | inr p => (fst w, add_device p (snd w))
      end
  | AssignTransmitter mb a r f ar =>
      (fst w, fst (assign_device_as_transmitter (snd w) mb a r f ar))
  | AssignReceiver a f => (fst w, fst (assign_device_as_receiver (snd w) a f))
  | AssignRepeater a_in a_out dst dst_a f_in f_out save =>
      (fst w, fst (assign_device_as_repeater (snd w) a_in a_out dst dst_a f_in f_out save))
  | ImitationStep d => fst (imitation_step d w)
  | FinalizeStep => (fst w, fst (finalize_step (fst w) (snd w)))
  end.

Definition run_all (cs : list call) (w : world) : world := fold_left (fun w c => run c w) cs w.

End LocalSystem.

(** ** The numeric tests in double precision *)

Module Float64.

(** A Python [float]: an IEEE binary64 number. *)
Definition t : Type := spec_float.
Definition prec : Z := 53.
Definition emax : Z := 1024.

Definition add (x y : t) : t := SFadd prec emax x y.
Definition sub (x y : t) : t := SFsub prec emax x y.
Definition div (x y : t) : t := SFdiv prec emax x y.
Definition abs (x : t) : t := SFabs x.
Definition eq (x y : t) : bool := SFeqb x y.
Definition lt (x y : t) : bool := SFltb x y.
Definition gt (x y : t) : bool := SFltb y x.
Definition le (x y : t) : bool := SFleb x y.
Definition ge (x y : t) : bool := SFleb y x.

(** [float(n)] for an integer [n]. *)
Definition of_int (n : Z) : t := binary_normalize prec emax n 0 false.

Definition nan : t := S754_nan.




(** [RadioTransmissionMediumSystem.can_consumer_receive_signal_by_frequency]:
    [abs(signal_frequency - receiver_frequency) < self.frequency_accuracy]. *)
Definition can_consumer_receive_signal_by_frequency
    (frequency_accuracy signal_frequency receiver_frequency : t) : bool :=
  lt (abs (sub signal_frequency receiver_frequency)) frequency_accuracy.

(** The numeric fields of [TransmitReceiveDeviceProperties]. *)
Record TransmitReceiveDeviceProperties : Type :=
  { channel_capacity_transmit : t;
    channel_capacity_receive : t;
    frequency_range_min : t;
    frequency_range_max : t }.

(** The check of [__post_init__]. *)
Definition post_init (p : TransmitReceiveDeviceProperties)
  : Py.exn + TransmitReceiveDeviceProperties :=
  if gt (frequency_range_min p) (frequency_range_max p)
  then inl (Py.Exception Py.RangeMinAboveMax)
  else inr p.

(** The properties and the frequency of a [TransmitReceiveDevice]. *)
Record TransmitReceiveDevice : Type :=
  { properties : TransmitReceiveDeviceProperties;
    frequency : t }.

(** [TransmitReceiveDevice.__init__]: the frequency is
    [(frequency_range_max + frequency_range_min) / 2]. *)
Definition new_device (p : TransmitReceiveDeviceProperties) : TransmitReceiveDevice :=
  {| properties := p;
     frequency := div (add (frequency_range_max p) (frequency_range_min p)) (of_int 2) |}.

Definition set_frequency (f : t) (d : TransmitReceiveDevice)
  : Py.exn + TransmitReceiveDevice :=
  if lt f (frequency_range_min (properties d))
  then inl (Py.Exception Py.FrequencyBelowRange)
  else if gt f (frequency_range_max (properties d))
  then inl (Py.Exception Py.FrequencyAboveRange)
  else inr {| properties := properties d; frequency := f |}.




End Float64.

(** * Properties *)

(** ** Numbers and dictionaries *)

Lemma lt_spec (x y : Q) : Py.lt x y = true <-> x < y.
Proof.
  unfold Py.lt. rewrite negb_true_iff, <- not_true_iff_false, Qle_bool_iff.
  split; [apply Qnot_le_lt | apply Qlt_not_le].
Qed.

Lemma lt_false_spec (x y : Q) : Py.lt x y = false <-> y <= x.
Proof.
  unfold Py.lt. rewrite negb_false_iff. apply Qle_bool_iff.
Qed.

Lemma ge_spec (x y : Q) : Py.ge x y = true <-> y <= x.
Proof. unfold Py.ge. apply Qle_bool_iff. Qed.

Lemma ge_false_spec (x y : Q) : Py.ge x y = false <-> x < y.
Proof.
  unfold Py.ge. rewrite <- not_true_iff_false, Qle_bool_iff.
  split; [apply Qnot_le_lt | apply Qlt_not_le].
Qed.

Lemma truthy_false_spec (x : Q) : Py.truthy x = false <-> x == 0.
Proof.
  unfold Py.truthy. rewrite negb_false_iff. apply Qeq_bool_iff.
Qed.

Lemma eq_opt_Z_refl (a : option Z) : Py.eq_opt_Z a a = true.
Proof. destruct a; simpl; auto using Z.eqb_refl. Qed.

Lemma eq_opt_Z_eq (a b : option Z) : Py.eq_opt_Z a b = true <-> a = b.
Proof.
  destruct a, b; simpl; split; intros H; try congruence.
  - apply Z.eqb_eq in H. congruence.
  - inversion H. apply Z.eqb_refl.
Qed.

(** ** Comparison of double precision numbers *)

Section Float64Facts.
Import Float64.







Lemma le_nan_r (x : t) : le x nan = false.
Proof. now destruct x. Qed.



End Float64Facts.

Section Dict.
Context {V : Type}.

Lemma dict_get_set_same (k : Z) (v : V) (d : Py.dict V) :
  Py.dict_get k (Py.dict_set k v d) = Some v.
Proof.
  induction d as [|[k' v'] d IH]; simpl.
  - now rewrite Z.eqb_refl.
  - destruct (Z.eqb k' k) eqn:E; simpl; rewrite E; auto.
Qed.

Lemma dict_get_set_other (k k' : Z) (v : V) (d : Py.dict V) :
  k <> k' -> Py.dict_get k' (Py.dict_set k v d) = Py.dict_get k' d.
Proof.
  intros Hk. induction d as [|[k0 v0] d IH]; simpl.
  - destruct (Z.eqb k k') eqn:E; auto. apply Z.eqb_eq in E. contradiction.
  - destruct (Z.eqb k0 k) eqn:E; simpl.
    + apply Z.eqb_eq in E. subst k0.
      destruct (Z.eqb k k') eqn:E'; auto. apply Z.eqb_eq in E'. contradiction.
    + destruct (Z.eqb k0 k'); auto.
Qed.

Lemma dict_get_update_same (k : Z) (f : V -> V) (d : Py.dict V) :
  Py.dict_get k (Py.dict_update k f d) = option_map f (Py.dict_get k d).
Proof.
  induction d as [|[k' v'] d IH]; simpl; auto.
  destruct (Z.eqb k' k) eqn:E; simpl; rewrite E; auto.
Qed.

Lemma dict_get_update_other (k k' : Z) (f : V -> V) (d : Py.dict V) :
  k <> k' -> Py.dict_get k' (Py.dict_update k f d) = Py.dict_get k' d.
Proof.
  intros Hk. induction d as [|[k0 v0] d IH]; simpl; auto.
  destruct (Z.eqb k0 k) eqn:E; simpl.
  - apply Z.eqb_eq in E. subst k0.
    destruct (Z.eqb k k') eqn:E'; auto. apply Z.eqb_eq in E'. contradiction.
  - destruct (Z.eqb k0 k'); auto.
Qed.

Lemma dict_get_In (k : Z) (v : V) (d : Py.dict V) :
  Py.dict_get k d = Some v -> In (k, v) d.
Proof.
  induction d as [|[k' v'] d IH]; simpl; try discriminate.
  destruct (Z.eqb k' k) eqn:E.
  - apply Z.eqb_eq in E. intros [= ->]. left. congruence.
  - auto.
Qed.

Lemma In_dict_set (k k0 : Z) (v v0 : V) (d : Py.dict V) :
  In (k, v) (Py.dict_set k0 v0 d) -> (k, v) = (k0, v0) \/ In (k, v) d.
Proof.
  induction d as [|[k' v'] d IH]; simpl.
  - intros [H|[]]. left. congruence.
  - destruct (Z.eqb k' k0) eqn:E; simpl.
    + apply Z.eqb_eq in E. subst k'. intros [H|H]; [left; congruence | auto].
    + intros [H|H]; [right; left; exact H |]. destruct (IH H); auto.
Qed.

Lemma In_dict_update (k k0 : Z) (v : V) (f : V -> V) (d : Py.dict V) :
  In (k, v) (Py.dict_update k0 f d) ->
  In (k, v) d \/ exists v0, In (k, v0) d /\ v = f v0.
Proof.
  induction d as [|[k' v'] d IH]; simpl; auto.
  destruct (Z.eqb k' k0) eqn:E; simpl.
  - intros [H|H]; auto. inversion H; subst. right. exists v'. auto.
  - intros [H|H]; auto. destruct (IH H) as [H'|[v0 [H1 H2]]]; auto.
    right. exists v0. auto.
Qed.
End Dict.

Section DictList.
Context {V : Type}.

Lemma dict_list_append_same (k : Z) (x : V) (d : Py.dict (list V)) :
  Py.dict_list k (Py.append_at k x d) = Py.dict_list k d ++ [x].
Proof.
  unfold Py.append_at. unfold Py.dict_list at 1. now rewrite dict_get_set_same.
Qed.

Lemma dict_list_append_other (k k' : Z) (x : V) (d : Py.dict (list V)) :
  k <> k' -> Py.dict_list k' (Py.append_at k x d) = Py.dict_list k' d.
Proof.
  intros Hk. unfold Py.append_at, Py.dict_list.
  now rewrite dict_get_set_other.
Qed.

Lemma dict_list_setdefault (k k' : Z) (d : Py.dict (list V)) :
  Py.dict_list k' (Py.setdefault k d) = Py.dict_list k' d.
Proof.
  unfold Py.setdefault, Py.dict_mem.
  destruct (Py.dict_get k d) eqn:E; auto.
  unfold Py.dict_list. destruct (Z.eq_dec k k') as [->|Hk].
  - now rewrite dict_get_set_same, E.
  - now rewrite dict_get_set_other.
Qed.
End DictList.

(** ** The global medium *)

Section MediumProperties.
Import GlobalSystem.




(** A scenario at the boundary: accuracy 10, signal at 110, task at 100. *)
Definition boundary_medium : Medium :=
  {| consumers := [(1%Z, set_tasks [ListenEtherTask.make 100 (Some 0%Z) None None None false]
                         (new_consumer {| frequency := 100; id_consumer := 1 |}))];
     frequency_accuracy := 10;
     signals := snd (Heap.alloc (Radiosignal.make 2 1 (MemoryBlock.make 7 0 4) 110 (Some 0%Z))
                                Heap.empty) |}.


(** ** Registration of tasks *)

(** [listen_ether] appends the task only when no equal task is active and
    reports whether it did. *)
Lemma listen_ether_appends_if_absent (c : Consumer) (a : option Z) (f : option Q) :
  let task :=
    ListenEtherTask.make (Py.or_else f (frequency (properties c))) a None None None false in
  listen_ether c a f =
  if ListenEtherTask.mem task (listen_ether_tasks c)
  then (c, false)
  else (set_tasks (listen_ether_tasks c ++ [task]) c, true).
Proof.
  unfold listen_ether. simpl.
  destruct (ListenEtherTask.mem _ (listen_ether_tasks c)); reflexivity.
Qed.

(** [i_am_repeater] never looks at the active tasks: unless the destination
    is the consumer itself, it appends and returns [True]. *)
Lemma i_am_repeater_always_appends (c : Consumer) (dest : Z) (a a' : option Z)
    (f_in f_out : option Q) (save : bool) :
  Z.eqb (id_consumer (properties c)) dest = false ->
  i_am_repeater c dest a a' f_in f_out save =
  (set_tasks
     (listen_ether_tasks c ++
        [ListenEtherTask.make (Py.or_else f_in (frequency (properties c))) a
           (Some (Py.or_else f_out (frequency (properties c)))) (Some dest) a' save]) c,
   true).
Proof.
  intros H. unfold i_am_repeater. now rewrite H.
Qed.

Definition relay_task_1_to_2 : ListenEtherTask.t :=
  ListenEtherTask.make 100 (Some 0%Z) (Some 150) (Some 2%Z) (Some 1%Z) false.

Definition consumer_1 : Consumer :=
  new_consumer {| frequency := 100; id_consumer := 1 |}.

(** C7.  Registering the same relay twice in one step: the second call of
    [i_am_repeater] finds the identical task active, appends it again and
    returns [True], whereas the second identical [listen_ether] call (and
    the second identical call of the local consumer's [i_am_repeater])
    leaves the list alone and returns [False]. *)
Theorem i_am_repeater_registers_identical_task_twice :
  let once := fst (i_am_repeater consumer_1 2 (Some 0%Z) (Some 1%Z) (Some 100) (Some 150) false) in
  listen_ether_tasks once = [relay_task_1_to_2]
  /\ ListenEtherTask.mem relay_task_1_to_2 (listen_ether_tasks once) = true
  /\ i_am_repeater once 2 (Some 0%Z) (Some 1%Z) (Some 100) (Some 150) false
     = (set_tasks [relay_task_1_to_2; relay_task_1_to_2] consumer_1, true)
  /\ (let listening := fst (listen_ether consumer_1 (Some 0%Z) (Some 100)) in
      listen_ether listening (Some 0%Z) (Some 100) = (listening, false))
  /\ (let local := fst (LocalSystem.i_am_repeater (LocalSystem.new_consumer 100) 2
                          (Some 100) (Some 150) false) in
      LocalSystem.i_am_repeater local 2 (Some 100) (Some 150) false = (local, false)).
Proof.
  repeat split.
Qed.

(** ** Falsy frequencies *)

Lemma or_else_falsy (f d : Q) :
  Py.truthy f = false ->
  Py.or_else (Some f) d = Py.or_else None d
  /\ Py.or_else (Some f) d = Py.or_else (Some d) d.
Proof.
  intros H. simpl. rewrite H. split; [reflexivity|]. now destruct (Py.truthy d).
Qed.

Lemma or_else_truthy (x : option Q) (d : Q) :
  Py.truthy d = true -> Py.truthy (Py.or_else x d) = true.
Proof.
  intros Hd. destruct x as [q|]; simpl; auto.
  destruct (Py.truthy q) eqn:E; auto.
Qed.

(** A consumer whose default frequency is zero. *)
Definition consumer_at_zero : Consumer :=
  new_consumer {| frequency := 0; id_consumer := 1 |}.

(** Consumer 1 has queued a signal at its default frequency 0 for
    consumer 2, whose default frequency is 100 and which listens at 5 on
    antenna 0. *)
Definition carrier_zero_medium : Medium :=
  Eval vm_compute in
  let '(c1, h, _) :=
    send_signal consumer_at_zero Heap.empty 2 (MemoryBlock.make 7 0 4) None (Some 0%Z) in
  {| consumers :=
       [(1%Z, c1);
        (2%Z, fst (listen_ether (new_consumer {| frequency := 100; id_consumer := 2 |})
                     (Some 0%Z) (Some 5)))];
     frequency_accuracy := 10;
     signals := h |}.

(** Frequency zero is not out of reach.  With a default frequency of zero
    a signal is queued at carrier frequency zero and a task listens at zero;
    and a signal at carrier frequency zero is delivered to a consumer that
    listens within the accuracy of zero, which reads it with
    [receive_signal]. *)
Lemma zero_default_reaches_frequency_zero :
  (let '(c', h', sent) :=
     send_signal consumer_at_zero Heap.empty 2 (MemoryBlock.make 7 0 4) None (Some 0%Z) in
   sent = true
   /\ Py.dict_list 2 (dict_id_receiver_signals_to_send c') = [0%nat]
   /\ Radiosignal.frequency (Heap.cell h' 0%nat) == 0)
  /\ (let '(c', added) := listen_ether consumer_at_zero (Some 0%Z) (Some 0) in
      added = true
      /\ map ListenEtherTask.frequency_recipiency (listen_ether_tasks c') = [0])
  /\ match add_signal 1 carrier_zero_medium 0%nat with
     | Returned st =>
         match Py.dict_get 2 (consumers st) with
         | Some c2 =>
             receive_signal c2 (Some 5) = [0%nat]
             /\ Radiosignal.frequency (signal st 0%nat) == 0
         | None => False
         end
     | _ => False
     end.
Proof.
  split; [|split]; vm_compute; repeat split; reflexivity.
Qed.

(** C10 (amended).  A falsy frequency argument (zero) is indistinguishable
    from an omitted one in [send_signal], [receive_signal] and
    [listen_ether]: each call equals the call without the frequency and the
    call with the default frequency of the consumer.  Hence, for a consumer
    whose default frequency is not zero, [send_signal] never creates a
    signal at carrier frequency zero and [listen_ether] never creates a task
    that listens at zero. *)
Theorem zero_frequency_is_replaced_by_default :
  forall c : Consumer,
    (forall f : Q, Py.truthy f = false ->
       (forall h rcv m a,
           send_signal c h rcv m (Some f) a = send_signal c h rcv m None a
           /\ send_signal c h rcv m (Some f) a
              = send_signal c h rcv m (Some (frequency (properties c))) a)
       /\ receive_signal c (Some f) = receive_signal c None
       /\ receive_signal c (Some f) = receive_signal c (Some (frequency (properties c)))
       /\ (forall a,
              listen_ether c a (Some f) = listen_ether c a None
              /\ listen_ether c a (Some f)
                 = listen_ether c a (Some (frequency (properties c)))))
    /\ (Py.truthy (frequency (properties c)) = true ->
        (forall h rcv m f a c' h',
            send_signal c h rcv m f a = (c', h', true) ->
            Py.dict_list rcv (dict_id_receiver_signals_to_send c')
            = Py.dict_list rcv (dict_id_receiver_signals_to_send c) ++ [Heap.fresh h]
            /\ Py.truthy (Radiosignal.frequency (Heap.cell h' (Heap.fresh h))) = true)
        /\ (forall a f c',
               listen_ether c a f = (c', true) ->
               exists task,
                 listen_ether_tasks c' = listen_ether_tasks c ++ [task]
                 /\ Py.truthy (ListenEtherTask.frequency_recipiency task) = true)).
Proof.
  intros c. split.
  - intros f Hf.
    destruct (or_else_falsy f (frequency (properties c)) Hf) as [Hnone Hdefault].
    split; [|split; [|split]].
    + intros h rcv m a. unfold send_signal. rewrite <- Hdefault, Hnone. auto.
    + unfold receive_signal. now rewrite Hnone.
    + unfold receive_signal. now rewrite <- Hdefault.
    + intros a. unfold listen_ether. rewrite <- Hdefault, Hnone. auto.
  - intros Hd. split.
    + intros h rcv m f a c' h' H. unfold send_signal in H.
      destruct (Z.eqb (id_consumer (properties c)) rcv); [discriminate|].
      simpl in H. inversion H; subst; clear H. simpl. split.
      * rewrite dict_list_append_same. now rewrite dict_list_setdefault.
      * rewrite Nat.eqb_refl. simpl. now apply or_else_truthy.
    + intros a f c' H. rewrite listen_ether_appends_if_absent in H.
      destruct (ListenEtherTask.mem _ (listen_ether_tasks c)); [discriminate|].
      inversion H; subst; clear H. eexists. split; [reflexivity|].
      simpl. now apply or_else_truthy.
Qed.

Lemma zero_frequency_is_replaced_by_default_witness :
  send_signal consumer_1 Heap.empty 2 (MemoryBlock.make 7 0 4) (Some (0 # 3)) None
  = send_signal consumer_1 Heap.empty 2 (MemoryBlock.make 7 0 4) None None
  /\ receive_signal consumer_1 (Some 0) = receive_signal consumer_1 (Some 100)
  /\ Py.truthy
       (Radiosignal.frequency
          (Heap.cell
             (snd (fst (send_signal consumer_1 Heap.empty 2 (MemoryBlock.make 7 0 4)
                          (Some 0) None))) 0%nat)) = true.
Proof.
  destruct (zero_frequency_is_replaced_by_default consumer_1) as [Hsame Hnonzero].
  assert (Hzero : Py.truthy (0 # 3) = false) by reflexivity.
  assert (Hzero' : Py.truthy 0 = false) by reflexivity.
  assert (Hdefault : Py.truthy (frequency (properties consumer_1)) = true) by reflexivity.
  split; [|split].
  - exact (proj1 (proj1 (Hsame (0 # 3) Hzero) Heap.empty 2%Z (MemoryBlock.make 7 0 4) None)).
  - exact (proj1 (proj2 (proj2 (Hsame 0 Hzero')))).
  - exact (proj2 (proj1 (Hnonzero Hdefault) Heap.empty 2%Z (MemoryBlock.make 7 0 4)
                    (Some 0) None _ _ eq_refl)).
Defined.

(** ** Termination of [add_signal]

    Every recursive call is preceded by the insertion of the signal object
    into a bucket of [dict_getting_information] that did not hold it, and
    the bucket belongs to a task of the recipient.  The number of (consumer,
    task) pairs whose bucket does not hold the object, [pending], therefore
    decreases along the recursion. *)

Lemma filter_length_le {A : Type} (f g : A -> bool) (l : list A) :
  (forall x, In x l -> f x = true -> g x = true) ->
  (length (filter f l) <= length (filter g l))%nat.
Proof.
  induction l as [|a l IH]; simpl; intros H; [lia|].
  assert (IH' := IH (fun x Hx => H x (or_intror Hx))).
  destruct (f a) eqn:Ef.
  - rewrite (H a (or_introl eq_refl) Ef). simpl. lia.
  - destruct (g a); simpl; lia.
Qed.

Lemma filter_length_lt {A : Type} (f g : A -> bool) (l : list A) (a : A) :
  (forall x, In x l -> f x = true -> g x = true) ->
  In a l -> f a = false -> g a = true ->
  (length (filter f l) < length (filter g l))%nat.
Proof.
  induction l as [|b l IH]; simpl; intros H Ha Hf Hg; [contradiction|].
  assert (Hle := filter_length_le f g l (fun x Hx => H x (or_intror Hx))).
  destruct Ha as [->|Ha].
  - rewrite Hf, Hg. simpl. lia.
  - assert (IH' := IH (fun x Hx => H x (or_intror Hx)) Ha Hf Hg).
    destruct (f b) eqn:Ef.
    + rewrite (H b (or_introl eq_refl) Ef). simpl. lia.
    + destruct (g b); simpl; lia.
Qed.

Section Pending.
Variable r : Heap.ref.

(** The object [r] is in the list, by identity. *)
Definition holds (l : list Heap.ref) : bool := existsb (Nat.eqb r) l.

Definition bucket (c : Consumer) (key : Z) : list Heap.ref :=
  Py.dict_list key (dict_getting_information c).

(** [c'] has the tasks of [c] and its buckets hold [r] wherever those of
    [c] do. *)
Definition covers (c c' : Consumer) : Prop :=
  listen_ether_tasks c' = listen_ether_tasks c
  /\ forall key, holds (bucket c key) = true -> holds (bucket c' key) = true.

Definition grows (d d' : Py.dict Consumer) : Prop :=
  Forall2 (fun kc kc' => fst kc = fst kc' /\ covers (snd kc) (snd kc')) d d'.

Lemma covers_refl (c : Consumer) : covers c c.
Proof. split; auto. Qed.

Lemma covers_trans (c1 c2 c3 : Consumer) : covers c1 c2 -> covers c2 c3 -> covers c1 c3.
Proof.
  intros [H1 H2] [H3 H4]. split; [congruence | auto].
Qed.

Lemma grows_refl (d : Py.dict Consumer) : grows d d.
Proof.
  induction d; constructor; auto. split; auto using covers_refl.
Qed.

Lemma grows_trans (d1 d2 d3 : Py.dict Consumer) : grows d1 d2 -> grows d2 d3 -> grows d1 d3.
Proof.
  intros H. revert d3. induction H as [|a b l l' [Hk Hc] _ IH]; intros d3 H23.
  - inversion H23. constructor.
  - inversion H23 as [|b' c' l2 l3 [Hk' Hc'] Htl]; subst. constructor.
    + split; [congruence | eauto using covers_trans].
    + now apply IH.
Qed.

Lemma grows_update (id : Z) (f : Consumer -> Consumer) (d : Py.dict Consumer) :
  (forall c, covers c (f c)) -> grows d (Py.dict_update id f d).
Proof.
  intros Hf. induction d as [|[k c] d IH]; simpl; [constructor|].
  destruct (Z.eqb k id).
  - constructor; [split; simpl; auto | apply grows_refl].
  - constructor; [split; simpl; auto using covers_refl | exact IH].
Qed.

Lemma grows_get (d d' : Py.dict Consumer) (id : Z) (c : Consumer) :
  grows d d' -> Py.dict_get id d = Some c ->
  exists c', Py.dict_get id d' = Some c' /\ covers c c'.
Proof.
  induction 1 as [|[k a] [k' b] l l' [Hk Hc] _ IH]; simpl; [discriminate|].
  simpl in Hk, Hc. subst k'. destruct (Z.eqb k id).
  - intros [= <-]. eauto.
  - exact IH.
Qed.

Lemma pending_tasks_unfold (c : Consumer) :
  pending_tasks r c =
  length (filter (fun listener =>
                    negb (holds (bucket c (Py.int (ListenEtherTask.frequency_recipiency
                                                     listener)))))
                 (listen_ether_tasks c)).
Proof. reflexivity. Qed.

Lemma covers_pending (c c' : Consumer) :
  covers c c' -> (pending_tasks r c' <= pending_tasks r c)%nat.
Proof.
  intros [Ht Hb]. rewrite !pending_tasks_unfold, Ht.
  apply filter_length_le. intros l _ H.
  apply negb_true_iff in H. apply negb_true_iff.
  destruct (holds (bucket c _)) eqn:E; auto.
  rewrite (Hb _ E) in H. discriminate.
Qed.

Definition pending_in (d : Py.dict Consumer) : nat :=
  list_sum (map (fun kc => pending_tasks r (snd kc)) d).

Lemma pending_unfold (st : Medium) : pending st r = pending_in (consumers st).
Proof. reflexivity. Qed.

Lemma grows_pending (d d' : Py.dict Consumer) :
  grows d d' -> (pending_in d' <= pending_in d)%nat.
Proof.
  unfold pending_in.
  induction 1 as [|a b l l' [_ Hc] _ IH]; simpl; [lia|].
  apply covers_pending in Hc. lia.
Qed.

Lemma pending_update_lt (id : Z) (f : Consumer -> Consumer) (d : Py.dict Consumer)
    (c : Consumer) :
  Py.dict_get id d = Some c ->
  (pending_tasks r (f c) < pending_tasks r c)%nat ->
  (pending_in (Py.dict_update id f d) < pending_in d)%nat.
Proof.
  unfold pending_in.
  induction d as [|[k a] d IH]; simpl; [discriminate|].
  destruct (Z.eqb k id).
  - intros [= ->] H. simpl. lia.
  - intros Hg H. simpl. specialize (IH Hg H). lia.
Qed.

(** The three mutations of the recipient made by the loop body. *)
Lemma bucket_open_information (key key' : Z) (c : Consumer) :
  bucket (open_information key c) key' = bucket c key'.
Proof. unfold bucket, open_information. simpl. apply dict_list_setdefault. Qed.

Lemma covers_open (key : Z) (c : Consumer) : covers c (open_information key c).
Proof.
  split; [reflexivity|]. intros key'. now rewrite bucket_open_information.
Qed.

Lemma holds_app (l l' : list Heap.ref) : holds (l ++ l') = holds l || holds l'.
Proof. apply existsb_app. Qed.

Lemma covers_record (key : Z) (r' : Heap.ref) (c : Consumer) :
  covers c (record_information key r' c).
Proof.
  split; [reflexivity|]. intros key' H. unfold bucket, record_information. simpl.
  destruct (Z.eq_dec key key') as [->|Hk].
  - rewrite dict_list_append_same, holds_app. unfold bucket in H. now rewrite H.
  - now rewrite dict_list_append_other.
Qed.

Lemma covers_deposit (key : Z) (r' : Heap.ref) (c : Consumer) :
  covers c (deposit key r' c).
Proof. split; auto. Qed.

Lemma record_decreases (listener : ListenEtherTask.t) (c : Consumer) :
  In listener (listen_ether_tasks c) ->
  holds (bucket c (Py.int (ListenEtherTask.frequency_recipiency listener))) = false ->
  (pending_tasks r
     (record_information (Py.int (ListenEtherTask.frequency_recipiency listener)) r c)
   < pending_tasks r c)%nat.
Proof.
  intros Hin Hno. rewrite !pending_tasks_unfold.
  assert (Hc := covers_record (Py.int (ListenEtherTask.frequency_recipiency listener)) r c).
  destruct Hc as [Ht Hb]. rewrite Ht.
  apply filter_length_lt with (a := listener); auto.
  - intros l _ H. cbv beta in H |- *. apply negb_true_iff in H. apply negb_true_iff.
    destruct (holds (bucket c (Py.int (ListenEtherTask.frequency_recipiency l)))) eqn:E;
      auto.
    rewrite (Hb _ E) in H. discriminate.
  - apply negb_false_iff. unfold bucket, record_information. simpl.
    rewrite dict_list_append_same, holds_app. simpl.
    rewrite Nat.eqb_refl. apply orb_true_r.
  - now rewrite Hno.
Qed.

Lemma mem_false_holds (h : Heap.t) (l : list Heap.ref) :
  Heap.mem h r l = false -> holds l = false.
Proof.
  unfold Heap.mem, holds. induction l as [|a l IH]; simpl; auto.
  intros H. apply orb_false_iff in H. destruct H as [H1 H2].
  apply orb_false_iff in H1. destruct H1 as [H1 _].
  rewrite Nat.eqb_sym, H1. simpl. auto.
Qed.

(** What a call with enough fuel achieves, relative to the state it
    started from. *)
Definition settles (res : result) (st : Medium) : Prop :=
  match res with
  | Returned st' => grows (consumers st) (consumers st')
  | Raised _ _ => True
  | OutOfFuel => False
  end.

Lemma on_listener_settles (f : nat) (recur : Medium -> Heap.ref -> result)
    (id : Z) (listener : ListenEtherTask.t) (st : Medium) (c : Consumer) :
  (forall st0, (pending st0 r < f)%nat -> settles (recur st0 r) st0) ->
  Py.dict_get id (consumers st) = Some c ->
  In listener (listen_ether_tasks c) ->
  (pending st r <= f)%nat ->
  settles (on_listener recur id r listener st) st.
Proof.
  intros Hrec Hget Hin Hle. unfold on_listener.
  destruct (ListenEtherTask.id_antenna_receiver listener) as [antenna|]; [|exact I].
  destruct (_ && _); [|simpl; apply grows_refl].
  cbv zeta.
  set (key := Py.int (ListenEtherTask.frequency_recipiency listener)).
  set (st1 := update_consumer id (open_information key) st).
  assert (G1 : grows (consumers st) (consumers st1))
    by (apply grows_update; apply covers_open).
  assert (Hget1 : Py.dict_get id (consumers st1) = Some (open_information key c)).
  { unfold st1. simpl. now rewrite dict_get_update_same, Hget. }
  destruct (Heap.mem (signals st1) r (getting_information st1 id key)) eqn:Hmem;
    cbn [negb]; [exact G1|].
  unfold getting_information in Hmem. rewrite Hget1 in Hmem.
  apply mem_false_holds in Hmem.
  set (st2 := update_consumer id (record_information key r) st1).
  assert (L2 : (pending st2 r < pending st1 r)%nat).
  { rewrite !pending_unfold. unfold st2. simpl.
    apply pending_update_lt with (c := open_information key c); auto.
    apply record_decreases; auto. }
  assert (L1 : (pending st1 r <= pending st r)%nat)
    by (rewrite !pending_unfold; now apply grows_pending).
  assert (G2 : grows (consumers st1) (consumers st2))
    by (apply grows_update; apply covers_record).
  destruct (ListenEtherTask.id_destination_relay listener) as [dest|].
  - set (st3 := if ListenEtherTask.save_relayed_signals_locally_relay listener
                then update_consumer id (deposit key r) st2 else st2).
    assert (G3 : grows (consumers st2) (consumers st3)).
    { unfold st3. destruct (ListenEtherTask.save_relayed_signals_locally_relay listener).
      - apply grows_update. apply covers_deposit.
      - apply grows_refl. }
    destruct (ListenEtherTask.frequency_transmission_relay listener) as [f_out|];
      simpl; auto.
    set (st4 := set_signals _ st3).
    assert (L4 : (pending st4 r < f)%nat).
    { assert (pending st4 r <= pending st2 r)%nat
        by (rewrite !pending_unfold; now apply grows_pending).
      lia. }
    specialize (Hrec st4 L4). destruct (recur st4 r) as [st5| |]; simpl in *; auto.
    eapply grows_trans; [exact G1|]. eapply grows_trans; [exact G2|].
    eapply grows_trans; [exact G3|]. exact Hrec.
  - simpl. eapply grows_trans; [exact G1|]. eapply grows_trans; [exact G2|].
    apply grows_update. apply covers_deposit.
Qed.

Lemma for_listeners_settles (f : nat) (recur : Medium -> Heap.ref -> result) (id : Z) :
  (forall st0, (pending st0 r < f)%nat -> settles (recur st0 r) st0) ->
  forall (tasks : list ListenEtherTask.t) (st : Medium) (c : Consumer),
    Py.dict_get id (consumers st) = Some c ->
    incl tasks (listen_ether_tasks c) ->
    (pending st r <= f)%nat ->
    settles (for_listeners recur id r tasks st) st.
Proof.
  intros Hrec. induction tasks as [|listener tasks IH]; intros st c Hget Hincl Hle; simpl.
  - apply grows_refl.
  - assert (Hstep := on_listener_settles f recur id listener st c Hrec Hget
                       (Hincl _ (or_introl eq_refl)) Hle).
    destruct (on_listener recur id r listener st) as [st'| |]; simpl in *; auto.
    destruct (grows_get _ _ _ _ Hstep Hget) as [c' [Hget' [Ht _]]].
    assert (Hle' : (pending st' r <= f)%nat).
    { assert (pending st' r <= pending st r)%nat
        by (rewrite !pending_unfold; now apply grows_pending).
      lia. }
    assert (Hincl' : incl tasks (listen_ether_tasks c')).
    { rewrite Ht. intros x Hx. apply Hincl. now right. }
    specialize (IH st' c' Hget' Hincl' Hle').
    destruct (for_listeners recur id r tasks st'); simpl in *; auto.
    eapply grows_trans; eauto.
Qed.

Lemma add_signal_settles (fuel : nat) :
  forall st, (pending st r < fuel)%nat -> settles (add_signal fuel st r) st.
Proof.
  induction fuel as [|fuel IH]; intros st Hlt; [lia|]. simpl.
  destruct (Py.dict_get _ (consumers st)) as [recipient|] eqn:Hget.
  - eapply for_listeners_settles; eauto.
    + apply incl_refl.
    + lia.
  - apply grows_refl.
Qed.
End Pending.

(** More fuel does not change an outcome that was reached. *)
Definition extends (recur recur' : Medium -> Heap.ref -> result) : Prop :=
  forall st r, recur st r <> OutOfFuel -> recur' st r = recur st r.

Lemma on_listener_extends (recur recur' : Medium -> Heap.ref -> result) (id : Z)
    (r : Heap.ref) (listener : ListenEtherTask.t) (st : Medium) :
  extends recur recur' ->
  on_listener recur id r listener st <> OutOfFuel ->
  on_listener recur' id r listener st = on_listener recur id r listener st.
Proof.
  intros Hext. unfold on_listener.
  destruct (ListenEtherTask.id_antenna_receiver listener); auto.
  destruct (_ && _); auto.
  destruct (negb _); auto.
  destruct (ListenEtherTask.id_destination_relay listener); auto.
  destruct (ListenEtherTask.frequency_transmission_relay listener); auto.
Qed.

Lemma for_listeners_extends (recur recur' : Medium -> Heap.ref -> result) (id : Z)
    (r : Heap.ref) (tasks : list ListenEtherTask.t) :
  extends recur recur' ->
  forall st, for_listeners recur id r tasks st <> OutOfFuel ->
             for_listeners recur' id r tasks st = for_listeners recur id r tasks st.
Proof.
  intros Hext. induction tasks as [|listener tasks IH]; intros st H; simpl in *; auto.
  destruct (on_listener recur id r listener st) as [st'| |] eqn:E.
  - rewrite (on_listener_extends recur recur' id r listener st Hext), E by congruence.
    auto.
  - rewrite (on_listener_extends recur recur' id r listener st Hext), E by congruence.
    auto.
  - congruence.
Qed.

Lemma add_signal_extends (fuel : nat) : extends (add_signal fuel) (add_signal (S fuel)).
Proof.
  induction fuel as [|fuel IH]; intros st r H; [simpl in H; congruence|].
  change (add_signal (S (S fuel)) st r) with
    (match Py.dict_get (Radiosignal.id_receiver (signal st r)) (consumers st) with
     | None => Returned st
     | Some recipient =>
         for_listeners (add_signal (S fuel)) (Radiosignal.id_receiver (signal st r)) r
           (listen_ether_tasks recipient) st
     end).
  change (add_signal (S fuel) st r) with
    (match Py.dict_get (Radiosignal.id_receiver (signal st r)) (consumers st) with
     | None => Returned st
     | Some recipient =>
         for_listeners (add_signal fuel) (Radiosignal.id_receiver (signal st r)) r
           (listen_ether_tasks recipient) st
     end) in H |- *.
  destruct (Py.dict_get _ (consumers st)); auto.
  now apply for_listeners_extends.
Qed.

Lemma add_signal_more_fuel (n fuel : nat) (st : Medium) (r : Heap.ref) :
  (n <= fuel)%nat -> add_signal n st r <> OutOfFuel ->
  add_signal fuel st r = add_signal n st r.
Proof.
  induction 1 as [|fuel Hle IH]; intros H; auto.
  rewrite <- (IH H). apply add_signal_extends. rewrite (IH H). exact H.
Qed.

Lemma add_signal_run_returns (st : Medium) (r : Heap.ref) :
  add_signal_run st r <> OutOfFuel.
Proof.
  unfold add_signal_run.
  assert (H := add_signal_settles r (S (pending st r)) st (Nat.lt_succ_diag_r _)).
  destruct (add_signal _ st r); simpl in H; [discriminate | discriminate | contradiction].
Qed.

(** ** The loop body, case by case *)

Lemma getting_information_open (st : Medium) (id key key' : Z) (c : Consumer) :
  Py.dict_get id (consumers st) = Some c ->
  getting_information (update_consumer id (open_information key) st) id key'
  = Py.dict_list key' (dict_getting_information c).
Proof.
  intros Hget. unfold getting_information. simpl.
  rewrite dict_get_update_same, Hget. simpl. apply dict_list_setdefault.
Qed.

(** A matching task whose bucket already holds the signal: nothing is
    recorded, deposited or relayed, and the recursive call is not made. *)
Lemma on_listener_known_signal (recur : Medium -> Heap.ref -> result) (st : Medium)
    (id : Z) (r : Heap.ref) (listener : ListenEtherTask.t) (antenna : Z) (c : Consumer) :
  ListenEtherTask.id_antenna_receiver listener = Some antenna ->
  can_consumer_receive_signal_by_frequency st (Radiosignal.frequency (signal st r))
    (ListenEtherTask.frequency_recipiency listener) = true ->
  can_consumer_receive_signal_by_antenna
    (Radiosignal.id_antenna_receiver (signal st r)) antenna = true ->
  Py.dict_get id (consumers st) = Some c ->
  Heap.mem (signals st) r
    (Py.dict_list (Py.int (ListenEtherTask.frequency_recipiency listener))
       (dict_getting_information c)) = true ->
  on_listener recur id r listener st
  = Returned (update_consumer id
                (open_information (Py.int (ListenEtherTask.frequency_recipiency listener)))
                st).
Proof.
  intros Ha Hf Hant Hget Hmem. unfold on_listener.
  rewrite Ha, Hf, Hant. cbv zeta. cbn [andb].
  rewrite (getting_information_open st id _ _ c Hget).
  change (signals (update_consumer id _ st)) with (signals st).
  now rewrite Hmem.
Qed.

(** A matching task without relay destination whose bucket does not hold
    the signal: the signal is recorded and deposited. *)
Lemma on_listener_terminal (recur : Medium -> Heap.ref -> result) (st : Medium)
    (id : Z) (r : Heap.ref) (listener : ListenEtherTask.t) (antenna : Z) (c : Consumer) :
  ListenEtherTask.id_antenna_receiver listener = Some antenna ->
  ListenEtherTask.id_destination_relay listener = None ->
  can_consumer_receive_signal_by_frequency st (Radiosignal.frequency (signal st r))
    (ListenEtherTask.frequency_recipiency listener) = true ->
  can_consumer_receive_signal_by_antenna
    (Radiosignal.id_antenna_receiver (signal st r)) antenna = true ->
  Py.dict_get id (consumers st) = Some c ->
  Heap.mem (signals st) r
    (Py.dict_list (Py.int (ListenEtherTask.frequency_recipiency listener))
       (dict_getting_information c)) = false ->
  let key := Py.int (ListenEtherTask.frequency_recipiency listener) in
  on_listener recur id r listener st
  = Returned (update_consumer id (deposit key r)
                (update_consumer id (record_information key r)
                   (update_consumer id (open_information key) st))).
Proof.
  intros Ha Hd Hf Hant Hget Hmem key. unfold on_listener.
  rewrite Ha, Hf, Hant, Hd. cbv zeta. cbn [andb].
  rewrite (getting_information_open st id _ _ c Hget).
  change (signals (update_consumer id _ st)) with (signals st).
  now rewrite Hmem.
Qed.

Ltac medium_step :=
  cbv beta iota zeta delta
    [add_signal for_listeners on_listener signal update_consumer set_consumers set_signals
     open_information record_information deposit getting_information
     set_getting_information set_signal_to_receive set_tasks new_consumer retarget
     can_consumer_receive_signal_by_frequency can_consumer_receive_signal_by_antenna
     Py.eq_opt_Z Py.setdefault Py.dict_mem Py.append_at Py.dict_list Py.dict_get
     Py.dict_set Py.dict_update Heap.store Heap.mem Heap.cell Heap.fresh
     consumers signals frequency_accuracy listen_ether_tasks dict_getting_information
     dict_frequency_signal_to_receive dict_id_receiver_signals_to_send properties
     Radiosignal.id_receiver Radiosignal.frequency Radiosignal.id_antenna_receiver
     Radiosignal.id_transmitter Radiosignal.memory
     ListenEtherTask.frequency_recipiency ListenEtherTask.id_antenna_receiver
     ListenEtherTask.frequency_transmission_relay ListenEtherTask.id_destination_relay
     ListenEtherTask.id_antenna_destination_relay
     ListenEtherTask.save_relayed_signals_locally_relay
     existsb app andb orb negb].

(** Two consumers [a] and [b], each relaying to the other on matching
    frequencies and antennas, and a signal that reaches [a]: the signal is
    relayed to [b], comes back to [a], is found in the bucket of [a] and is
    dropped there.  Three nested calls suffice; both buckets hold the signal
    once and the signal keeps the fields written by the relay of [b]. *)
Lemma mutual_relay_stops :
  forall (a b : Z) (pa pb : RadioTransmissionMediumConsumerProperties)
         (fa ga fb gb f0 acc : Q) (xa xb : Z) (ka kb : bool)
         (h : Heap.t) (r : Heap.ref) (t : Z) (m : MemoryBlock.t),
    a <> b ->
    Qabs (f0 - fa) < acc -> Qabs (ga - fb) < acc -> Qabs (gb - fa) < acc ->
    let ta := ListenEtherTask.make fa (Some xa) (Some ga) (Some b) (Some xb) ka in
    let tb := ListenEtherTask.make fb (Some xb) (Some gb) (Some a) (Some xa) kb in
    let st := {| consumers := [(a, set_tasks [ta] (new_consumer pa));
                               (b, set_tasks [tb] (new_consumer pb))];
                 frequency_accuracy := acc;
                 signals := Heap.store r (Radiosignal.make t a m f0 (Some xa)) h |} in
    exists st',
      add_signal 3 st r = Returned st'
      /\ getting_information st' a (Py.int fa) = [r]
      /\ getting_information st' b (Py.int fb) = [r]
      /\ signal st' r = Radiosignal.make t a m gb (Some xa)
      /\ forall recur, on_listener recur a r ta st' = Returned st'.
Proof.
  intros a b pa pb fa ga fb gb f0 acc xa xb ka kb h r t m Hab H0 HA HB ta tb st.
  assert (Eab : Z.eqb a b = false) by now apply Z.eqb_neq.
  assert (Eba : Z.eqb b a = false) by (apply Z.eqb_neq; congruence).
  assert (Err : Nat.eqb r r = true) by apply Nat.eqb_refl.
  apply lt_spec in H0, HA, HB.
  destruct ka, kb; eexists; unfold st, ta, tb.
  all: split;
    [ repeat progress (medium_step; rewrite ?Z.eqb_refl, ?Err, ?Eab, ?Eba, ?H0, ?HA, ?HB);
      reflexivity |].
  all: repeat split.
  all: try (intros recur).
  all: repeat progress (medium_step; rewrite ?Z.eqb_refl, ?Err, ?Eab, ?Eba, ?H0, ?HA, ?HB);
    reflexivity.
Qed.

(** C1.  [add_signal] terminates from every state of the medium: with any
    fuel above a bound computed from the state the call returns or raises,
    and its outcome no longer depends on the fuel.  A matching task whose
    bucket of [dict_getting_information] already holds the signal drops it
    without making the recursive call; in particular two consumers relaying
    to each other stop at the second arrival of the signal at the first
    consumer. *)
Theorem add_signal_terminates :
  (forall (st : Medium) (r : Heap.ref),
      exists n, forall fuel, (n <= fuel)%nat ->
        add_signal fuel st r <> OutOfFuel
        /\ add_signal fuel st r = add_signal n st r)
  /\ (forall recur st id r listener antenna c,
         ListenEtherTask.id_antenna_receiver listener = Some antenna ->
         Qabs (Radiosignal.frequency (signal st r)
               - ListenEtherTask.frequency_recipiency listener) < frequency_accuracy st ->
         Radiosignal.id_antenna_receiver (signal st r) = Some antenna ->
         Py.dict_get id (consumers st) = Some c ->
         Heap.mem (signals st) r
           (Py.dict_list (Py.int (ListenEtherTask.frequency_recipiency listener))
              (dict_getting_information c)) = true ->
         exists st',
           on_listener recur id r listener st = Returned st'
           /\ signals st' = signals st
           /\ forall id' key,
               getting_information st' id' key = getting_information st id' key)
  /\ (forall (a b : Z) (pa pb : RadioTransmissionMediumConsumerProperties)
             (fa ga fb gb f0 acc : Q) (xa xb : Z) (ka kb : bool)
             (h : Heap.t) (r : Heap.ref) (t : Z) (m : MemoryBlock.t) (fuel : nat),
         a <> b ->
         Qabs (f0 - fa) < acc -> Qabs (ga - fb) < acc -> Qabs (gb - fa) < acc ->
         (3 <= fuel)%nat ->
         let ta := ListenEtherTask.make fa (Some xa) (Some ga) (Some b) (Some xb) ka in
         let tb := ListenEtherTask.make fb (Some xb) (Some gb) (Some a) (Some xa) kb in
         let st := {| consumers := [(a, set_tasks [ta] (new_consumer pa));
                                    (b, set_tasks [tb] (new_consumer pb))];
                      frequency_accuracy := acc;
                      signals := Heap.store r (Radiosignal.make t a m f0 (Some xa)) h |} in
         exists st',
           add_signal fuel st r = Returned st'
           /\ getting_information st' a (Py.int fa) = [r]
           /\ getting_information st' b (Py.int fb) = [r]
           /\ signal st' r = Radiosignal.make t a m gb (Some xa)
           /\ forall recur, on_listener recur a r ta st' = Returned st').
Proof.
  split; [|split].
  - intros st r. exists (S (pending st r)). intros fuel Hle.
    assert (Hrun := add_signal_run_returns st r). unfold add_signal_run in Hrun.
    rewrite (add_signal_more_fuel _ _ st r Hle Hrun). auto.
  - intros recur st id r listener antenna c Ha Hf Hant Hget Hmem.
    eexists. split.
    + apply on_listener_known_signal with (antenna := antenna) (c := c); auto.
      * unfold can_consumer_receive_signal_by_frequency. now apply lt_spec.
      * unfold can_consumer_receive_signal_by_antenna. rewrite Hant. apply eq_opt_Z_refl.
    + split; [reflexivity|]. intros id' key. unfold getting_information. simpl.
      destruct (Z.eq_dec id id') as [<-|Hne].
      * rewrite dict_get_update_same.
        destruct (Py.dict_get id (consumers st)); simpl; auto.
        apply dict_list_setdefault.
      * now rewrite dict_get_update_other.
  - intros a b pa pb fa ga fb gb f0 acc xa xb ka kb h r t m fuel Hab H0 HA HB Hfuel ta tb st.
    destruct (mutual_relay_stops a b pa pb fa ga fb gb f0 acc xa xb ka kb h r t m
                Hab H0 HA HB) as [st' [Hrun Hrest]].
    exists st'. split; [|exact Hrest].
    fold ta tb st in Hrun.
    rewrite (add_signal_more_fuel 3 fuel st r Hfuel); [exact Hrun|].
    rewrite Hrun. discriminate.
Qed.

Lemma add_signal_terminates_witness :
  let ta := ListenEtherTask.make 100 (Some 1%Z) (Some 150) (Some 2%Z) (Some 7%Z) true in
  let tb := ListenEtherTask.make 155 (Some 7%Z) (Some 95) (Some 1%Z) (Some 1%Z) false in
  let st := {| consumers :=
                 [(1%Z, set_tasks [ta] (new_consumer {| frequency := 100; id_consumer := 1 |}));
                  (2%Z, set_tasks [tb] (new_consumer {| frequency := 100; id_consumer := 2 |}))];
               frequency_accuracy := 10;
               signals := Heap.store 0%nat
                            (Radiosignal.make 9 1 (MemoryBlock.make 5 0 3) 100 (Some 1%Z))
                            Heap.empty |} in
  exists st',
    add_signal 5 st 0%nat = Returned st'
    /\ getting_information st' 1 (Py.int 100) = [0%nat]
    /\ getting_information st' 2 (Py.int 155) = [0%nat]
    /\ signal st' 0%nat = Radiosignal.make 9 1 (MemoryBlock.make 5 0 3) 95 (Some 1%Z)
    /\ forall recur, on_listener recur 1 0%nat ta st' = Returned st'.
Proof.
  refine (proj2 (proj2 add_signal_terminates) 1%Z 2%Z
            {| frequency := 100; id_consumer := 1 |} {| frequency := 100; id_consumer := 2 |}
            100 150 155 95 100 10 1%Z 7%Z true false Heap.empty 0%nat 9%Z
            (MemoryBlock.make 5 0 3) 5%nat _ _ _ _ _).
  - discriminate.
  - reflexivity.
  - reflexivity.
  - reflexivity.
  - lia.
Defined.

(** ** The local copy kept by a relay *)

(** Consumer 2 relays from frequency 100 (antenna 1) to consumer 3 at
    frequency 150 (antenna 5) and keeps relayed signals locally; consumer 1
    sends it a signal at frequency 100 for antenna 1. *)
Definition keeping_relay : ListenEtherTask.t :=
  ListenEtherTask.make 100 (Some 1%Z) (Some 150) (Some 3%Z) (Some 5%Z) true.

Definition sent_to_relay : Radiosignal.t :=
  Radiosignal.make 1 2 (MemoryBlock.make 121 3 4) 100 (Some 1%Z).

Definition relay_medium : Medium :=
  {| consumers :=
       [(2%Z, set_tasks [keeping_relay]
                (new_consumer {| frequency := 100; id_consumer := 2 |}))];
     frequency_accuracy := 10;
     signals := snd (Heap.alloc sent_to_relay Heap.empty) |}.

(** C6.  The entry deposited into the inbox of the relaying consumer is the
    signal object itself, not a copy: once the relay has rewritten the
    receiver, the frequency and the antenna, the entry in bucket 100 of
    consumer 2 reads receiver 3, frequency 150, antenna 5, and that is what
    [receive_signal] hands to the local system. *)
Theorem local_copy_shows_relayed_fields :
  signal relay_medium 0%nat = sent_to_relay
  /\ exists st',
      add_signal 2 relay_medium 0%nat = Returned st'
      /\ (exists c',
             Py.dict_get 2 (consumers st') = Some c'
             /\ dict_frequency_signal_to_receive c' = [(100%Z, [0%nat])])
      /\ signal st' 0%nat = Radiosignal.make 1 3 (MemoryBlock.make 121 3 4) 150 (Some 5%Z)
      /\ LocalSystem.global_receive_signal st' 2 (Some 100)
         = [Radiosignal.make 1 3 (MemoryBlock.make 121 3 4) 150 (Some 5%Z)].
Proof.
  split; [reflexivity|].
  eexists. split; [vm_compute; reflexivity|].
  split; [eexists; split; reflexivity|].
  split; reflexivity.
Qed.

(** ** Fan-out over the tasks of one consumer *)

Definition bucket_of (task : ListenEtherTask.t) : Z :=
  Py.int (ListenEtherTask.frequency_recipiency task).

(** Two receive tasks of consumer 2 on antenna 1, at 100 and at 100.5: both
    fall into bucket 100. *)
Definition listen_100 : ListenEtherTask.t :=
  ListenEtherTask.make 100 (Some 1%Z) None None None false.

Definition listen_100_5 : ListenEtherTask.t :=
  ListenEtherTask.make (201 # 2) (Some 1%Z) None None None false.

Definition shared_bucket_medium : Medium :=
  {| consumers :=
       [(2%Z, set_tasks [listen_100; listen_100_5]
                (new_consumer {| frequency := 100; id_consumer := 2 |}))];
     frequency_accuracy := 10;
     signals := snd (Heap.alloc sent_to_relay Heap.empty) |}.

(** Both tasks match the signal by frequency and by antenna and both were
    accepted by [listen_ether], yet the signal is delivered once: when the
    second task is examined the signal is already in bucket 100 of
    [dict_getting_information], put there for the first task, and the
    second task is passed over. *)
Lemma shared_bucket_suppresses_second_task :
  listen_ether_tasks
    (fst (listen_ether
            (fst (listen_ether (new_consumer {| frequency := 100; id_consumer := 2 |})
                    (Some 1%Z) (Some 100)))
            (Some 1%Z) (Some (201 # 2))))
  = [listen_100; listen_100_5]
  /\ (forall task, In task [listen_100; listen_100_5] ->
        can_consumer_receive_signal_by_frequency shared_bucket_medium
          (Radiosignal.frequency sent_to_relay)
          (ListenEtherTask.frequency_recipiency task) = true
        /\ ListenEtherTask.id_antenna_receiver task
           = Radiosignal.id_antenna_receiver sent_to_relay)
  /\ exists st1 st2 c2,
      on_listener (add_signal 0) 2 0%nat listen_100 shared_bucket_medium = Returned st1
      /\ on_listener (add_signal 0) 2 0%nat listen_100_5 st1 = Returned st2
      /\ st2 = st1
      /\ add_signal 1 shared_bucket_medium 0%nat = Returned st2
      /\ Py.dict_get 2 (consumers st2) = Some c2
      /\ dict_frequency_signal_to_receive c2 = [(100%Z, [0%nat])].
Proof.
  split; [reflexivity|]. split.
  - intros task [<-|[<-|[]]]; split; reflexivity.
  - do 3 eexists. split; [vm_compute; reflexivity|].
    split; [vm_compute; reflexivity|].
    repeat split.
Qed.

(** The test of the loop of [add_signal] for one task. *)
Definition matches (st : Medium) (r : Heap.ref) (task : ListenEtherTask.t) : bool :=
  match ListenEtherTask.id_antenna_receiver task with
  | Some antenna =>
      can_consumer_receive_signal_by_frequency st (Radiosignal.frequency (signal st r))
        (ListenEtherTask.frequency_recipiency task)
      && can_consumer_receive_signal_by_antenna
           (Radiosignal.id_antenna_receiver (signal st r)) antenna
  | None => false
  end.

(** Some task of the list passes the test and falls into bucket [key]. *)
Definition wanted (st : Medium) (r : Heap.ref) (tasks : list ListenEtherTask.t)
    (key : Z) : bool :=
  existsb (fun task => matches st r task && Z.eqb (bucket_of task) key) tasks.

(** [signal in recipient.dict_getting_information.get(key, [])]. *)
Definition seen (st : Medium) (r : Heap.ref) (c : Consumer) (key : Z) : bool :=
  Heap.mem (signals st) r (Py.dict_list key (dict_getting_information c)).

Lemma matches_frame (st st' : Medium) (r : Heap.ref) (task : ListenEtherTask.t) :
  signals st' = signals st -> frequency_accuracy st' = frequency_accuracy st ->
  matches st' r task = matches st r task.
Proof.
  unfold matches, can_consumer_receive_signal_by_frequency, signal.
  now intros -> ->.
Qed.

Lemma wanted_frame (st st' : Medium) (r : Heap.ref) (tasks : list ListenEtherTask.t)
    (key : Z) :
  signals st' = signals st -> frequency_accuracy st' = frequency_accuracy st ->
  wanted st' r tasks key = wanted st r tasks key.
Proof.
  intros Hs Ha. unfold wanted. induction tasks as [|task tasks IH]; simpl; auto.
  now rewrite IH, (matches_frame st st' r task Hs Ha).
Qed.

Lemma heap_mem_last (h : Heap.t) (r : Heap.ref) (l : list Heap.ref) :
  Heap.mem h r (l ++ [r]) = true.
Proof.
  unfold Heap.mem. rewrite existsb_app. simpl. rewrite Nat.eqb_refl. simpl.
  apply orb_true_r.
Qed.

Lemma on_listener_no_match (recur : Medium -> Heap.ref -> result) (st : Medium)
    (id : Z) (r : Heap.ref) (task : ListenEtherTask.t) :
  ListenEtherTask.id_antenna_receiver task <> None ->
  matches st r task = false ->
  on_listener recur id r task st = Returned st.
Proof.
  unfold matches, on_listener.
  destruct (ListenEtherTask.id_antenna_receiver task); [|congruence].
  intros _ H. fold (signal st r). now rewrite H.
Qed.

(** The loop over tasks among which no relay task matches: the signal is
    appended once to the inbox bucket of every matching task, unless the
    bucket of seen signals already holds it. *)
Lemma for_listeners_receive (recur : Medium -> Heap.ref -> result) (id : Z)
    (r : Heap.ref) :
  forall (tasks : list ListenEtherTask.t) (st : Medium) (c : Consumer),
    Py.dict_get id (consumers st) = Some c ->
    (forall task, In task tasks ->
       ListenEtherTask.id_antenna_receiver task <> None
       /\ (ListenEtherTask.id_destination_relay task = None
           \/ matches st r task = false)) ->
    exists st' c',
      for_listeners recur id r tasks st = Returned st'
      /\ Py.dict_get id (consumers st') = Some c'
      /\ signals st' = signals st
      /\ forall key,
          Py.dict_list key (dict_frequency_signal_to_receive c')
          = Py.dict_list key (dict_frequency_signal_to_receive c)
            ++ (if wanted st r tasks key && negb (seen st r c key) then [r] else []).
Proof.
  induction tasks as [|task tasks IH]; intros st c Hget Hall.
  - exists st, c. simpl. repeat split; auto. intros key. now rewrite app_nil_r.
  - destruct (Hall task (or_introl eq_refl)) as [Hant Hkind].
    assert (Hrest : forall st1,
               signals st1 = signals st ->
               frequency_accuracy st1 = frequency_accuracy st ->
               forall task', In task' tasks ->
                 ListenEtherTask.id_antenna_receiver task' <> None
                 /\ (ListenEtherTask.id_destination_relay task' = None
                     \/ matches st1 r task' = false)).
    { intros st1 Hs Ha task' Hin. rewrite (matches_frame st st1 r task' Hs Ha).
      apply Hall. now right. }
    set (key := bucket_of task).
    destruct (matches st r task) eqn:Em.
    + destruct Hkind as [Hd|Hd]; [|discriminate].
      assert (Em' := Em). unfold matches in Em'.
      destruct (ListenEtherTask.id_antenna_receiver task) as [a|] eqn:Ea; [|congruence].
      apply andb_true_iff in Em'. destruct Em' as [Hf Hm].
      destruct (seen st r c key) eqn:Es.
      * assert (Hstep := on_listener_known_signal recur st id r task a c Ea Hf Hm Hget Es).
        fold (bucket_of task) in Hstep. fold key in Hstep.
        set (st1 := update_consumer id (open_information key) st) in *.
        assert (Hget1 : Py.dict_get id (consumers st1) = Some (open_information key c)).
        { unfold st1. simpl. now rewrite dict_get_update_same, Hget. }
        destruct (IH st1 (open_information key c) Hget1 (Hrest st1 eq_refl eq_refl))
          as [st' [c' [Hrun [Hget' [Hsig Hin]]]]].
        exists st', c'. simpl. rewrite Hstep.
        split; [exact Hrun|]. split; [exact Hget'|]. split; [exact Hsig|].
        intros k. rewrite Hin, (wanted_frame st st1 r tasks k eq_refl eq_refl).
        assert (Hseen : seen st1 r (open_information key c) k = seen st r c k).
        { unfold seen. simpl. now rewrite dict_list_setdefault. }
        rewrite Hseen. simpl. rewrite Em. simpl. fold key.
        destruct (Z.eqb key k) eqn:Ek; [|reflexivity].
        apply Z.eqb_eq in Ek. subst k. rewrite Es. simpl.
        now rewrite andb_false_r.
      * assert (Hstep := on_listener_terminal recur st id r task a c Ea Hd Hf Hm Hget Es).
        cbv zeta in Hstep. fold (bucket_of task) in Hstep. fold key in Hstep.
        set (c1 := deposit key r (record_information key r (open_information key c))).
        set (st1 := update_consumer id (deposit key r)
                      (update_consumer id (record_information key r)
                         (update_consumer id (open_information key) st))) in *.
        assert (Hget1 : Py.dict_get id (consumers st1) = Some c1).
        { unfold st1. simpl. now rewrite !dict_get_update_same, Hget. }
        destruct (IH st1 c1 Hget1 (Hrest st1 eq_refl eq_refl))
          as [st' [c' [Hrun [Hget' [Hsig Hin]]]]].
        exists st', c'. simpl. rewrite Hstep.
        split; [exact Hrun|]. split; [exact Hget'|]. split; [exact Hsig|].
        intros k. rewrite Hin, (wanted_frame st st1 r tasks k eq_refl eq_refl).
        simpl. rewrite Em. simpl. fold key.
        destruct (Z.eq_dec key k) as [<-|Hne].
        -- assert (Hseen : seen st1 r c1 key = true).
           { unfold seen, c1. simpl.
             rewrite dict_list_append_same, dict_list_setdefault. apply heap_mem_last. }
           rewrite Hseen, Es, Z.eqb_refl, andb_false_r. simpl.
           unfold c1. simpl.
           rewrite dict_list_append_same, dict_list_setdefault.
           now rewrite <- app_assoc.
        -- assert (Hseen : seen st1 r c1 k = seen st r c k).
           { unfold seen, c1. simpl.
             rewrite dict_list_append_other by exact Hne.
             now rewrite dict_list_setdefault. }
           assert (E : Z.eqb key k = false) by (apply Z.eqb_neq; exact Hne).
           rewrite Hseen, E. simpl. unfold c1. simpl.
           rewrite dict_list_append_other by exact Hne.
           now rewrite dict_list_setdefault.
    + destruct (IH st c Hget (Hrest st eq_refl eq_refl))
        as [st' [c' [Hrun [Hget' [Hsig Hin]]]]].
      exists st', c'. simpl.
      rewrite (on_listener_no_match recur st id r task Hant Em).
      split; [exact Hrun|]. split; [exact Hget'|]. split; [exact Hsig|].
      intros k. rewrite Hin. simpl. rewrite Em. reflexivity.
Qed.

(** C5 (amended).  When no relay task of the receiving consumer matches
    the signal, [add_signal] returns, leaves the signal as it is, and has
    appended it exactly once to each inbox bucket ([int] of the listening
    frequency) into which a matching task of the consumer falls, unless the
    bucket of seen signals of that key already held the signal or an equal
    one; every other bucket is as before.  So delivery is per bucket, not
    per task: matching tasks that share a bucket get one entry between
    them, and a bucket that already holds the signal gets none. *)
Theorem fan_out_is_per_bucket :
  forall (st : Medium) (r : Heap.ref) (c : Consumer) (fuel : nat),
    Py.dict_get (Radiosignal.id_receiver (signal st r)) (consumers st) = Some c ->
    (forall task, In task (listen_ether_tasks c) ->
       ListenEtherTask.id_antenna_receiver task <> None
       /\ (ListenEtherTask.id_destination_relay task = None
           \/ matches st r task = false)) ->
    exists st' c',
      add_signal (S fuel) st r = Returned st'
      /\ Py.dict_get (Radiosignal.id_receiver (signal st r)) (consumers st') = Some c'
      /\ signal st' r = signal st r
      /\ forall key,
          Py.dict_list key (dict_frequency_signal_to_receive c')
          = Py.dict_list key (dict_frequency_signal_to_receive c)
            ++ (if wanted st r (listen_ether_tasks c) key && negb (seen st r c key)
                then [r] else []).
Proof.
  intros st r c fuel Hget Hall. simpl. rewrite Hget.
  destruct (for_listeners_receive (add_signal fuel) _ r (listen_ether_tasks c) st c
              Hget Hall) as [st' [c' [Hrun [Hget' [Hsig Hin]]]]].
  exists st', c'. split; [exact Hrun|]. split; [exact Hget'|].
  split; [unfold signal; now rewrite Hsig | exact Hin].
Qed.

(** Two receive tasks of consumer 2 on antenna 1 in distinct buckets. *)
Definition listen_105 : ListenEtherTask.t :=
  ListenEtherTask.make 105 (Some 1%Z) None None None false.

Definition distinct_buckets_medium : Medium :=
  {| consumers :=
       [(2%Z, set_tasks [listen_100; listen_105]
                (new_consumer {| frequency := 100; id_consumer := 2 |}))];
     frequency_accuracy := 10;
     signals := snd (Heap.alloc sent_to_relay Heap.empty) |}.

Lemma fan_out_is_per_bucket_witness :
  exists st' c',
    add_signal 1 distinct_buckets_medium 0%nat = Returned st'
    /\ Py.dict_get 2 (consumers st') = Some c'
    /\ Py.dict_list 100 (dict_frequency_signal_to_receive c') = [0%nat]
    /\ Py.dict_list 105 (dict_frequency_signal_to_receive c') = [0%nat]
    /\ Py.dict_list 110 (dict_frequency_signal_to_receive c') = [].
Proof.
  destruct (fan_out_is_per_bucket distinct_buckets_medium 0%nat
              (set_tasks [listen_100; listen_105]
                 (new_consumer {| frequency := 100; id_consumer := 2 |}))
              0%nat eq_refl) as [st' [c' [Hrun [Hget [_ Hin]]]]].
  - intros task [<-|[<-|[]]]; split; try discriminate; left; reflexivity.
  - exists st', c'. split; [exact Hrun|]. split; [exact Hget|].
    split; [|split]; rewrite Hin; reflexivity.
Defined.

(** A relay task between two receive tasks, all three matching the signal
    at 100: the relay rewrites the signal (receiver 3, frequency 150,
    antenna 5), so the receive task after it is tested against the rewritten
    signal and bucket 105 gets nothing. *)
Definition relay_95 : ListenEtherTask.t :=
  ListenEtherTask.make 95 (Some 1%Z) (Some 150) (Some 3%Z) (Some 5%Z) false.

Definition relay_between_medium : Medium :=
  {| consumers :=
       [(2%Z, set_tasks [listen_100; relay_95; listen_105]
                (new_consumer {| frequency := 100; id_consumer := 2 |}))];
     frequency_accuracy := 10;
     signals := snd (Heap.alloc sent_to_relay Heap.empty) |}.

Lemma matching_relay_hides_later_tasks :
  (forall task, In task [listen_100; relay_95; listen_105] ->
     matches relay_between_medium 0%nat task = true)
  /\ match add_signal 2 relay_between_medium 0%nat with
     | Returned st =>
         match Py.dict_get 2 (consumers st) with
         | Some c => dict_frequency_signal_to_receive c = [(100%Z, [0%nat])]
         | None => False
         end
         /\ signal st 0%nat
            = Radiosignal.make 1 3 (MemoryBlock.make 121 3 4) 150 (Some 5%Z)
     | _ => False
     end.
Proof.
  split.
  - intros task [<-|[<-|[<-|[]]]]; reflexivity.
  - vm_compute. split; reflexivity.
Qed.

End MediumProperties.

(** ** The local radio system *)

Section LocalProperties.
Import LocalSystem.

Lemma mode_eqb_eq (a b : CommunicationModeType) : mode_eqb a b = true <-> a = b.
Proof. destruct a, b; simpl; split; intros H; congruence. Qed.

Lemma set_frequency_inr (f : Q) (d d' : TransmitReceiveDevice) :
  set_frequency f d = inr d' ->
  d' = {| id_antenna := id_antenna d; properties := properties d; frequency := f;
          communication_mode := communication_mode d |}
  /\ frequency_range_min (properties d) <= f
  /\ f <= frequency_range_max (properties d).
Proof.
  unfold set_frequency.
  destruct (Py.lt f _) eqn:E1; [discriminate|].
  destruct (Py.gt f _) eqn:E2; [discriminate|].
  intros [= <-]. apply lt_false_spec in E1. unfold Py.gt in E2.
  apply lt_false_spec in E2. auto.
Qed.

(** [tune] touches nothing but the tuned device, whose frequency alone it
    changes. *)
Lemma tune_inr (f : option Q) (id : Z) (s s' : System) :
  tune f id s = inr s' ->
  s' = s
  \/ exists d q,
       f = Some q /\ Py.truthy q = true
       /\ Py.dict_get id (antennas s) = Some d
       /\ frequency_range_min (properties d) <= q
       /\ q <= frequency_range_max (properties d)
       /\ s' = set_antennas
                 (Py.dict_set id
                    {| id_antenna := id_antenna d; properties := properties d;
                       frequency := q; communication_mode := communication_mode d |}
                    (antennas s)) s.
Proof.
  unfold tune. destruct f as [q|]; [|intros [= <-]; auto].
  destruct (Py.truthy q) eqn:Et; [|intros [= <-]; auto].
  destruct (Py.dict_get id (antennas s)) as [d|] eqn:Hget; [|intros [= <-]; auto].
  destruct (set_frequency q d) as [e|d'] eqn:Hset; [discriminate|].
  intros [= <-]. apply set_frequency_inr in Hset. destruct Hset as [-> [H1 H2]].
  right. exists d, q. auto 10.
Qed.

Lemma existsb_eqb_app_self (a : Z) (l : list Z) : existsb (Z.eqb a) (l ++ [a]) = true.
Proof.
  rewrite existsb_app. simpl. rewrite Z.eqb_refl. now rewrite orb_true_r.
Qed.

(** C9.  Whenever [assign_device_as_transmitter] returns, it returns
    [False], although the assignment took effect: the device is in mode
    TRANSMISSION, the signal is the last one staged for the device and the
    device is in [list_transmission_channel].  [assign_device_as_receiver]
    and [assign_device_as_repeater] return [True] whenever they return. *)
Theorem transmitter_assignment_returns_false :
  (forall (s s' : System) (memory_block : MemoryBlock.t) (a id_receiver : Z)
          (f : option Q) (id_antenna_receiver : option Z) (b : bool),
      assign_device_as_transmitter s memory_block a id_receiver f id_antenna_receiver
      = (s', inr b) ->
      b = false
      /\ existsb (Z.eqb a) (list_transmission_channel s') = true
      /\ exists d staged,
          Py.dict_get a (antennas s') = Some d
          /\ communication_mode d = TRANSMISSION
          /\ Py.dict_list (id_antenna d) (dict_signals_to_send s')
             = staged ++ [Radiosignal.make (-1) id_receiver memory_block (frequency d)
                            id_antenna_receiver])
  /\ (forall (s s' : System) (a : Z) (f : option Q) (b : bool),
         assign_device_as_receiver s a f = (s', inr b) -> b = true)
  /\ (forall (s s' : System) (a_in a_out dest : Z) (dest_antenna : option Z)
             (f_in f_out : option Q) (save b : bool),
         assign_device_as_repeater s a_in a_out dest dest_antenna f_in f_out save
         = (s', inr b) -> b = true).
Proof.
  split; [|split].
  - intros s s' mb a rcv f ar b. unfold assign_device_as_transmitter.
    destruct (Py.dict_get a (antennas s)) as [antenna|] eqn:Hget; [|discriminate].
    destruct (_ && _); [discriminate|].
    destruct (_ && _); [discriminate|].
    set (s1 := update_antenna a (set_mode TRANSMISSION) s).
    assert (Hget1 : Py.dict_get a (antennas s1) = Some (set_mode TRANSMISSION antenna)).
    { unfold s1. simpl. now rewrite dict_get_update_same, Hget. }
    destruct (tune f a s1) as [e|s2] eqn:Htune; [discriminate|].
    assert (Hd2 : exists d2, Py.dict_get a (antennas s2) = Some d2
                             /\ communication_mode d2 = TRANSMISSION
                             /\ id_antenna d2 = id_antenna antenna
                             /\ dict_signals_to_send s2 = dict_signals_to_send s1
                             /\ list_transmission_channel s2 = list_transmission_channel s1).
    { apply tune_inr in Htune. destruct Htune as [->|[d [q [_ [_ [Hg [_ [_ ->]]]]]]]].
      - exists (set_mode TRANSMISSION antenna). auto.
      - rewrite Hget1 in Hg. inversion Hg; subst d. simpl.
        rewrite dict_get_set_same. eexists. split; [reflexivity|]. auto. }
    destruct Hd2 as [d2 [Hget2 [Hmode [Hid [Hsig Hlist]]]]].
    rewrite Hget2. cbn [list_transmission_channel set_signals_to_send].
    intros H. inversion H; subst; clear H.
    split; [reflexivity|]. split.
    + destruct (existsb (Z.eqb a) (list_transmission_channel s2)) eqn:E; simpl; auto.
      apply existsb_eqb_app_self.
    + exists d2. eexists. split; [|split; [exact Hmode|]].
      * destruct (negb _); simpl; exact Hget2.
      * rewrite Hid. destruct (negb _); simpl;
          rewrite dict_list_append_same; reflexivity.
  - intros s s' a f b. unfold assign_device_as_receiver.
    destruct (Py.dict_get a (antennas s)); [|discriminate].
    destruct (_ && _); [discriminate|].
    destruct (_ && _); [discriminate|].
    destruct (tune f a _); [discriminate|].
    now intros [= _ <-].
  - intros s s' a_in a_out dest dest_antenna f_in f_out save b.
    unfold assign_device_as_repeater.
    destruct (Py.dict_get a_in (antennas s)); [|discriminate].
    destruct (Py.dict_get a_out (antennas s)); [|discriminate].
    destruct (_ && _); [discriminate|].
    destruct (_ && _); [discriminate|].
    destruct (_ && _); [discriminate|].
    destruct (_ && _); [discriminate|].
    destruct (tune f_in a_in _); [discriminate|].
    destruct (tune f_out a_out _); [discriminate|].
    now intros [= _ <-].
Qed.

(** A system with one device tuned to the range 50..200. *)
Definition antenna_properties : TransmitReceiveDeviceProperties :=
  {| channel_capacity_transmit := 100; channel_capacity_receive := 100;
     frequency_range_min := 50; frequency_range_max := 200;
     consumption := 10; consumption_transmission := Some 10;
     consumption_reception := Some 10 |}.

Definition one_device_system : System := add_device antenna_properties (new_system 1).

Lemma transmitter_assignment_returns_false_witness :
  snd (assign_device_as_transmitter one_device_system (MemoryBlock.make 121 3 4) 0 2
         (Some 100) (Some 1%Z)) = inr false
  /\ existsb (Z.eqb 0)
       (list_transmission_channel
          (fst (assign_device_as_transmitter one_device_system (MemoryBlock.make 121 3 4)
                  0 2 (Some 100) (Some 1%Z)))) = true.
Proof.
  destruct (proj1 transmitter_assignment_returns_false one_device_system
              (fst (assign_device_as_transmitter one_device_system
                      (MemoryBlock.make 121 3 4) 0 2 (Some 100) (Some 1%Z)))
              (MemoryBlock.make 121 3 4) 0%Z 2%Z (Some 100) (Some 1%Z) false eq_refl)
    as [_ [H _]].
  split; [reflexivity | exact H].
Defined.

(** ** What a step may change in the registry of devices *)

(** Everything [finalize_step] and the range check read of a device:
    all but its mode. *)
Definition tuning (d : TransmitReceiveDevice) : Z * TransmitReceiveDeviceProperties * Q :=
  (id_antenna d, properties d, frequency d).

Definition modes_only (d d' : Py.dict TransmitReceiveDevice) : Prop :=
  Forall2 (fun kd kd' => fst kd = fst kd' /\ tuning (snd kd) = tuning (snd kd')) d d'.

Lemma modes_only_refl (d : Py.dict TransmitReceiveDevice) : modes_only d d.
Proof. induction d; constructor; auto. Qed.

Lemma modes_only_trans (d1 d2 d3 : Py.dict TransmitReceiveDevice) :
  modes_only d1 d2 -> modes_only d2 d3 -> modes_only d1 d3.
Proof.
  intros H. revert d3. induction H as [|x y l l' [Hk Ht] _ IH]; intros d3 H23.
  - inversion H23. constructor.
  - inversion H23 as [|y' z l2 l3 [Hk' Ht'] Htl]; subst. constructor.
    + split; congruence.
    + now apply IH.
Qed.

Lemma modes_only_update (id : Z) (f : TransmitReceiveDevice -> TransmitReceiveDevice)
    (d : Py.dict TransmitReceiveDevice) :
  (forall v, tuning (f v) = tuning v) -> modes_only d (Py.dict_update id f d).
Proof.
  intros Hf. induction d as [|[k v] d IH]; simpl; [constructor|].
  destruct (Z.eqb k id).
  - constructor; [split; simpl; auto | apply modes_only_refl].
  - constructor; [split; auto | exact IH].
Qed.

Lemma modes_only_map (f : TransmitReceiveDevice -> TransmitReceiveDevice)
    (d : Py.dict TransmitReceiveDevice) :
  (forall v, tuning (f v) = tuning v) ->
  modes_only d (map (fun kd => (fst kd, f (snd kd))) d).
Proof.
  intros Hf. induction d as [|[k v] d IH]; simpl; constructor; auto.
  split; simpl; auto.
Qed.

Lemma modes_only_get (d d' : Py.dict TransmitReceiveDevice) (k : Z) :
  modes_only d d' ->
  match Py.dict_get k d, Py.dict_get k d' with
  | Some v, Some v' => tuning v = tuning v'
  | None, None => True
  | _, _ => False
  end.
Proof.
  induction 1 as [|[k1 v1] [k2 v2] l l' [Hk Ht] _ IH]; simpl; auto.
  simpl in Hk, Ht. subst k2. destruct (Z.eqb k1 k); auto.
Qed.

Lemma modes_only_get_some (d d' : Py.dict TransmitReceiveDevice) (k : Z)
    (v : TransmitReceiveDevice) :
  modes_only d d' -> Py.dict_get k d = Some v ->
  exists v', Py.dict_get k d' = Some v' /\ tuning v' = tuning v.
Proof.
  intros H Hget. assert (Hk := modes_only_get d d' k H). rewrite Hget in Hk.
  destruct (Py.dict_get k d') as [v'|]; [|contradiction]. eauto.
Qed.

(** [s'] is [s] with some modes changed. *)
Definition only_modes (s s' : System) : Prop :=
  s' = set_antennas (antennas s') s /\ modes_only (antennas s) (antennas s').

Lemma only_modes_refl (s : System) : only_modes s s.
Proof. split; [now destruct s | apply modes_only_refl]. Qed.

Lemma only_modes_trans (s1 s2 s3 : System) :
  only_modes s1 s2 -> only_modes s2 s3 -> only_modes s1 s3.
Proof.
  intros [E1 M1] [E2 M2]. split; [|eapply modes_only_trans; eauto].
  rewrite E2 at 1. rewrite E1. reflexivity.
Qed.

Lemma only_modes_update (id : Z) (f : TransmitReceiveDevice -> TransmitReceiveDevice)
    (s : System) :
  (forall v, tuning (f v) = tuning v) -> only_modes s (update_antenna id f s).
Proof.
  intros Hf. split; [reflexivity|]. simpl. now apply modes_only_update.
Qed.

Lemma tuning_set_mode (m : CommunicationModeType) (d : TransmitReceiveDevice) :
  tuning (set_mode m d) = tuning d.
Proof. reflexivity. Qed.

Lemma send_staged_only_modes (d : Q) (id : Z) (antenna : TransmitReceiveDevice)
    (staged : list Radiosignal.t) :
  forall w, only_modes (snd w) (snd (fst (send_staged d id antenna staged w))).
Proof.
  induction staged as [|signal staged IH]; intros w; simpl.
  - apply only_modes_refl.
  - destruct (Qeq_bool d 0); [apply only_modes_refl|].
    destruct (Py.ge _ _); [|apply only_modes_refl].
    eapply only_modes_trans; [|apply IH]. simpl.
    apply only_modes_update. reflexivity.
Qed.

Lemma send_loop_only_modes (d : Q) (staged : Py.dict (list Radiosignal.t)) :
  forall w, only_modes (snd w) (snd (fst (send_loop d staged w))).
Proof.
  induction staged as [|[id signals] staged IH]; intros w; simpl.
  - apply only_modes_refl.
  - destruct (Py.dict_get id (antennas (snd w))) as [antenna|]; [|apply only_modes_refl].
    assert (H := send_staged_only_modes d id antenna signals w).
    destruct (send_staged d id antenna signals w) as [w' [e|u]]; simpl in *; auto.
    eapply only_modes_trans; [exact H | apply IH].
Qed.

Lemma listen_on_only_modes (w : world) (antenna_ref : Z) :
  only_modes (snd w) (snd (listen_on w antenna_ref)).
Proof.
  unfold listen_on.
  assert (H : only_modes (snd w)
                (update_antenna antenna_ref
                   (fun d => set_consumption (set_mode RECEPTION d)) (snd w)))
    by (apply only_modes_update; reflexivity).
  destruct (Py.dict_get antenna_ref _); exact H.
Qed.

Lemma relay_on_only_modes (w : world) (channel : RelayChannel) :
  only_modes (snd w) (snd (relay_on w channel)).
Proof.
  unfold relay_on.
  set (s1 := update_antenna (antenna_in channel) _ (snd w)).
  set (s2 := update_antenna (antenna_out channel) _ s1).
  assert (H : only_modes (snd w) s2).
  { eapply only_modes_trans; apply only_modes_update; reflexivity. }
  destruct (Py.dict_get (antenna_in channel) _);
    [destruct (Py.dict_get (antenna_out channel) _)|]; exact H.
Qed.

Lemma fold_only_modes {A : Type} (step : world -> A -> world) (l : list A) :
  (forall w x, only_modes (snd w) (snd (step w x))) ->
  forall w, only_modes (snd w) (snd (fold_left step l w)).
Proof.
  intros Hstep. induction l as [|x l IH]; intros w; simpl.
  - apply only_modes_refl.
  - eapply only_modes_trans; [apply Hstep | apply IH].
Qed.

(** The state in which [imitation_step] takes the snapshot. *)
Lemma imitation_step_inr (d : Q) (w w' : world) :
  imitation_step d w = (w', inr tt) ->
  exists s3, only_modes (set_duration (Some d) (snd w)) s3 /\ snd w' = end_of_step s3.
Proof.
  unfold imitation_step.
  assert (H1 := send_loop_only_modes d
                  (dict_signals_to_send (snd (fst w, set_duration (Some d) (snd w))))
                  (fst w, set_duration (Some d) (snd w))).
  destruct (send_loop d _ _) as [w1 [e|u]]; [discriminate|].
  simpl in H1. intros [= <-].
  eexists. split; [|reflexivity].
  eapply only_modes_trans; [exact H1|].
  eapply only_modes_trans; [|apply fold_only_modes; apply relay_on_only_modes].
  apply fold_only_modes. apply listen_on_only_modes.
Qed.

(** ** The frequency of a device stays within its range *)
















(** [finalize_step] changes nothing but the accumulated memory blocks. *)
Lemma accept_signals_frame (id : Z) (antenna : TransmitReceiveDevice)
    (received : list Radiosignal.t) :
  forall s, exists blocks,
    fst (accept_signals id antenna received s) = set_memory_blocks_to_receive blocks s.
Proof.
  induction received as [|signal received IH]; intros s; simpl.
  - exists (dict_id_device_memory_blocks_to_receive s). now destruct s.
  - assert (Hs : exists blocks, s = set_memory_blocks_to_receive blocks s)
      by (exists (dict_id_device_memory_blocks_to_receive s); now destruct s).
    destruct (Py.eq_opt_Z _ _); [|apply IH].
    destruct (duration s); [|exact Hs].
    destruct (Qeq_bool q 0); [exact Hs|].
    destruct (Py.ge _ _); [|apply IH].
    destruct (IH (keep_memory id (Radiosignal.memory signal) s)) as [blocks Hb].
    exists blocks. rewrite Hb. reflexivity.
Qed.

Lemma finalize_loop_frame (m : GlobalSystem.RadioTransmissionMediumSystem)
    (snapshot : Py.dict TransmitReceiveDevice) :
  forall s, exists blocks,
    fst (finalize_loop m snapshot s) = set_memory_blocks_to_receive blocks s.
Proof.
  induction snapshot as [|[id antenna] snapshot IH]; intros s; simpl.
  - exists (dict_id_device_memory_blocks_to_receive s). now destruct s.
  - destruct (accept_signals_frame id antenna
                (global_receive_signal m (global_consumer s) (Some (frequency antenna))) s)
      as [blocks Hb].
    destruct (accept_signals id antenna _ s) as [s' [e|u]]; simpl in *.
    + eauto.
    + destruct (IH s') as [blocks' Hb']. exists blocks'. rewrite Hb', Hb. reflexivity.
Qed.








(** ** The reception snapshot consumed by [finalize_step] *)

(** What [finalize_step] reads of the local system. *)
Definition pending_reception (s : System)
  : Z * Py.dict TransmitReceiveDevice * option Q * Py.dict (list MemoryBlock.t) :=
  (global_consumer s, dict_reception_channel_from_prev_step s, duration s,
   dict_id_device_memory_blocks_to_receive s).

Lemma accept_signals_reads (id : Z) (antenna : TransmitReceiveDevice)
    (received : list Radiosignal.t) :
  forall s s',
    pending_reception s = pending_reception s' ->
    snd (accept_signals id antenna received s) = snd (accept_signals id antenna received s')
    /\ pending_reception (fst (accept_signals id antenna received s))
       = pending_reception (fst (accept_signals id antenna received s')).
Proof.
  induction received as [|signal received IH]; intros s s' Hv; simpl; auto.
  destruct (Py.eq_opt_Z _ _); [|now apply IH].
  assert (Hd : duration s = duration s') by (unfold pending_reception in Hv; congruence).
  rewrite <- Hd. destruct (duration s) as [q|]; auto.
  destruct (Qeq_bool q 0); auto.
  destruct (Py.ge _ _); [|now apply IH].
  apply IH. unfold pending_reception in *. simpl. congruence.
Qed.

Lemma finalize_loop_reads (m : GlobalSystem.RadioTransmissionMediumSystem)
    (snapshot : Py.dict TransmitReceiveDevice) :
  forall s s',
    pending_reception s = pending_reception s' ->
    snd (finalize_loop m snapshot s) = snd (finalize_loop m snapshot s')
    /\ pending_reception (fst (finalize_loop m snapshot s))
       = pending_reception (fst (finalize_loop m snapshot s')).
Proof.
  induction snapshot as [|[id antenna] snapshot IH]; intros s s' Hv; simpl; auto.
  assert (Hg : global_consumer s = global_consumer s')
    by (unfold pending_reception in Hv; congruence).
  rewrite <- Hg.
  destruct (accept_signals_reads id antenna
              (global_receive_signal m (global_consumer s) (Some (frequency antenna)))
              s s' Hv) as [Ho Hv'].
  destruct (accept_signals id antenna _ s) as [s1 [e|u]];
    destruct (accept_signals id antenna _ s') as [s1' [e'|u']];
    simpl in *; try discriminate; auto.
Qed.

Lemma tune_reads (f : option Q) (id : Z) (s s' : System) :
  tune f id s = inr s' -> pending_reception s' = pending_reception s.
Proof.
  intros H. apply tune_inr in H.
  destruct H as [->|[d [q [_ [_ [_ [_ [_ ->]]]]]]]]; reflexivity.
Qed.

Lemma assignment_reads (c : call) (w : world) :
  is_assignment c = true ->
  fst (run c w) = fst w /\ pending_reception (snd (run c w)) = pending_reception (snd w).
Proof.
  destruct c; simpl; try discriminate; intros _; split; auto.
  - unfold assign_device_as_transmitter.
    destruct (Py.dict_get _ _); auto.
    destruct (_ && _); auto. destruct (_ && _); auto.
    destruct (tune _ _ _) as [e|s2] eqn:Ht; auto.
    apply tune_reads in Ht. simpl. destruct (negb _); simpl; exact Ht.
  - unfold assign_device_as_receiver.
    destruct (Py.dict_get _ _); auto.
    destruct (_ && _); auto. destruct (_ && _); auto.
    destruct (tune _ _ _) as [e|s2] eqn:Ht; auto.
    apply tune_reads in Ht. simpl. destruct (negb _); simpl; exact Ht.
  - unfold assign_device_as_repeater.
    destruct (Py.dict_get _ _); auto. destruct (Py.dict_get _ _); auto.
    destruct (_ && _); auto. destruct (_ && _); auto.
    destruct (_ && _); auto. destruct (_ && _); auto.
    destruct (tune frequency_in _ _) as [e|s3] eqn:Ht; auto.
    apply tune_reads in Ht.
    destruct (tune frequency_out _ _) as [e|s4] eqn:Ht'; [exact Ht|].
    apply tune_reads in Ht'. simpl.
    destruct (negb _); simpl; (etransitivity; [exact Ht' | exact Ht]).
Qed.

Lemma assignments_read (later : list call) :
  forallb is_assignment later = true ->
  forall w, fst (run_all later w) = fst w
            /\ pending_reception (snd (run_all later w)) = pending_reception (snd w).
Proof.
  unfold run_all. induction later as [|c later IH]; simpl; intros H w; auto.
  apply andb_true_iff in H. destruct H as [Hc Hl].
  destruct (assignment_reads c w Hc) as [H1 H2].
  destruct (IH Hl (run c w)) as [H3 H4]. split; congruence.
Qed.

(** ** Channel capacity *)

(** The quotient [signal.memory.size / duration]. *)
Definition required_capacity (signal : Radiosignal.t) (d : Q) : Q :=
  inject_Z (MemoryBlock.size (Radiosignal.memory signal)) / d.





Lemma get_keep_memory (id id' : Z) (mb : MemoryBlock.t) (s : System) :
  get_antennas_signals (keep_memory id mb s) id'
  = if Z.eqb id id' then get_antennas_signals s id' ++ [mb]
    else get_antennas_signals s id'.
Proof.
  unfold get_antennas_signals, keep_memory. simpl.
  destruct (Z.eqb id id') eqn:E.
  - apply Z.eqb_eq in E. subst id'.
    now rewrite dict_list_append_same, dict_list_setdefault.
  - apply Z.eqb_neq in E.
    now rewrite dict_list_append_other, dict_list_setdefault.
Qed.

(** A signal passes the filter of [finalize_step] for the entry
    [id |-> antenna]. *)
Definition accepted (d : Q) (id : Z) (antenna : TransmitReceiveDevice)
    (signal : Radiosignal.t) : Prop :=
  Radiosignal.id_antenna_receiver signal = Some id
  /\ required_capacity signal d <= channel_capacity_receive (properties antenna).

Lemma accept_signals_spec (d : Q) (id : Z) (antenna : TransmitReceiveDevice)
    (received : list Radiosignal.t) :
  ~ d == 0 ->
  forall s,
    duration s = Some d ->
    snd (accept_signals id antenna received s) = inr tt
    /\ forall id' mb,
        In mb (get_antennas_signals (fst (accept_signals id antenna received s)) id')
        <-> In mb (get_antennas_signals s id')
            \/ (id' = id
                /\ exists signal,
                    In signal received /\ accepted d id antenna signal
                    /\ Radiosignal.memory signal = mb).
Proof.
  intros Hd. assert (Hd' : Qeq_bool d 0 = false).
  { apply not_true_iff_false. now rewrite Qeq_bool_iff. }
  induction received as [|signal received IH]; intros s Hdur; simpl.
  - split; auto. intros id' mb. split; auto.
    intros [H|[_ [x [[] _]]]]. exact H.
  - assert (Hskip :
      ~ accepted d id antenna signal ->
      snd (accept_signals id antenna received s) = inr tt
      /\ forall id' mb,
          In mb (get_antennas_signals (fst (accept_signals id antenna received s)) id')
          <-> In mb (get_antennas_signals s id')
              \/ (id' = id
                  /\ exists x,
                      (signal = x \/ In x received) /\ accepted d id antenna x
                      /\ Radiosignal.memory x = mb)).
    { intros Hno. destruct (IH s Hdur) as [Ho Hiff]. split; auto.
      intros id' mb. rewrite Hiff. split.
      - intros [H|[E [x [Hin Hx]]]]; eauto 10.
      - intros [H|[E [x [[<-|Hin] [Hacc Hm]]]]]; eauto 10. contradiction. }
    destruct (Py.eq_opt_Z _ _) eqn:Eant.
    + rewrite Hdur, Hd'.
      destruct (Py.ge _ _) eqn:Ecap.
      * apply eq_opt_Z_eq in Eant. apply ge_spec in Ecap.
        destruct (IH (keep_memory id (Radiosignal.memory signal) s) Hdur) as [Ho Hiff].
        split; auto. intros id' mb. rewrite Hiff, get_keep_memory.
        destruct (Z.eqb id id') eqn:E.
        -- apply Z.eqb_eq in E. subst id'. rewrite in_app_iff. simpl. split.
           ++ intros [[H|[H|[]]]|[_ [x [Hin Hx]]]]; eauto 10.
              right. split; auto. exists signal. repeat split; auto.
           ++ intros [H|[_ [x [[<-|Hin] [Hacc Hm]]]]]; eauto 10.
        -- apply Z.eqb_neq in E. split.
           ++ intros [H|[E' _]]; [auto | congruence].
           ++ intros [H|[E' _]]; [auto | congruence].
      * apply Hskip. intros [_ Hcap]. apply ge_false_spec in Ecap.
        unfold required_capacity in Hcap. eapply Qlt_not_le; eauto.
    + apply Hskip. intros [Hant _]. apply eq_opt_Z_eq in Hant. congruence.
Qed.

Lemma finalize_loop_spec (m : GlobalSystem.RadioTransmissionMediumSystem) (d : Q)
    (snapshot : Py.dict TransmitReceiveDevice) :
  ~ d == 0 ->
  forall s,
    duration s = Some d ->
    snd (finalize_loop m snapshot s) = inr tt
    /\ forall id mb,
        In mb (get_antennas_signals (fst (finalize_loop m snapshot s)) id)
        <-> In mb (get_antennas_signals s id)
            \/ exists antenna signal,
                In (id, antenna) snapshot
                /\ In signal (global_receive_signal m (global_consumer s)
                                (Some (frequency antenna)))
                /\ accepted d id antenna signal
                /\ Radiosignal.memory signal = mb.
Proof.
  intros Hd. induction snapshot as [|[id0 antenna0] snapshot IH]; intros s Hdur; simpl.
  - split; auto. intros id mb. split; auto. intros [H|[a [x [[] _]]]]. exact H.
  - destruct (accept_signals_spec d id0 antenna0
                (global_receive_signal m (global_consumer s) (Some (frequency antenna0)))
                Hd s Hdur) as [Ho Hiff].
    destruct (accept_signals_frame id0 antenna0
                (global_receive_signal m (global_consumer s) (Some (frequency antenna0))) s)
      as [blocks Hframe].
    destruct (accept_signals id0 antenna0 _ s) as [s1 o]. simpl in Ho, Hiff, Hframe.
    subst o.
    assert (Hdur1 : duration s1 = Some d) by (rewrite Hframe; exact Hdur).
    assert (Hgc : global_consumer s1 = global_consumer s) by (now rewrite Hframe).
    destruct (IH s1 Hdur1) as [Ho1 Hiff1]. split; auto.
    intros id mb. rewrite Hiff1, Hiff, Hgc. split.
    + intros [[H|[-> [x [Hin [Hacc Hm]]]]]|[a [x [Hin Hx]]]].
      * left. exact H.
      * right. exists antenna0, x. split; [left; reflexivity | auto].
      * right. exists a, x. split; [right; exact Hin | exact Hx].
    + intros [H|[a [x [[Heq|Hin] [Hrecv [Hacc Hm]]]]]].
      * left. left. exact H.
      * inversion Heq; subst. left. right. split; [reflexivity|]. exists x. auto.
      * right. exists a, x. auto.
Qed.

(** The test of the inner loop of [finalize_step]. *)
Definition fits (d : Q) (id : Z) (antenna : TransmitReceiveDevice)
    (signal : Radiosignal.t) : bool :=
  Py.eq_opt_Z (Radiosignal.id_antenna_receiver signal) (Some id)
  && Py.ge (channel_capacity_receive (properties antenna))
           (inject_Z (MemoryBlock.size (Radiosignal.memory signal)) / d).

(** The memory blocks that the entry [id |-> antenna] of the snapshot takes
    from the signals received on its frequency, in the order of arrival. *)
Definition taken (d : Q) (id : Z) (antenna : TransmitReceiveDevice)
    (received : list Radiosignal.t) : list MemoryBlock.t :=
  map Radiosignal.memory (filter (fits d id antenna) received).

(** The memory blocks that a snapshot collects for antenna [id]. *)
Definition collected (m : GlobalSystem.RadioTransmissionMediumSystem) (gc : Z) (d : Q)
    (snapshot : Py.dict TransmitReceiveDevice) (id : Z) : list MemoryBlock.t :=
  flat_map
    (fun entry =>
       if Z.eqb (fst entry) id
       then taken d (fst entry) (snd entry)
              (global_receive_signal m gc (Some (frequency (snd entry))))
       else [])
    snapshot.

Lemma accept_signals_exact (d : Q) (id : Z) (antenna : TransmitReceiveDevice)
    (received : list Radiosignal.t) :
  ~ d == 0 ->
  forall s,
    duration s = Some d ->
    forall id',
      get_antennas_signals (fst (accept_signals id antenna received s)) id'
      = get_antennas_signals s id'
        ++ (if Z.eqb id id' then taken d id antenna received else []).
Proof.
  intros Hd. assert (Hd' : Qeq_bool d 0 = false).
  { apply not_true_iff_false. now rewrite Qeq_bool_iff. }
  unfold taken.
  induction received as [|signal received IH]; intros s Hdur id'; simpl.
  - destruct (Z.eqb id id'); now rewrite app_nil_r.
  - unfold fits at 1. destruct (Py.eq_opt_Z _ _); [|apply IH; exact Hdur].
    rewrite Hdur, Hd'. cbn [andb].
    destruct (Py.ge _ _); [|apply IH; exact Hdur].
    rewrite (IH (keep_memory id (Radiosignal.memory signal) s) Hdur id').
    rewrite get_keep_memory.
    destruct (Z.eqb id id'); [|reflexivity].
    now rewrite <- app_assoc.
Qed.

Lemma finalize_loop_exact (m : GlobalSystem.RadioTransmissionMediumSystem) (d : Q)
    (snapshot : Py.dict TransmitReceiveDevice) :
  ~ d == 0 ->
  forall s,
    duration s = Some d ->
    forall id,
      get_antennas_signals (fst (finalize_loop m snapshot s)) id
      = get_antennas_signals s id ++ collected m (global_consumer s) d snapshot id.
Proof.
  intros Hd. induction snapshot as [|[id0 antenna0] snapshot IH]; intros s Hdur id; simpl.
  - now rewrite app_nil_r.
  - assert (Hexact := accept_signals_exact d id0 antenna0
                        (global_receive_signal m (global_consumer s)
                           (Some (frequency antenna0))) Hd s Hdur id).
    destruct (accept_signals_spec d id0 antenna0
                (global_receive_signal m (global_consumer s) (Some (frequency antenna0)))
                Hd s Hdur) as [Ho _].
    destruct (accept_signals_frame id0 antenna0
                (global_receive_signal m (global_consumer s) (Some (frequency antenna0))) s)
      as [blocks Hframe].
    destruct (accept_signals id0 antenna0 _ s) as [s1 o]. simpl in Ho, Hexact, Hframe.
    subst o.
    assert (Hdur1 : duration s1 = Some d) by (rewrite Hframe; exact Hdur).
    assert (Hgc : global_consumer s1 = global_consumer s) by (now rewrite Hframe).
    rewrite (IH s1 Hdur1 id), Hexact, Hgc, <- app_assoc. reflexivity.
Qed.

(** In every state the local system can reach, each device is registered
    under its own id and each device with staged signals is registered. *)
Definition staging_resolves (s : System) : Prop :=
  (forall k d, Py.dict_get k (antennas s) = Some d -> id_antenna d = k)
  /\ (forall id signals, In (id, signals) (dict_signals_to_send s) ->
        exists dev, Py.dict_get id (antennas s) = Some dev).

Lemma tuning_id (v v' : TransmitReceiveDevice) :
  tuning v = tuning v' -> id_antenna v = id_antenna v'.
Proof. unfold tuning. congruence. Qed.

Lemma only_modes_resolves (s s' : System) :
  only_modes s s' -> staging_resolves s -> staging_resolves s'.
Proof.
  intros [E M] [H1 H2]. split.
  - intros k d' Hget. assert (Hk := modes_only_get _ _ k M). rewrite Hget in Hk.
    destruct (Py.dict_get k (antennas s)) as [d|] eqn:Hg; [|contradiction].
    rewrite <- (tuning_id _ _ Hk). now apply H1.
  - intros id signals Hin. rewrite E in Hin. simpl in Hin.
    destruct (H2 _ _ Hin) as [dev Hd].
    destruct (modes_only_get_some _ _ _ _ M Hd) as [dev' [Hd' _]]. eauto.
Qed.

Lemma tune_resolves (f : option Q) (id : Z) (s s' : System) :
  tune f id s = inr s' -> staging_resolves s -> staging_resolves s'.
Proof.
  intros Htune [H1 H2]. apply tune_inr in Htune.
  destruct Htune as [->|[d [q [_ [_ [Hget [_ [_ ->]]]]]]]]; [split; auto|].
  split; simpl.
  - intros k d' Hk. destruct (Z.eq_dec id k) as [<-|Hne].
    + rewrite dict_get_set_same in Hk. inversion Hk; subst d'. simpl. now apply H1.
    + rewrite dict_get_set_other in Hk by exact Hne. now apply H1.
  - intros k signals Hin. destruct (H2 _ _ Hin) as [dev Hd].
    destruct (Z.eq_dec id k) as [<-|Hne].
    + rewrite dict_get_set_same. eauto.
    + rewrite dict_get_set_other by exact Hne. eauto.
Qed.

Lemma tune_keeps_device (f : option Q) (id k : Z) (s s' : System)
    (d : TransmitReceiveDevice) :
  tune f id s = inr s' -> Py.dict_get k (antennas s) = Some d ->
  exists d', Py.dict_get k (antennas s') = Some d'.
Proof.
  intros Htune Hk. apply tune_inr in Htune.
  destruct Htune as [->|[d0 [q [_ [_ [_ [_ [_ ->]]]]]]]]; [eauto|]. simpl.
  destruct (Z.eq_dec id k) as [<-|Hne].
  - rewrite dict_get_set_same. eauto.
  - rewrite dict_get_set_other by exact Hne. eauto.
Qed.

Lemma In_append_at {V : Type} (k k0 : Z) (v : list V) (x : V) (d : Py.dict (list V)) :
  In (k, v) (Py.append_at k0 x (Py.setdefault k0 d)) ->
  k = k0 \/ exists v0, In (k, v0) d.
Proof.
  unfold Py.append_at. intros H. apply In_dict_set in H.
  destruct H as [H|H]; [left; congruence|].
  unfold Py.setdefault in H. destruct (Py.dict_mem k0 d); [eauto|].
  apply In_dict_set in H. destruct H as [H|H]; [left; congruence | eauto].
Qed.

Lemma assign_transmitter_resolves (s : System) (mb : MemoryBlock.t) (a rcv : Z)
    (f : option Q) (ar : option Z) :
  staging_resolves s ->
  staging_resolves (fst (assign_device_as_transmitter s mb a rcv f ar)).
Proof.
  intros H. unfold assign_device_as_transmitter.
  destruct (Py.dict_get a (antennas s)) as [antenna|] eqn:Hget; auto.
  destruct (_ && _); auto.
  destruct (_ && _); auto.
  assert (Hm : only_modes s (update_antenna a (set_mode TRANSMISSION) s))
    by (apply only_modes_update; reflexivity).
  assert (H1 := only_modes_resolves _ _ Hm H).
  destruct (modes_only_get_some _ _ _ _ (proj2 Hm) Hget) as [d1 [Hget1 _]].
  destruct (tune f a _) as [e|s2] eqn:Htune; auto.
  destruct (tune_keeps_device _ _ _ _ _ _ Htune Hget1) as [d2 Hget2].
  destruct (tune_resolves _ _ _ _ Htune H1) as [K2 S2].
  assert (Hid : id_antenna antenna = a) by (apply (proj1 H); exact Hget).
  assert (R : staging_resolves
                (set_signals_to_send
                   (Py.append_at (id_antenna antenna)
                      (Radiosignal.make (-1) rcv mb
                         match Py.dict_get a (antennas s2) with
                         | Some d => frequency d
                         | None => frequency antenna
                         end ar)
                      (Py.setdefault (id_antenna antenna) (dict_signals_to_send s2))) s2)).
  { split; simpl; [exact K2|].
    intros id signals Hin. apply In_append_at in Hin.
    destruct Hin as [->|[v0 Hin]]; [rewrite Hid; eauto | eauto]. }
  simpl. destruct (negb _); exact R.
Qed.

Lemma assign_receiver_resolves (s : System) (a : Z) (f : option Q) :
  staging_resolves s -> staging_resolves (fst (assign_device_as_receiver s a f)).
Proof.
  intros H. unfold assign_device_as_receiver.
  destruct (Py.dict_get a (antennas s)); auto.
  destruct (_ && _); auto.
  destruct (_ && _); auto.
  assert (H1 : staging_resolves (update_antenna a (set_mode RECEPTION) s)).
  { eapply only_modes_resolves; [|exact H]. apply only_modes_update. reflexivity. }
  destruct (tune f a _) as [e|s2] eqn:Htune; auto.
  assert (H2 := tune_resolves _ _ _ _ Htune H1).
  simpl. destruct (negb _); exact H2.
Qed.

Lemma assign_repeater_resolves (s : System) (a_in a_out dest : Z)
    (dest_antenna : option Z) (f_in f_out : option Q) (save : bool) :
  staging_resolves s ->
  staging_resolves
    (fst (assign_device_as_repeater s a_in a_out dest dest_antenna f_in f_out save)).
Proof.
  intros H. unfold assign_device_as_repeater.
  destruct (Py.dict_get a_in (antennas s)); auto.
  destruct (Py.dict_get a_out (antennas s)); auto.
  destruct (_ && _); auto.
  destruct (_ && _); auto.
  destruct (_ && _); auto.
  destruct (_ && _); auto.
  assert (H2 : staging_resolves
                 (update_antenna a_out (set_mode RELAYING_OUT)
                    (update_antenna a_in (set_mode RELAYING_IN) s))).
  { eapply only_modes_resolves; [|exact H].
    eapply only_modes_trans; apply only_modes_update; reflexivity. }
  destruct (tune f_in a_in _) as [e|s3] eqn:Htune; auto.
  assert (H3 := tune_resolves _ _ _ _ Htune H2).
  destruct (tune f_out a_out s3) as [e|s4] eqn:Htune'; auto.
  assert (H4 := tune_resolves _ _ _ _ Htune' H3).
  simpl. destruct (negb _); exact H4.
Qed.

Lemma end_of_step_resolves (s : System) :
  staging_resolves s -> staging_resolves (end_of_step s).
Proof.
  intros [H1 _]. unfold end_of_step. split; simpl; [|intros id signals []].
  intros k d' Hget.
  assert (Hk := modes_only_get _ _ k
                  (modes_only_map (set_mode FREE) (antennas s) (tuning_set_mode FREE))).
  rewrite Hget in Hk.
  destruct (Py.dict_get k (antennas s)) as [d0|] eqn:Hg; [|contradiction].
  rewrite <- (tuning_id _ _ Hk). now apply H1.
Qed.

Lemma imitation_step_resolves (d : Q) (w : world) :
  staging_resolves (snd w) -> staging_resolves (snd (fst (imitation_step d w))).
Proof.
  intros H. unfold imitation_step.
  assert (H1 := send_loop_only_modes d
                  (dict_signals_to_send (snd (fst w, set_duration (Some d) (snd w))))
                  (fst w, set_duration (Some d) (snd w))).
  assert (H0 : staging_resolves (set_duration (Some d) (snd w))) by exact H.
  destruct (send_loop d _ _) as [w1 [e|u]]; simpl in *.
  - eapply only_modes_resolves; eauto.
  - apply end_of_step_resolves.
    eapply only_modes_resolves;
      [apply fold_only_modes; apply relay_on_only_modes|].
    eapply only_modes_resolves;
      [apply fold_only_modes; apply listen_on_only_modes|].
    eapply only_modes_resolves; eauto.
Qed.

Lemma run_resolves (c : call) (w : world) :
  staging_resolves (snd w) -> staging_resolves (snd (run c w)).
Proof.
  intros H. destruct c; simpl.
  - destruct (post_init constructor_arguments) as [e|p]; auto.
    destruct H as [H1 H2]. unfold add_device. split; simpl.
    + intros k d Hk.
      destruct (Z.eq_dec (Z.of_nat (length (antennas (snd w)))) k) as [<-|Hne].
      * rewrite dict_get_set_same in Hk. now inversion Hk.
      * rewrite dict_get_set_other in Hk by exact Hne. now apply H1.
    + intros id signals Hin. destruct (H2 _ _ Hin) as [dev Hd].
      destruct (Z.eq_dec (Z.of_nat (length (antennas (snd w)))) id) as [<-|Hne].
      * rewrite dict_get_set_same. eauto.
      * rewrite dict_get_set_other by exact Hne. eauto.
  - now apply assign_transmitter_resolves.
  - now apply assign_receiver_resolves.
  - now apply assign_repeater_resolves.
  - now apply imitation_step_resolves.
  - unfold finalize_step.
    destruct (finalize_loop_frame (fst w)
                (dict_reception_channel_from_prev_step (snd w)) (snd w)) as [blocks ->].
    exact H.
Qed.

Lemma run_all_resolves (calls : list call) :
  forall w, staging_resolves (snd w) -> staging_resolves (snd (run_all calls w)).
Proof.
  unfold run_all. induction calls as [|c calls IH]; intros w H; simpl; auto.
  apply IH. now apply run_resolves.
Qed.








(** ** The scenario of test.py

    Three spacecraft: 1 transmits, 2 relays to 3 (in at 100, out at 150,
    keeping local copies), 3 receives at 100 on antenna 0 and at 150 on
    antenna 1. *)

Definition constructor_arguments_of_test : TransmitReceiveDeviceProperties :=
  {| channel_capacity_transmit := 100; channel_capacity_receive := 100;
     frequency_range_min := 50; frequency_range_max := 200;
     consumption := 10; consumption_transmission := None;
     consumption_reception := None |}.

Definition registered_medium : GlobalSystem.RadioTransmissionMediumSystem :=
  Eval vm_compute in
  fst (GlobalSystem.register_consumer
         {| GlobalSystem.frequency := 150; GlobalSystem.id_consumer := 3 |}
         (fst (GlobalSystem.register_consumer
                 {| GlobalSystem.frequency := 100; GlobalSystem.id_consumer := 2 |}
                 (fst (GlobalSystem.register_consumer
                         {| GlobalSystem.frequency := 100; GlobalSystem.id_consumer := 1 |}
                         GlobalSystem.init))))).

Definition with_devices (n : nat) (global_consumer : Z) : System :=
  snd (run_all (repeat (AddDevice constructor_arguments_of_test) n)
         (registered_medium, new_system global_consumer)).

Definition system_1 : System :=
  Eval vm_compute in
  snd (run_all
         [AssignTransmitter (MemoryBlock.make 121 3 4) 0 2 (Some 100) (Some 1%Z);
          AssignTransmitter (MemoryBlock.make 122 5 6) 1 2 (Some 150) (Some 0%Z);
          AssignTransmitter (MemoryBlock.make 131 7 8) 1 3 (Some 150) (Some 1%Z);
          AssignTransmitter (MemoryBlock.make 233 17 18) 0 3 (Some 100) (Some 0%Z)]
         (registered_medium, with_devices 2 1)).

Definition system_2 : System :=
  Eval vm_compute in
  snd (run_all [AssignRepeater 1 2 3 (Some 1%Z) (Some 100) (Some 150) true]
         (registered_medium, with_devices 3 2)).

Definition system_3 : System :=
  Eval vm_compute in
  snd (run_all [AssignReceiver 0 (Some 100); AssignReceiver 1 (Some 150)]
         (registered_medium, with_devices 2 3)).

Definition after_step_1 : world :=
  Eval vm_compute in fst (imitation_step 1 (registered_medium, system_1)).
Definition after_step_2 : world :=
  Eval vm_compute in fst (imitation_step 1 (fst after_step_1, system_2)).
Definition before_step_3 : world :=
  Eval vm_compute in (fst after_step_2, system_3).
Definition after_step_3 : world :=
  Eval vm_compute in fst (imitation_step 1 before_step_3).

Definition after_global_step : GlobalSystem.RadioTransmissionMediumSystem :=
  Eval vm_compute in
  match GlobalSystem.imitation_step 1 (fst after_step_3) with
  | GlobalSystem.Returned m => m
  | _ => fst after_step_3
  end.

(** The assertions of the test hold in the model. *)
Lemma test_signals_are_in_receivers :
  dict_id_device_memory_blocks_to_receive
    (fst (finalize_step after_global_step (snd after_step_1))) = []
  /\ dict_id_device_memory_blocks_to_receive
       (fst (finalize_step after_global_step (snd after_step_2))) = []
  /\ dict_id_device_memory_blocks_to_receive
       (fst (finalize_step after_global_step (snd after_step_3)))
     = [(0%Z, [MemoryBlock.make 233 17 18]);
        (1%Z, [MemoryBlock.make 121 3 4; MemoryBlock.make 131 7 8])].
Proof.
  split; [|split]; vm_compute; reflexivity.
Qed.

(** Assignments of the next step, made before [finalize_step] is called. *)
Definition next_assignments : list call :=
  [AssignReceiver 0 (Some 60); AssignTransmitter (MemoryBlock.make 300 0 9) 1 2 (Some 70) None].

(** The reception channels of a step, read in the registry as it is when
    the step is made: the memory blocks that antenna [id] gets from the
    signals received on the frequency of its device, addressed to the
    antenna and fitting the receive capacity of the device. *)
Definition pulled (m : GlobalSystem.RadioTransmissionMediumSystem) (gc : Z) (d : Q)
    (registry : Py.dict TransmitReceiveDevice) (channels : Py.dict Z) (id : Z)
  : list MemoryBlock.t :=
  flat_map
    (fun channel =>
       match Py.dict_get (snd channel) registry with
       | Some device =>
           if Z.eqb (fst channel) id
           then taken d (fst channel) device
                  (global_receive_signal m gc (Some (frequency device)))
           else []
       | None => []
       end)
    channels.

Lemma taken_tuning (d : Q) (id : Z) (v v' : TransmitReceiveDevice)
    (received : list Radiosignal.t) :
  tuning v = tuning v' -> taken d id v received = taken d id v' received.
Proof.
  unfold tuning, taken. intros [= _ Hp _]. f_equal. apply filter_ext.
  intros signal. unfold fits. now rewrite Hp.
Qed.

(** The copy made at the end of a step collects what the reception
    channels pull with the devices as they were before the step. *)
Lemma collected_deepcopy (m : GlobalSystem.RadioTransmissionMediumSystem) (gc : Z) (d : Q)
    (registry registry' : Py.dict TransmitReceiveDevice) (channels : Py.dict Z) (id : Z) :
  modes_only registry registry' ->
  collected m gc d (deepcopy registry' channels) id = pulled m gc d registry channels id.
Proof.
  intros H. unfold collected, pulled.
  induction channels as [|[key antenna_ref] channels IH]; simpl; [reflexivity|].
  assert (Hk := modes_only_get registry registry' antenna_ref H).
  destruct (Py.dict_get antenna_ref registry) as [v|],
           (Py.dict_get antenna_ref registry') as [v'|];
    try contradiction; simpl; [|exact IH].
  rewrite IH. f_equal.
  assert (Hf : frequency v' = frequency v) by (unfold tuning in Hk; congruence).
  rewrite Hf. destruct (Z.eqb key id); [|reflexivity].
  symmetry. now apply taken_tuning.
Qed.

Lemma end_of_step_global_consumer (s : System) :
  global_consumer (end_of_step s) = global_consumer s.
Proof. reflexivity. Qed.

Lemma end_of_step_snapshot (s : System) :
  duration (end_of_step s) = duration s
  /\ dict_id_device_memory_blocks_to_receive (end_of_step s) = []
  /\ dict_reception_channel_from_prev_step (end_of_step s)
     = deepcopy (antennas s) (dict_reception_channel s).
Proof. split; [|split]; reflexivity. Qed.

(** C3.  Let [imitation_step] of tick N return, with a non-zero duration,
    and let any assignments of tick N+1 follow.  Then [finalize_step],
    called with whatever the medium holds after its step, returns, and the
    memory blocks it yields for an antenna are exactly those pulled through
    the reception channels of tick N with the devices as they were when
    the step of tick N was made: the signals received on the frequency the
    device had then, addressed to the antenna id of the channel and fitting
    the receive capacity.  The assignments of tick N+1 do not occur in the
    result; in any state and for any duration, they leave the medium, the
    copy kept for [finalize_step], its outcome and the memory blocks it
    accumulates as they are without them. *)
Theorem finalize_uses_the_snapshot_of_its_step :
  (forall (d : Q) (w w1 : world) (m : GlobalSystem.RadioTransmissionMediumSystem)
          (later : list call),
      ~ d == 0 ->
      imitation_step d w = (w1, inr tt) ->
      forallb is_assignment later = true ->
      let s2 := snd (run_all later (m, snd w1)) in
      snd (finalize_step m s2) = inr tt
      /\ forall id,
          get_antennas_signals (fst (finalize_step m s2)) id
          = pulled m (global_consumer (snd w)) d (antennas (snd w))
              (dict_reception_channel (snd w)) id)
  /\ (forall (m : GlobalSystem.RadioTransmissionMediumSystem) (s : System)
             (later : list call),
         forallb is_assignment later = true ->
         fst (run_all later (m, s)) = m
         /\ dict_reception_channel_from_prev_step (snd (run_all later (m, s)))
            = dict_reception_channel_from_prev_step s
         /\ snd (finalize_step m (snd (run_all later (m, s)))) = snd (finalize_step m s)
         /\ dict_id_device_memory_blocks_to_receive
              (fst (finalize_step m (snd (run_all later (m, s)))))
            = dict_id_device_memory_blocks_to_receive (fst (finalize_step m s))).
Proof.
  split.
  - intros d w w1 m later Hd Hstep Hlater s2.
    apply imitation_step_inr in Hstep. destruct Hstep as [s3 [[E M] Hw1]].
    destruct (end_of_step_snapshot s3) as [Hdur [Hblocks Hsnapshot]].
    assert (Hgc := end_of_step_global_consumer s3).
    rewrite <- Hw1 in Hdur, Hblocks, Hsnapshot, Hgc.
    assert (Hdur3 : duration s3 = Some d) by (rewrite E; reflexivity).
    assert (Hgc3 : global_consumer s3 = global_consumer (snd w))
      by (rewrite E; reflexivity).
    assert (Hchannels : dict_reception_channel s3 = dict_reception_channel (snd w))
      by (rewrite E; reflexivity).
    simpl in M.
    destruct (assignments_read later Hlater (m, snd w1)) as [_ Hreads].
    simpl in Hreads. fold s2 in Hreads. unfold pending_reception in Hreads.
    assert (H1 : global_consumer s2 = global_consumer (snd w)) by congruence.
    assert (H2 : dict_reception_channel_from_prev_step s2
                 = deepcopy (antennas s3) (dict_reception_channel (snd w)))
      by congruence.
    assert (H3 : duration s2 = Some d) by congruence.
    assert (H4 : dict_id_device_memory_blocks_to_receive s2 = []) by congruence.
    unfold finalize_step. rewrite H2. split.
    + apply (finalize_loop_spec m d _ Hd s2 H3).
    + intros id. rewrite (finalize_loop_exact m d _ Hd s2 H3 id), H1.
      unfold get_antennas_signals at 1. rewrite H4. simpl.
      now apply collected_deepcopy.
  - intros m s later H.
    destruct (assignments_read later H (m, s)) as [H1 H2]. simpl in H1, H2.
    split; [exact H1|].
    assert (Hsnap : dict_reception_channel_from_prev_step (snd (run_all later (m, s)))
                    = dict_reception_channel_from_prev_step s)
      by (unfold pending_reception in H2; congruence).
    split; [exact Hsnap|].
    unfold finalize_step. rewrite Hsnap.
    destruct (finalize_loop_reads m (dict_reception_channel_from_prev_step s) _ _ H2)
      as [Ho Hv].
    split; [exact Ho|]. unfold pending_reception in Hv. congruence.
Qed.

(** The assignments of the next step do retune the first device, to 60,
    while the copy kept for [finalize_step] still has it at 100. *)
Lemma next_assignments_retune :
  option_map frequency
    (Py.dict_get 0
       (antennas (snd (run_all next_assignments (after_global_step, snd after_step_3)))))
  = Some 60
  /\ option_map frequency
       (Py.dict_get 0
          (dict_reception_channel_from_prev_step
             (snd (run_all next_assignments (after_global_step, snd after_step_3)))))
     = Some 100.
Proof. split; vm_compute; reflexivity. Qed.

Lemma finalize_uses_the_snapshot_of_its_step_witness :
  snd (finalize_step after_global_step
         (snd (run_all next_assignments (after_global_step, snd after_step_3))))
  = inr tt
  /\ get_antennas_signals
       (fst (finalize_step after_global_step
               (snd (run_all next_assignments (after_global_step, snd after_step_3)))))
       1
     = [MemoryBlock.make 121 3 4; MemoryBlock.make 131 7 8].
Proof.
  assert (Hd : ~ 1 == 0) by (intros E; discriminate E).
  assert (Hstep : imitation_step 1 before_step_3 = (after_step_3, inr tt))
    by (vm_compute; reflexivity).
  destruct (proj1 finalize_uses_the_snapshot_of_its_step 1 before_step_3 after_step_3
              after_global_step next_assignments Hd Hstep eq_refl)
    as [Hreturns Hpulled].
  split; [exact Hreturns|].
  rewrite (Hpulled 1%Z). vm_compute. reflexivity.
Defined.


(** A sender of transmit capacity 1000 stages blocks of size 500 and 50
    for antenna 0 of consumer 3, whose device has the receive capacity
    100 and listens at 150. *)
Definition wide_sender_properties : TransmitReceiveDeviceProperties :=
  {| channel_capacity_transmit := 1000; channel_capacity_receive := 100;
     frequency_range_min := 50; frequency_range_max := 200;
     consumption := 10; consumption_transmission := None;
     consumption_reception := None |}.

Definition wide_sender : System :=
  Eval vm_compute in
  snd (run_all [AddDevice wide_sender_properties;
                AssignTransmitter (MemoryBlock.make 7 0 500) 0 3 (Some 150) (Some 0%Z);
                AssignTransmitter (MemoryBlock.make 8 0 50) 0 3 (Some 150) (Some 0%Z)]
         (registered_medium, new_system 1)).

Definition narrow_receiver : System :=
  Eval vm_compute in
  snd (run_all [AddDevice constructor_arguments_of_test; AssignReceiver 0 (Some 150)]
         (registered_medium, new_system 3)).

Definition after_sending : world :=
  Eval vm_compute in fst (imitation_step 1 (registered_medium, wide_sender)).
Definition after_listening : world :=
  Eval vm_compute in fst (imitation_step 1 (fst after_sending, narrow_receiver)).
Definition after_delivery : GlobalSystem.RadioTransmissionMediumSystem :=
  Eval vm_compute in
  match GlobalSystem.imitation_step 1 (fst after_listening) with
  | GlobalSystem.Returned m => m
  | _ => fst after_listening
  end.

(** Both blocks were sent and reach consumer 3 at 150. *)
Lemma both_blocks_are_delivered :
  snd (imitation_step 1 (registered_medium, wide_sender)) = inr tt
  /\ map Radiosignal.memory (global_receive_signal after_delivery 3 (Some 150))
     = [MemoryBlock.make 7 0 500; MemoryBlock.make 8 0 50].
Proof. split; vm_compute; reflexivity. Qed.


End LocalProperties.

(** * Further properties of the global medium *)

Section MoreMediumProperties.
Import GlobalSystem.

(** ** Registration *)

Lemma dict_mem_set_same {V : Type} (k : Z) (v : V) (d : Py.dict V) :
  Py.dict_mem k (Py.dict_set k v d) = true.
Proof. unfold Py.dict_mem. now rewrite dict_get_set_same. Qed.

(** [register_consumer] is idempotent by id: for an id that is registered
    the medium is returned as it is, whatever the other properties say; for
    a new id a consumer with empty queues, inbox and task list is found
    under the id afterwards and the other consumers are untouched. *)
Theorem register_consumer_is_idempotent :
  forall (p : RadioTransmissionMediumConsumerProperties) (st : Medium),
    snd (register_consumer p st) = id_consumer p
    /\ (Py.dict_mem (id_consumer p) (consumers st) = true ->
        fst (register_consumer p st) = st)
    /\ (Py.dict_mem (id_consumer p) (consumers st) = false ->
        Py.dict_get (id_consumer p) (consumers (fst (register_consumer p st)))
        = Some (new_consumer p))
    /\ (forall k, k <> id_consumer p ->
          Py.dict_get k (consumers (fst (register_consumer p st)))
          = Py.dict_get k (consumers st))
    /\ (forall p', id_consumer p' = id_consumer p ->
          register_consumer p' (fst (register_consumer p st))
          = (fst (register_consumer p st), id_consumer p))
    /\ signals (fst (register_consumer p st)) = signals st
    /\ frequency_accuracy (fst (register_consumer p st)) = frequency_accuracy st.
Proof.
  intros p st. unfold register_consumer.
  destruct (Py.dict_mem (id_consumer p) (consumers st)) eqn:E; simpl.
  - split; [reflexivity|]. split; [reflexivity|]. split; [discriminate|].
    split; [reflexivity|]. split; [|split; reflexivity].
    intros p' Hp. rewrite Hp, E. reflexivity.
  - split; [reflexivity|]. split; [discriminate|].
    split; [intros _; apply dict_get_set_same|].
    split; [intros k Hk; apply dict_get_set_other; congruence|].
    split; [|split; reflexivity].
    intros p' Hp. rewrite Hp. simpl. now rewrite dict_mem_set_same.
Qed.

Lemma register_consumer_is_idempotent_witness :
  fst (register_consumer {| frequency := 100; id_consumer := 1 |} init)
  <> init
  /\ register_consumer {| frequency := 150; id_consumer := 1 |}
       (fst (register_consumer {| frequency := 100; id_consumer := 1 |} init))
     = (fst (register_consumer {| frequency := 100; id_consumer := 1 |} init), 1%Z).
Proof.
  destruct (register_consumer_is_idempotent {| frequency := 100; id_consumer := 1 |} init)
    as [_ [_ [Hnew [_ [Hagain _]]]]].
  split.
  - intros Heq. specialize (Hnew eq_refl). rewrite Heq in Hnew. discriminate.
  - apply (Hagain {| frequency := 150; id_consumer := 1 |}). reflexivity.
Defined.

(** ** Queueing a signal *)

(** [send_signal] refuses a signal addressed to the sender itself: it
    returns [False] and neither the consumer nor the store changes.
    Otherwise it returns [True], creates exactly one signal object, stamped
    with the sender's id and the effective frequency, and appends it to the
    queue of the receiver; the other queues, the inbox, the tasks and all
    older signal objects are untouched.  [i_am_repeater] refuses a relay to
    the consumer itself in the same way. *)
Theorem send_signal_queues_one_signal :
  forall (c : Consumer) (h : Heap.t) (rcv : Z) (m : MemoryBlock.t)
         (f : option Q) (a : option Z),
    (id_consumer (properties c) = rcv ->
     send_signal c h rcv m f a = (c, h, false)
     /\ forall a_in a_out f_in f_out save,
         i_am_repeater c rcv a_in a_out f_in f_out save = (c, false))
    /\ (id_consumer (properties c) <> rcv ->
        exists c' h',
          send_signal c h rcv m f a = (c', h', true)
          /\ Heap.fresh h' = S (Heap.fresh h)
          /\ Heap.cell h' (Heap.fresh h)
             = Radiosignal.make (id_consumer (properties c)) rcv m
                 (Py.or_else f (frequency (properties c))) a
          /\ (forall r, r <> Heap.fresh h -> Heap.cell h' r = Heap.cell h r)
          /\ Py.dict_list rcv (dict_id_receiver_signals_to_send c')
             = Py.dict_list rcv (dict_id_receiver_signals_to_send c) ++ [Heap.fresh h]
          /\ (forall k, k <> rcv ->
                Py.dict_list k (dict_id_receiver_signals_to_send c')
                = Py.dict_list k (dict_id_receiver_signals_to_send c))
          /\ properties c' = properties c
          /\ listen_ether_tasks c' = listen_ether_tasks c
          /\ dict_frequency_signal_to_receive c' = dict_frequency_signal_to_receive c
          /\ dict_getting_information c' = dict_getting_information c).
Proof.
  intros c h rcv m f a. split.
  - intros Heq. unfold send_signal, i_am_repeater.
    apply Z.eqb_eq in Heq. rewrite Heq. auto.
  - intros Hne. unfold send_signal. apply Z.eqb_neq in Hne. rewrite Hne. simpl.
    do 2 eexists. split; [reflexivity|]. simpl.
    split; [reflexivity|]. split; [now rewrite Nat.eqb_refl|].
    split.
    { intros r Hr. apply Nat.eqb_neq in Hr. now rewrite Hr. }
    split; [now rewrite dict_list_append_same, dict_list_setdefault|].
    split.
    { intros k Hk. rewrite dict_list_append_other by congruence.
      apply dict_list_setdefault. }
    repeat split.
Qed.

Lemma send_signal_queues_one_signal_witness :
  send_signal consumer_1 Heap.empty 1 (MemoryBlock.make 7 0 4) (Some 100) None
  = (consumer_1, Heap.empty, false)
  /\ exists c' h',
      send_signal consumer_1 Heap.empty 2 (MemoryBlock.make 7 0 4) (Some 120) None
      = (c', h', true)
      /\ Py.dict_list 2 (dict_id_receiver_signals_to_send c') = [] ++ [0%nat].
Proof.
  split.
  - apply (proj1 (send_signal_queues_one_signal consumer_1 Heap.empty 1%Z
                    (MemoryBlock.make 7 0 4) (Some 100) None)).
    reflexivity.
  - destruct (proj2 (send_signal_queues_one_signal consumer_1 Heap.empty 2%Z
                       (MemoryBlock.make 7 0 4) (Some 120) None))
      as [c' [h' [Hrun [_ [_ [_ [Hq _]]]]]]].
    + discriminate.
    + exists c', h'. split; [exact Hrun | exact Hq].
Defined.

(** ** Signals without an antenna id *)

Lemma on_listener_without_antenna (recur : Medium -> Heap.ref -> result) (id : Z)
    (r : Heap.ref) (listener : ListenEtherTask.t) (st : Medium) :
  Radiosignal.id_antenna_receiver (signal st r) = None ->
  on_listener recur id r listener st =
  match ListenEtherTask.id_antenna_receiver listener with
  | None => Raised Py.AssertionError st
  | Some _ => Returned st
  end.
Proof.
  intros Hnone. unfold on_listener.
  destruct (ListenEtherTask.id_antenna_receiver listener); auto.
  unfold can_consumer_receive_signal_by_antenna. rewrite Hnone. simpl.
  now rewrite andb_false_r.
Qed.

(** A signal that carries no antenna id matches no task: [add_signal]
    leaves the medium exactly as it is.  (It raises, still without any
    change, only if the recipient has a task without antenna id; otherwise
    it returns.) *)
Theorem signal_without_antenna_is_never_delivered :
  forall (fuel : nat) (st : Medium) (r : Heap.ref),
    Radiosignal.id_antenna_receiver (signal st r) = None ->
    (add_signal (S fuel) st r = Returned st
     \/ add_signal (S fuel) st r = Raised Py.AssertionError st)
    /\ ((forall recipient task,
           Py.dict_get (Radiosignal.id_receiver (signal st r)) (consumers st)
           = Some recipient ->
           In task (listen_ether_tasks recipient) ->
           ListenEtherTask.id_antenna_receiver task <> None) ->
        add_signal (S fuel) st r = Returned st).
Proof.
  intros fuel st r Hnone.
  assert (Hloop : forall tasks,
             (for_listeners (add_signal fuel) (Radiosignal.id_receiver (signal st r)) r
                tasks st = Returned st
              \/ for_listeners (add_signal fuel) (Radiosignal.id_receiver (signal st r)) r
                   tasks st = Raised Py.AssertionError st)
             /\ ((forall task, In task tasks ->
                    ListenEtherTask.id_antenna_receiver task <> None) ->
                 for_listeners (add_signal fuel) (Radiosignal.id_receiver (signal st r)) r
                   tasks st = Returned st)).
  { induction tasks as [|task tasks [IH1 IH2]]; simpl; [auto|].
    rewrite (on_listener_without_antenna _ _ _ _ _ Hnone).
    destruct (ListenEtherTask.id_antenna_receiver task) eqn:Ea.
    - split; [exact IH1|]. intros H. apply IH2. intros t Ht. apply H. now right.
    - split; [now right|]. intros H. exfalso. apply (H task); auto. }
  simpl. destruct (Py.dict_get _ (consumers st)) as [recipient|] eqn:Hget.
  - split; [apply Hloop|]. intros H. apply Hloop. intros task Ht.
    now apply (H recipient).
  - auto.
Qed.

(** The medium of [boundary_medium] with a signal that names no antenna. *)
Definition unaddressed_medium : Medium :=
  {| consumers := consumers boundary_medium;
     frequency_accuracy := 10;
     signals := Heap.store 0%nat
                  (Radiosignal.make 2 1 (MemoryBlock.make 7 0 4) 100 None) Heap.empty |}.

Lemma signal_without_antenna_is_never_delivered_witness :
  add_signal 1 unaddressed_medium 0%nat = Returned unaddressed_medium.
Proof.
  refine (proj2 (signal_without_antenna_is_never_delivered 0%nat unaddressed_medium
                   0%nat eq_refl) _).
  intros recipient task Hget Hin. vm_compute in Hget. inversion Hget; subst.
  destruct Hin as [<-|[]]. discriminate.
Defined.

(** ** What [add_signal] may change *)

Lemma In_dict_list_append {V : Type} (k k' : Z) (x y : V) (d : Py.dict (list V)) :
  In y (Py.dict_list k' (Py.append_at k x d))
  <-> In y (Py.dict_list k' d) \/ (k = k' /\ y = x).
Proof.
  destruct (Z.eq_dec k k') as [<-|Hne].
  - rewrite dict_list_append_same, in_app_iff. simpl. intuition.
  - rewrite dict_list_append_other by exact Hne. intuition.
Qed.

(** [c'] is [c] with references satisfying [P] appended to some buckets of
    the inbox and of [dict_getting_information]; nothing is removed and
    nothing else differs. *)
Definition consumer_frame (P : Heap.ref -> Prop) (c c' : Consumer) : Prop :=
  properties c' = properties c
  /\ dict_id_receiver_signals_to_send c' = dict_id_receiver_signals_to_send c
  /\ listen_ether_tasks c' = listen_ether_tasks c
  /\ (forall key x,
        In x (Py.dict_list key (dict_frequency_signal_to_receive c')) ->
        In x (Py.dict_list key (dict_frequency_signal_to_receive c)) \/ P x)
  /\ (forall key x,
        In x (Py.dict_list key (dict_frequency_signal_to_receive c)) ->
        In x (Py.dict_list key (dict_frequency_signal_to_receive c')))
  /\ (forall key x,
        In x (Py.dict_list key (dict_getting_information c')) ->
        In x (Py.dict_list key (dict_getting_information c)) \/ P x)
  /\ (forall key x,
        In x (Py.dict_list key (dict_getting_information c)) ->
        In x (Py.dict_list key (dict_getting_information c'))).

(** [st'] is [st] up to: appended references satisfying [P], and the
    receiver, frequency and antenna of signal objects satisfying [P]. *)
Definition frame (P : Heap.ref -> Prop) (st st' : Medium) : Prop :=
  frequency_accuracy st' = frequency_accuracy st
  /\ Forall2 (fun kc kc' => fst kc = fst kc' /\ consumer_frame P (snd kc) (snd kc'))
       (consumers st) (consumers st')
  /\ Heap.fresh (signals st') = Heap.fresh (signals st)
  /\ (forall x, ~ P x -> signal st' x = signal st x)
  /\ (forall x,
        Radiosignal.id_transmitter (signal st' x) = Radiosignal.id_transmitter (signal st x)
        /\ Radiosignal.memory (signal st' x) = Radiosignal.memory (signal st x)).

Lemma consumer_frame_refl (P : Heap.ref -> Prop) (c : Consumer) : consumer_frame P c c.
Proof. unfold consumer_frame. intuition. Qed.

Lemma consumer_frame_trans (P : Heap.ref -> Prop) (c1 c2 c3 : Consumer) :
  consumer_frame P c1 c2 -> consumer_frame P c2 c3 -> consumer_frame P c1 c3.
Proof.
  intros [A1 [A2 [A3 [A4 [A5 [A6 A7]]]]]] [B1 [B2 [B3 [B4 [B5 [B6 B7]]]]]].
  unfold consumer_frame. repeat split; try congruence; auto.
  - intros key x H. destruct (B4 key x H) as [H'|H']; auto.
  - intros key x H. destruct (B6 key x H) as [H'|H']; auto.
Qed.

Lemma consumer_frame_weaken (P Q : Heap.ref -> Prop) (c c' : Consumer) :
  (forall x, P x -> Q x) -> consumer_frame P c c' -> consumer_frame Q c c'.
Proof.
  intros HPQ [A1 [A2 [A3 [A4 [A5 [A6 A7]]]]]].
  unfold consumer_frame. repeat split; auto.
  - intros key x H. destruct (A4 key x H); auto.
  - intros key x H. destruct (A6 key x H); auto.
Qed.

Lemma Forall2_same {A : Type} (R : A -> A -> Prop) (l : list A) :
  (forall x, R x x) -> Forall2 R l l.
Proof. intros H. induction l; constructor; auto. Qed.

Lemma Forall2_compose {A B C : Type} (R : A -> B -> Prop) (S : B -> C -> Prop)
    (T : A -> C -> Prop) (l1 : list A) (l2 : list B) (l3 : list C) :
  (forall a b c, R a b -> S b c -> T a c) ->
  Forall2 R l1 l2 -> Forall2 S l2 l3 -> Forall2 T l1 l3.
Proof.
  intros H H12. revert l3. induction H12 as [|a b l l' Hab _ IH]; intros l3 H23.
  - inversion H23. constructor.
  - inversion H23; subst. constructor; eauto.
Qed.

Lemma Forall2_map_right {A B : Type} (R : A -> B -> Prop) (f : A -> B) (l : list A) :
  (forall x, R x (f x)) -> Forall2 R l (map f l).
Proof. intros H. induction l; simpl; constructor; auto. Qed.

Lemma frame_refl (P : Heap.ref -> Prop) (st : Medium) : frame P st st.
Proof.
  unfold frame. repeat split; auto.
  apply Forall2_same. intros [k c]. split; auto using consumer_frame_refl.
Qed.

Lemma frame_trans (P : Heap.ref -> Prop) (st1 st2 st3 : Medium) :
  frame P st1 st2 -> frame P st2 st3 -> frame P st1 st3.
Proof.
  intros [A1 [A2 [A3 [A4 A5]]]] [B1 [B2 [B3 [B4 B5]]]].
  unfold frame. split; [congruence|]. split.
  { eapply Forall2_compose; [|exact A2|exact B2].
    intros a b c [H1 H2] [H3 H4]. split; [congruence|].
    eapply consumer_frame_trans; eauto. }
  split; [congruence|]. split.
  - intros x Hx. rewrite B4, A4; auto.
  - intros x. destruct (A5 x), (B5 x). split; congruence.
Qed.

Lemma frame_weaken (P Q : Heap.ref -> Prop) (st st' : Medium) :
  (forall x, P x -> Q x) -> frame P st st' -> frame Q st st'.
Proof.
  intros HPQ [A1 [A2 [A3 [A4 A5]]]]. unfold frame. repeat split; auto.
  - eapply Forall2_impl; [|exact A2]. intros a b [H1 H2]. split; auto.
    eapply consumer_frame_weaken; eauto.
  - apply A5.
  - apply A5.
Qed.

Lemma frame_update (P : Heap.ref -> Prop) (id : Z) (f : Consumer -> Consumer)
    (st : Medium) :
  (forall c, consumer_frame P c (f c)) -> frame P st (update_consumer id f st).
Proof.
  intros Hf. unfold frame. simpl. repeat split; auto.
  induction (consumers st) as [|[k c] d IH]; simpl; [constructor|].
  destruct (Z.eqb k id).
  - constructor; [split; simpl; auto|].
    apply Forall2_same. intros [k' c']. split; auto using consumer_frame_refl.
  - constructor; [split; auto using consumer_frame_refl | exact IH].
Qed.

Lemma frame_store (P : Heap.ref -> Prop) (r : Heap.ref) (s' : Radiosignal.t)
    (st : Medium) :
  P r ->
  Radiosignal.id_transmitter s' = Radiosignal.id_transmitter (signal st r) ->
  Radiosignal.memory s' = Radiosignal.memory (signal st r) ->
  frame P st (set_signals (Heap.store r s' (signals st)) st).
Proof.
  intros HP Ht Hm. unfold frame, signal. simpl. repeat split; auto.
  - apply Forall2_same. intros [k c]. split; auto using consumer_frame_refl.
  - intros x Hx. destruct (Nat.eqb x r) eqn:E; auto.
    apply Nat.eqb_eq in E. subst x. contradiction.
  - destruct (Nat.eqb x r) eqn:E; auto. apply Nat.eqb_eq in E. now subst x.
  - destruct (Nat.eqb x r) eqn:E; auto. apply Nat.eqb_eq in E. now subst x.
Qed.

Lemma consumer_frame_open (P : Heap.ref -> Prop) (key : Z) (c : Consumer) :
  consumer_frame P c (open_information key c).
Proof.
  unfold consumer_frame, open_information. simpl. repeat split; auto.
  - intros k x. rewrite dict_list_setdefault. auto.
  - intros k x. now rewrite dict_list_setdefault.
Qed.

Lemma consumer_frame_record (P : Heap.ref -> Prop) (key : Z) (r : Heap.ref)
    (c : Consumer) :
  P r -> consumer_frame P c (record_information key r c).
Proof.
  intros HP. unfold consumer_frame, record_information. simpl. repeat split; auto.
  - intros k x H. apply In_dict_list_append in H. destruct H as [H|[_ ->]]; auto.
  - intros k x H. apply In_dict_list_append. auto.
Qed.

Lemma consumer_frame_deposit (P : Heap.ref -> Prop) (key : Z) (r : Heap.ref)
    (c : Consumer) :
  P r -> consumer_frame P c (deposit key r c).
Proof.
  intros HP. unfold consumer_frame, deposit. simpl. repeat split; auto.
  - intros k x H. apply In_dict_list_append in H. rewrite dict_list_setdefault in H.
    destruct H as [H|[_ ->]]; auto.
  - intros k x H. apply In_dict_list_append. rewrite dict_list_setdefault. auto.
Qed.

(** The state an outcome carries satisfies the frame. *)
Definition framed (P : Heap.ref -> Prop) (res : result) (st : Medium) : Prop :=
  match res with
  | Returned st' => frame P st st'
  | Raised _ st' => frame P st st'
  | OutOfFuel => True
  end.

Lemma framed_trans (P : Heap.ref -> Prop) (res : result) (st st1 : Medium) :
  frame P st st1 -> framed P res st1 -> framed P res st.
Proof.
  intros H. destruct res; simpl; auto; intros H'; eapply frame_trans; eauto.
Qed.

Lemma on_listener_framed (recur : Medium -> Heap.ref -> result) (id : Z)
    (r : Heap.ref) (listener : ListenEtherTask.t) (st : Medium) :
  (forall st0, framed (eq r) (recur st0 r) st0) ->
  framed (eq r) (on_listener recur id r listener st) st.
Proof.
  intros Hrec. unfold on_listener.
  destruct (ListenEtherTask.id_antenna_receiver listener);
    [|simpl; apply frame_refl].
  destruct (_ && _); [|simpl; apply frame_refl].
  cbv zeta.
  set (key := Py.int (ListenEtherTask.frequency_recipiency listener)).
  set (st1 := update_consumer id (open_information key) st).
  assert (F1 : frame (eq r) st st1) by (apply frame_update; apply consumer_frame_open).
  destruct (negb _); [|exact F1].
  set (st2 := update_consumer id (record_information key r) st1).
  assert (F2 : frame (eq r) st st2).
  { eapply frame_trans; [exact F1|]. apply frame_update.
    intros c. now apply consumer_frame_record. }
  destruct (ListenEtherTask.id_destination_relay listener) as [dest|].
  - set (st3 := if ListenEtherTask.save_relayed_signals_locally_relay listener
                then update_consumer id (deposit key r) st2 else st2).
    assert (F3 : frame (eq r) st st3).
    { unfold st3. destruct (ListenEtherTask.save_relayed_signals_locally_relay listener);
        [|exact F2].
      eapply frame_trans; [exact F2|]. apply frame_update.
      intros c. now apply consumer_frame_deposit. }
    destruct (ListenEtherTask.frequency_transmission_relay listener) as [f_out|].
    + eapply framed_trans; [|apply Hrec].
      eapply frame_trans; [exact F3|]. now apply frame_store.
    + simpl. eapply frame_trans; [exact F3|]. now apply frame_store.
  - simpl. eapply frame_trans; [exact F2|]. apply frame_update.
    intros c. now apply consumer_frame_deposit.
Qed.

Lemma for_listeners_framed (recur : Medium -> Heap.ref -> result) (id : Z)
    (r : Heap.ref) (tasks : list ListenEtherTask.t) :
  (forall st0, framed (eq r) (recur st0 r) st0) ->
  forall st, framed (eq r) (for_listeners recur id r tasks st) st.
Proof.
  intros Hrec. induction tasks as [|listener tasks IH]; intros st; simpl.
  - apply frame_refl.
  - assert (H := on_listener_framed recur id r listener st Hrec).
    destruct (on_listener recur id r listener st) as [st'| |]; simpl in *; auto.
    eapply framed_trans; [exact H | apply IH].
Qed.

Lemma add_signal_framed (fuel : nat) :
  forall st r, framed (eq r) (add_signal fuel st r) st.
Proof.
  induction fuel as [|fuel IH]; intros st r; simpl; auto.
  destruct (Py.dict_get _ (consumers st)).
  - apply for_listeners_framed. intros st0. apply IH.
  - apply frame_refl.
Qed.

(** Whatever [add_signal] does, it does by appending the signal object to
    buckets of the inbox and of [dict_getting_information] and by rewriting
    the receiver, the frequency and the antenna of that one object.  The
    registered ids, the properties, queues and tasks of every consumer, the
    accuracy, every other signal object, and the transmitter and memory
    block of the signal itself are the same afterwards, and no bucket loses
    an entry; this holds when the call returns and when it raises. *)
Theorem add_signal_only_appends_the_signal :
  forall (fuel : nat) (st st' : Medium) (r : Heap.ref),
    (add_signal fuel st r = Returned st'
     \/ exists e, add_signal fuel st r = Raised e st') ->
    frame (eq r) st st'.
Proof.
  intros fuel st st' r H. assert (F := add_signal_framed fuel st r).
  destruct H as [H|[e H]]; rewrite H in F; exact F.
Qed.

(** The medium of [relay_medium] after the signal has been relayed. *)
Definition relayed_medium : Medium :=
  Eval vm_compute in
    match add_signal 2 relay_medium 0%nat with
    | Returned st => st
    | _ => relay_medium
    end.

Lemma add_signal_only_appends_the_signal_witness :
  frame (eq 0%nat) relay_medium relayed_medium.
Proof.
  apply (add_signal_only_appends_the_signal 2 relay_medium relayed_medium 0%nat).
  left. vm_compute. reflexivity.
Defined.

(** ** The step of the medium *)

(** The signals queued at the consumers, in the order of delivery. *)
Definition queued_signals (st : Medium) : list Heap.ref :=
  concat (map (fun kc => concat (Py.values (dict_id_receiver_signals_to_send (snd kc))))
              (consumers st)).

Lemma add_signals_framed (rs : list Heap.ref) :
  forall st,
    add_signals rs st <> OutOfFuel
    /\ framed (fun x => In x rs) (add_signals rs st) st.
Proof.
  induction rs as [|r rs IH]; intros st; simpl.
  - split; [discriminate | apply frame_refl].
  - assert (Hrun := add_signal_run_returns st r).
    assert (F := add_signal_framed (S (pending st r)) st r).
    fold (add_signal_run st r) in F.
    destruct (add_signal_run st r) as [st1|e st1|]; [| |contradiction].
    + destruct (IH st1) as [Hne F1]. split; [exact Hne|].
      eapply framed_trans.
      * eapply frame_weaken; [|exact F]. intros x <-. now left.
      * destruct (add_signals rs st1); simpl in *; auto;
          (eapply frame_weaken; [|exact F1]; intros x Hx; now right).
    + split; [discriminate|]. simpl in *.
      eapply frame_weaken; [|exact F]. intros x <-. now left.
Qed.

Lemma Forall2_In_right {A B : Type} (R : A -> B -> Prop) (l : list A) (l' : list B)
    (b : B) :
  Forall2 R l l' -> In b l' -> exists a, In a l /\ R a b.
Proof.
  induction 1 as [|x y l l' Hxy _ IH]; simpl; [contradiction|].
  intros [<-|Hin]; [eauto|]. destruct (IH Hin) as [a [Ha Hr]]. eauto.
Qed.

(** [imitation_step] of the medium always terminates.  When it returns,
    the same consumers are registered with the same properties, the queue
    and the task list of every consumer are empty, and every inbox holds
    only signals that were queued for this very step: what an earlier step
    delivered is gone. *)
Theorem medium_step_consumes_queues_and_tasks :
  forall (d : Q) (st : Medium),
    imitation_step d st <> OutOfFuel
    /\ forall st',
        imitation_step d st = Returned st' ->
        frequency_accuracy st' = frequency_accuracy st
        /\ Forall2 (fun kc kc' =>
                      fst kc = fst kc'
                      /\ properties (snd kc') = properties (snd kc)
                      /\ dict_id_receiver_signals_to_send (snd kc') = []
                      /\ listen_ether_tasks (snd kc') = [])
             (consumers st) (consumers st')
        /\ forall k c' key x,
            Py.dict_get k (consumers st') = Some c' ->
            In x (Py.dict_list key (dict_frequency_signal_to_receive c')) ->
            In x (queued_signals st).
Proof.
  intros d st. unfold imitation_step.
  set (st1 := set_consumers
                (map (fun kc => (fst kc,
                                 set_getting_information []
                                   (set_signal_to_receive [] (snd kc))))
                     (consumers st)) st).
  assert (Hq : concat (map (fun kc => concat (Py.values
                                                (dict_id_receiver_signals_to_send (snd kc))))
                           (consumers st1)) = queued_signals st).
  { unfold queued_signals, st1. simpl. rewrite map_map. reflexivity. }
  rewrite Hq.
  destruct (add_signals_framed (queued_signals st) st1) as [Hne F].
  destruct (add_signals (queued_signals st) st1) as [st2|e st2|];
    [|split; [discriminate | intros st' H; discriminate] | contradiction].
  split; [discriminate|]. intros st' [= <-]. simpl in F.
  destruct F as [Hacc [Hcons _]]. simpl. split; [exact Hacc|]. split.
  - pose (same := fun kc kc' : Z * Consumer =>
                   fst kc = fst kc' /\ properties (snd kc') = properties (snd kc)).
    pose (cleared := fun kc kc' : Z * Consumer =>
                      fst kc = fst kc'
                      /\ properties (snd kc') = properties (snd kc)
                      /\ dict_id_receiver_signals_to_send (snd kc') = []
                      /\ listen_ether_tasks (snd kc') = []).
    assert (H01 : Forall2 same (consumers st) (consumers st1)).
    { unfold st1. simpl. apply Forall2_map_right. intros [k c]. split; reflexivity. }
    assert (H12 : Forall2 same (consumers st1) (consumers st2)).
    { eapply Forall2_impl; [|exact Hcons]. intros a b [Hk [Hp _]]. split; assumption. }
    assert (H23 : Forall2 cleared (consumers st2)
                    (map (fun kc => (fst kc, clear_tasks (snd kc))) (consumers st2))).
    { apply Forall2_map_right. intros [k c]. repeat split. }
    assert (H02 : Forall2 same (consumers st) (consumers st2)).
    { eapply (Forall2_compose same same same); [|exact H01|exact H12].
      intros a b c [A1 A2] [B1 B2]. split; congruence. }
    eapply (Forall2_compose same cleared cleared); [|exact H02|exact H23].
    intros a b c [A1 A2] [B1 [B2 [B3 B4]]]. repeat split; congruence.
  - intros k c' key x Hget Hin. apply dict_get_In in Hget.
    apply in_map_iff in Hget. destruct Hget as [[k2 c2] [Heq Hin2]].
    simpl in Heq. inversion Heq; subst k c'. simpl in Hin.
    destruct (Forall2_In_right _ _ _ _ Hcons Hin2) as [[k1 c1] [Hin1 [_ Hframe]]].
    simpl in Hframe. destruct Hframe as [_ [_ [_ [Hinbox _]]]].
    destruct (Hinbox key x Hin) as [Hold|Hnew]; [|exact Hnew].
    unfold st1 in Hin1. simpl in Hin1. apply in_map_iff in Hin1.
    destruct Hin1 as [[k0 c0] [Heq0 _]]. inversion Heq0; subst. simpl in Hold.
    contradiction.
Qed.

Lemma medium_step_consumes_queues_and_tasks_witness :
  frequency_accuracy after_global_step = frequency_accuracy (fst after_step_3).
Proof.
  refine (proj1 (proj2 (medium_step_consumes_queues_and_tasks 1 (fst after_step_3))
                   after_global_step _)).
  vm_compute. reflexivity.
Defined.

(** ** Listening twice *)

Lemma task_eqb_refl (t : ListenEtherTask.t) : ListenEtherTask.eqb t t = true.
Proof.
  unfold ListenEtherTask.eqb.
  rewrite Qeq_bool_refl, !eq_opt_Z_refl, Bool.eqb_reflx.
  destruct (ListenEtherTask.frequency_transmission_relay t); simpl;
    [now rewrite Qeq_bool_refl | reflexivity].
Qed.

Lemma task_mem_last (t : ListenEtherTask.t) (l : list ListenEtherTask.t) :
  ListenEtherTask.mem t (l ++ [t]) = true.
Proof.
  unfold ListenEtherTask.mem. rewrite existsb_app. simpl.
  rewrite task_eqb_refl. now rewrite orb_true_r.
Qed.

Lemma task_mem_last_self (t : ListenEtherTask.t) (l : list ListenEtherTask.t) :
  ListenEtherTask.eqb t t = true -> ListenEtherTask.mem t (l ++ [t]) = true.
Proof.
  intros H. unfold ListenEtherTask.mem. rewrite existsb_app. simpl.
  rewrite H. now rewrite orb_true_r.
Qed.

(** The task that [listen_ether] of the global consumer builds. *)
Definition global_listening_task (c : Consumer) (a : option Z) (f : option Q)
  : ListenEtherTask.t :=
  ListenEtherTask.make (Py.or_else f (frequency (properties c))) a None None None false.

(** The tasks that [listen_ether] and [i_am_repeater] of the local
    consumer build. *)
Definition local_listening_task (c : LocalSystem.RadiotransmissionConsumer)
    (f : option Q) : ListenEtherTask.t :=
  ListenEtherTask.make (Py.or_else f (LocalSystem.consumer_frequency c))
    None None None None false.

Definition local_relay_task (c : LocalSystem.RadiotransmissionConsumer) (dest : Z)
    (f_in f_out : option Q) (save : bool) : ListenEtherTask.t :=
  ListenEtherTask.make (Py.or_else f_in (LocalSystem.consumer_frequency c)) None
    (Some (Py.or_else f_out (LocalSystem.consumer_frequency c))) (Some dest) None save.

(** When the task built by the call compares equal to itself, which it
    does unless one of its frequencies is NaN, [listen_ether] is
    idempotent, at the global consumer and at the local one, and so is
    [i_am_repeater] of the local consumer: an immediate second call with
    the same arguments returns [False] and changes nothing. *)
Theorem listening_twice_changes_nothing :
  (forall (c : Consumer) (a : option Z) (f : option Q),
      ListenEtherTask.eqb (global_listening_task c a f) (global_listening_task c a f)
      = true ->
      listen_ether (fst (listen_ether c a f)) a f = (fst (listen_ether c a f), false))
  /\ (forall (c : LocalSystem.RadiotransmissionConsumer) (f : option Q),
         ListenEtherTask.eqb (local_listening_task c f) (local_listening_task c f)
         = true ->
         LocalSystem.listen_ether (fst (LocalSystem.listen_ether c f)) f
         = (fst (LocalSystem.listen_ether c f), false))
  /\ (forall (c : LocalSystem.RadiotransmissionConsumer) (dest : Z)
             (f_in f_out : option Q) (save : bool),
         ListenEtherTask.eqb (local_relay_task c dest f_in f_out save)
           (local_relay_task c dest f_in f_out save) = true ->
         LocalSystem.i_am_repeater
           (fst (LocalSystem.i_am_repeater c dest f_in f_out save)) dest f_in f_out save
         = (fst (LocalSystem.i_am_repeater c dest f_in f_out save), false)).
Proof.
  split; [|split].
  - intros c a f Hself. unfold listen_ether at 2 3.
    fold (global_listening_task c a f).
    destruct (ListenEtherTask.mem _ (listen_ether_tasks c)) eqn:E; simpl.
    + unfold listen_ether. fold (global_listening_task c a f). now rewrite E.
    + unfold listen_ether. simpl. fold (global_listening_task c a f).
      now rewrite (task_mem_last_self _ _ Hself).
  - intros c f Hself. unfold LocalSystem.listen_ether at 2 3.
    fold (local_listening_task c f).
    destruct (ListenEtherTask.mem _ (LocalSystem.listen_ether_tasks c)) eqn:E; simpl.
    + unfold LocalSystem.listen_ether. fold (local_listening_task c f). now rewrite E.
    + unfold LocalSystem.listen_ether. simpl. fold (local_listening_task c f).
      now rewrite (task_mem_last_self _ _ Hself).
  - intros c dest f_in f_out save Hself. unfold LocalSystem.i_am_repeater at 2 3.
    fold (local_relay_task c dest f_in f_out save).
    destruct (ListenEtherTask.mem _ (LocalSystem.listen_ether_tasks c)) eqn:E; simpl.
    + unfold LocalSystem.i_am_repeater. fold (local_relay_task c dest f_in f_out save).
      now rewrite E.
    + unfold LocalSystem.i_am_repeater. simpl.
      fold (local_relay_task c dest f_in f_out save).
      now rewrite (task_mem_last_self _ _ Hself).
Qed.

Lemma listening_twice_changes_nothing_witness :
  listen_ether (fst (listen_ether (new_consumer {| frequency := 100; id_consumer := 1 |})
                       (Some 0%Z) (Some 120)))
    (Some 0%Z) (Some 120)
  = (fst (listen_ether (new_consumer {| frequency := 100; id_consumer := 1 |})
            (Some 0%Z) (Some 120)), false).
Proof.
  apply (proj1 listening_twice_changes_nothing). vm_compute. reflexivity.
Defined.

(** ** From a task to [receive_signal] *)

(** A signal delivered for a receive task can be read back: after the loop
    body has handled a matching task without relay destination whose bucket
    did not hold the signal, [receive_signal] at the listening frequency
    returns what it returned before followed by the signal. *)
Theorem delivered_signal_is_read_back :
  forall (recur : Medium -> Heap.ref -> result) (st : Medium) (id : Z) (r : Heap.ref)
         (listener : ListenEtherTask.t) (antenna : Z) (c : Consumer),
    ListenEtherTask.id_antenna_receiver listener = Some antenna ->
    ListenEtherTask.id_destination_relay listener = None ->
    Qabs (Radiosignal.frequency (signal st r)
          - ListenEtherTask.frequency_recipiency listener) < frequency_accuracy st ->
    Radiosignal.id_antenna_receiver (signal st r) = Some antenna ->
    Py.dict_get id (consumers st) = Some c ->
    Heap.mem (signals st) r
      (Py.dict_list (Py.int (ListenEtherTask.frequency_recipiency listener))
         (dict_getting_information c)) = false ->
    ~ ListenEtherTask.frequency_recipiency listener == 0 ->
    exists st' c',
      on_listener recur id r listener st = Returned st'
      /\ Py.dict_get id (consumers st') = Some c'
      /\ receive_signal c' (Some (ListenEtherTask.frequency_recipiency listener))
         = receive_signal c (Some (ListenEtherTask.frequency_recipiency listener)) ++ [r]
      /\ signal st' r = signal st r.
Proof.
  intros recur st id r listener antenna c Ha Hd Hf Hant Hget Hmem Hnz.
  do 2 eexists. split.
  - apply on_listener_terminal with (antenna := antenna) (c := c); auto.
    + unfold can_consumer_receive_signal_by_frequency. now apply lt_spec.
    + unfold can_consumer_receive_signal_by_antenna. rewrite Hant. apply eq_opt_Z_refl.
  - simpl. rewrite !dict_get_update_same, Hget. simpl.
    split; [reflexivity|]. split; [|reflexivity].
    unfold receive_signal. simpl.
    assert (Ht : Py.truthy (ListenEtherTask.frequency_recipiency listener) = true).
    { destruct (Py.truthy _) eqn:E; auto. apply truthy_false_spec in E. contradiction. }
    rewrite Ht. now rewrite dict_list_append_same, dict_list_setdefault.
Qed.

Lemma delivered_signal_is_read_back_witness :
  exists st' c',
    on_listener (add_signal 0) 2 0%nat listen_100 distinct_buckets_medium = Returned st'
    /\ Py.dict_get 2 (consumers st') = Some c'
    /\ receive_signal c' (Some 100) = [] ++ [0%nat].
Proof.
  destruct (delivered_signal_is_read_back (add_signal 0) distinct_buckets_medium 2%Z 0%nat
              listen_100 1%Z
              (set_tasks [listen_100; listen_105]
                 (new_consumer {| frequency := 100; id_consumer := 2 |})))
    as [st' [c' [H1 [H2 [H3 _]]]]]; try reflexivity.
  - intros H. vm_compute in H. discriminate.
  - exists st', c'. split; [exact H1|]. split; [exact H2 | exact H3].
Defined.

End MoreMediumProperties.

(** * Further properties of the local radio system *)

Section MoreLocalProperties.
Import LocalSystem.

Lemma system_eta (s : System) : set_antennas (antennas s) s = s.
Proof. now destruct s. Qed.

Lemma set_mode_same (m : CommunicationModeType) (d : TransmitReceiveDevice) :
  communication_mode d = m -> set_mode m d = d.
Proof. intros <-. now destruct d. Qed.

Lemma dict_update_fixed {V : Type} (k : Z) (f : V -> V) (v : V) (d : Py.dict V) :
  Py.dict_get k d = Some v -> f v = v -> Py.dict_update k f d = d.
Proof.
  intros Hget Hf. induction d as [|[k' v'] d IH]; simpl in *; auto.
  destruct (Z.eqb k' k).
  - inversion Hget; subst. now rewrite Hf.
  - now rewrite IH.
Qed.

Lemma dict_set_fixed {V : Type} (k : Z) (v : V) (d : Py.dict V) :
  Py.dict_get k d = Some v -> Py.dict_set k v d = d.
Proof.
  intros Hget. induction d as [|[k' v'] d IH]; simpl in *; [discriminate|].
  destruct (Z.eqb k' k).
  - now inversion Hget.
  - now rewrite IH.
Qed.

Lemma update_mode_fixed (a : Z) (m : CommunicationModeType) (s : System)
    (d : TransmitReceiveDevice) :
  Py.dict_get a (antennas s) = Some d -> communication_mode d = m ->
  update_antenna a (set_mode m) s = s.
Proof.
  intros Hget Hm. unfold update_antenna.
  rewrite (dict_update_fixed a (set_mode m) d); auto using set_mode_same, system_eta.
Qed.

(** The only exceptions [tune] lets through are the two range errors of
    [set_frequency]. *)
Definition is_range_error (e : Py.exn) : Prop :=
  e = Py.Exception Py.FrequencyBelowRange \/ e = Py.Exception Py.FrequencyAboveRange.

Lemma tune_inl (f : option Q) (id : Z) (s : System) (e : Py.exn) :
  tune f id s = inl e -> is_range_error e.
Proof.
  unfold tune, is_range_error. destruct f as [q|]; [|discriminate].
  destruct (Py.truthy q); [|discriminate].
  destruct (Py.dict_get id (antennas s)) as [d|]; [|discriminate].
  unfold set_frequency. destruct (Py.lt q _); [intros [= <-]; auto|].
  destruct (Py.gt q _); [intros [= <-]; auto | discriminate].
Qed.

Lemma tune_some (q : Q) (id : Z) (s : System) (d : TransmitReceiveDevice) :
  Py.truthy q = true -> Py.dict_get id (antennas s) = Some d ->
  tune (Some q) id s =
  match set_frequency q d with
  | inl e => inl e
  | inr d' => inr (set_antennas (Py.dict_set id d' (antennas s)) s)
  end.
Proof. intros Ht Hget. unfold tune. now rewrite Ht, Hget. Qed.

(** ** Failed assignments *)

(** An assignment that raises for an unknown antenna id ([KeyError]), for a
    conflicting mode or for a conflicting frequency leaves the local system
    exactly as it was.  An assignment that raises because the requested
    frequency is outside the range of the device does not: the device keeps
    the mode the assignment had already given it (both devices, for a
    repeater), although nothing is staged and no channel is recorded. *)
Theorem failed_assignment_may_leave_the_mode_set :
  (forall (s s' : System) (mb : MemoryBlock.t) (a rcv : Z) (f : option Q)
          (ar : option Z) (e : Py.exn),
      assign_device_as_transmitter s mb a rcv f ar = (s', inl e) ->
      (~ is_range_error e /\ s' = s)
      \/ (is_range_error e /\ s' = update_antenna a (set_mode TRANSMISSION) s))
  /\ (forall (s s' : System) (a : Z) (f : option Q) (e : Py.exn),
         assign_device_as_receiver s a f = (s', inl e) ->
         (~ is_range_error e /\ s' = s)
         \/ (is_range_error e /\ s' = update_antenna a (set_mode RECEPTION) s))
  /\ (forall (s s' : System) (a_in a_out dest : Z) (dest_antenna : option Z)
             (f_in f_out : option Q) (save : bool) (e : Py.exn),
         assign_device_as_repeater s a_in a_out dest dest_antenna f_in f_out save
         = (s', inl e) ->
         (~ is_range_error e /\ s' = s)
         \/ (is_range_error e
             /\ list_relay_channel s' = list_relay_channel s
             /\ let modes_set := update_antenna a_out (set_mode RELAYING_OUT)
                                   (update_antenna a_in (set_mode RELAYING_IN) s) in
                s' = modes_set \/ tune f_in a_in modes_set = inr s')).
Proof.
  assert (Hno : forall x, ~ is_range_error (Py.KeyError x)
                          /\ ~ is_range_error (Py.Exception (Py.WorksOnAnotherMode x))
                          /\ ~ is_range_error (Py.Exception (Py.WorksOnAnotherFrequency x))).
  { intros x. unfold is_range_error. repeat split; intros [H|H]; discriminate. }
  split; [|split].
  - intros s s' mb a rcv f ar e. unfold assign_device_as_transmitter.
    destruct (Py.dict_get a (antennas s)); [|intros [= <- <-]; left; split; [apply Hno|auto]].
    destruct (_ && _); [intros [= <- <-]; left; split; [apply Hno|auto]|].
    destruct (_ && _); [intros [= <- <-]; left; split; [apply Hno|auto]|].
    destruct (tune f a _) as [e'|s2] eqn:Ht; [|discriminate].
    intros [= <- <-]. right. split; [eapply tune_inl; eauto | reflexivity].
  - intros s s' a f e. unfold assign_device_as_receiver.
    destruct (Py.dict_get a (antennas s)); [|intros [= <- <-]; left; split; [apply Hno|auto]].
    destruct (_ && _); [intros [= <- <-]; left; split; [apply Hno|auto]|].
    destruct (_ && _); [intros [= <- <-]; left; split; [apply Hno|auto]|].
    destruct (tune f a _) as [e'|s2] eqn:Ht; [|discriminate].
    intros [= <- <-]. right. split; [eapply tune_inl; eauto | reflexivity].
  - intros s s' a_in a_out dest dest_antenna f_in f_out save e.
    unfold assign_device_as_repeater.
    destruct (Py.dict_get a_in (antennas s));
      [|intros [= <- <-]; left; split; [apply Hno|auto]].
    destruct (Py.dict_get a_out (antennas s));
      [|intros [= <- <-]; left; split; [apply Hno|auto]].
    destruct (_ && _); [intros [= <- <-]; left; split; [apply Hno|auto]|].
    destruct (_ && _); [intros [= <- <-]; left; split; [apply Hno|auto]|].
    destruct (_ && _); [intros [= <- <-]; left; split; [apply Hno|auto]|].
    destruct (_ && _); [intros [= <- <-]; left; split; [apply Hno|auto]|].
    destruct (tune f_in a_in _) as [e1|s3] eqn:Ht1.
    + intros [= <- <-]. right. split; [eapply tune_inl; eauto|].
      split; [reflexivity | left; reflexivity].
    + destruct (tune f_out a_out s3) as [e2|s4] eqn:Ht2; [|discriminate].
      intros [= <- <-]. right. split; [eapply tune_inl; eauto|].
      split; [|right; reflexivity].
      apply tune_inr in Ht1.
      destruct Ht1 as [->|[d [q [_ [_ [_ [_ [_ ->]]]]]]]]; reflexivity.
Qed.

Lemma failed_assignment_may_leave_the_mode_set_witness :
  assign_device_as_receiver one_device_system 0 (Some 500)
  = (update_antenna 0 (set_mode RECEPTION) one_device_system,
     inl (Py.Exception Py.FrequencyAboveRange))
  /\ (~ is_range_error (Py.KeyError 5)
      /\ fst (assign_device_as_receiver one_device_system 5 (Some 100)) = one_device_system
      \/ is_range_error (Py.KeyError 5)
         /\ fst (assign_device_as_receiver one_device_system 5 (Some 100))
            = update_antenna 5 (set_mode RECEPTION) one_device_system).
Proof.
  destruct failed_assignment_may_leave_the_mode_set as [_ [Hreceiver _]].
  split; [reflexivity|].
  apply (Hreceiver one_device_system _ 5%Z (Some 100) (Py.KeyError 5)).
  reflexivity.
Defined.

(** ** One mode per device and step *)

Lemma tune_keeps_mode (f : option Q) (id k : Z) (s s' : System)
    (d : TransmitReceiveDevice) :
  tune f id s = inr s' -> Py.dict_get k (antennas s) = Some d ->
  exists d', Py.dict_get k (antennas s') = Some d'
             /\ communication_mode d' = communication_mode d.
Proof.
  intros Htune Hk. apply tune_inr in Htune.
  destruct Htune as [->|[d0 [q [_ [_ [Hget [_ [_ ->]]]]]]]]; [eauto|]. simpl.
  destruct (Z.eq_dec id k) as [<-|Hne].
  - rewrite dict_get_set_same. eexists. split; [reflexivity|]. simpl. congruence.
  - rewrite dict_get_set_other by exact Hne. eauto.
Qed.

Lemma get_update_mode (a k : Z) (m : CommunicationModeType) (s : System)
    (d : TransmitReceiveDevice) :
  Py.dict_get k (antennas s) = Some d ->
  Py.dict_get k (antennas (update_antenna a (set_mode m) s))
  = Some (if Z.eqb a k then set_mode m d else d).
Proof.
  intros Hget. simpl. destruct (Z.eqb a k) eqn:E.
  - apply Z.eqb_eq in E. subst k. now rewrite dict_get_update_same, Hget.
  - apply Z.eqb_neq in E. now rewrite dict_get_update_other.
Qed.

Lemma assign_transmitter_inr (s s1 : System) (mb : MemoryBlock.t) (a rcv : Z)
    (f : option Q) (ar : option Z) (b : bool) :
  assign_device_as_transmitter s mb a rcv f ar = (s1, inr b) ->
  exists d, Py.dict_get a (antennas s1) = Some d /\ communication_mode d = TRANSMISSION.
Proof.
  unfold assign_device_as_transmitter.
  destruct (Py.dict_get a (antennas s)) as [antenna|] eqn:Hget; [|discriminate].
  destruct (_ && _); [discriminate|].
  destruct (_ && _); [discriminate|].
  destruct (tune f a _) as [e|s2] eqn:Ht; [discriminate|].
  assert (H1 := get_update_mode a a TRANSMISSION s antenna Hget).
  rewrite Z.eqb_refl in H1.
  destruct (tune_keeps_mode _ _ _ _ _ _ Ht H1) as [d' [Hg Hm]].
  intros [= <- _]. exists d'. split; [|exact Hm].
  destruct (negb _); exact Hg.
Qed.

Lemma assign_receiver_inr (s s1 : System) (a : Z) (f : option Q) (b : bool) :
  assign_device_as_receiver s a f = (s1, inr b) ->
  exists d, Py.dict_get a (antennas s1) = Some d /\ communication_mode d = RECEPTION.
Proof.
  unfold assign_device_as_receiver.
  destruct (Py.dict_get a (antennas s)) as [antenna|] eqn:Hget; [|discriminate].
  destruct (_ && _); [discriminate|].
  destruct (_ && _); [discriminate|].
  destruct (tune f a _) as [e|s2] eqn:Ht; [discriminate|].
  assert (H1 := get_update_mode a a RECEPTION s antenna Hget).
  rewrite Z.eqb_refl in H1.
  destruct (tune_keeps_mode _ _ _ _ _ _ Ht H1) as [d' [Hg Hm]].
  intros [= <- _]. exists d'. split; [|exact Hm].
  destruct (negb _); exact Hg.
Qed.

Lemma assign_repeater_inr (s s1 : System) (a_in a_out dest : Z)
    (dest_antenna : option Z) (f_in f_out : option Q) (save b : bool) :
  assign_device_as_repeater s a_in a_out dest dest_antenna f_in f_out save = (s1, inr b) ->
  (exists d, Py.dict_get a_in (antennas s) = Some d /\ communication_mode d = FREE)
  /\ (exists d, Py.dict_get a_out (antennas s1) = Some d
                /\ communication_mode d = RELAYING_OUT)
  /\ (exists d, Py.dict_get a_in (antennas s1) = Some d
                /\ communication_mode d
                   = if Z.eqb a_in a_out then RELAYING_OUT else RELAYING_IN).
Proof.
  unfold assign_device_as_repeater.
  destruct (Py.dict_get a_in (antennas s)) as [d_in|] eqn:Hin; [|discriminate].
  destruct (Py.dict_get a_out (antennas s)) as [d_out|] eqn:Hout; [|discriminate].
  destruct (communication_mode d_in) eqn:Hmode; simpl; try discriminate.
  destruct (_ && _); [discriminate|].
  destruct (_ && _); [discriminate|].
  set (s_in := update_antenna a_in (set_mode RELAYING_IN) s).
  assert (Hin1 := get_update_mode a_in a_in RELAYING_IN s d_in Hin).
  assert (Hout1 := get_update_mode a_in a_out RELAYING_IN s d_out Hout).
  rewrite Z.eqb_refl in Hin1. fold s_in in Hin1, Hout1.
  assert (Hin2 := get_update_mode a_out a_in RELAYING_OUT s_in _ Hin1).
  assert (Hout2 := get_update_mode a_out a_out RELAYING_OUT s_in _ Hout1).
  rewrite Z.eqb_refl in Hout2.
  destruct (tune f_in a_in _) as [e|s3] eqn:Ht1; [discriminate|].
  destruct (tune_keeps_mode _ _ _ _ _ _ Ht1 Hin2) as [d_in3 [Gin3 Min3]].
  destruct (tune_keeps_mode _ _ _ _ _ _ Ht1 Hout2) as [d_out3 [Gout3 Mout3]].
  destruct (tune f_out a_out s3) as [e|s4] eqn:Ht2; [discriminate|].
  destruct (tune_keeps_mode _ _ _ _ _ _ Ht2 Gin3) as [d_in4 [Gin4 Min4]].
  destruct (tune_keeps_mode _ _ _ _ _ _ Ht2 Gout3) as [d_out4 [Gout4 Mout4]].
  intros [= <- _]. split; [eauto|]. split.
  - exists d_out4. split; [destruct (negb _); exact Gout4|].
    rewrite Mout4, Mout3. reflexivity.
  - exists d_in4. split; [destruct (negb _); exact Gin4|].
    rewrite Min4, Min3, (Z.eqb_sym a_in a_out). now destruct (Z.eqb a_out a_in).
Qed.

(** Within one step a device serves one mode.  Once a device has been
    assigned as transmitter, assigning it as receiver or as the input of a
    relay channel raises; once assigned as receiver, assigning it as
    transmitter raises; the output device of a relay channel can be
    assigned neither as transmitter nor as receiver.  Each of these calls
    leaves the local system as it was. *)
Theorem device_serves_one_mode_per_step :
  (forall (s s1 : System) (mb : MemoryBlock.t) (a rcv : Z) (f : option Q)
          (ar : option Z) (b : bool),
      assign_device_as_transmitter s mb a rcv f ar = (s1, inr b) ->
      (forall f', assign_device_as_receiver s1 a f'
                  = (s1, inl (Py.Exception (Py.WorksOnAnotherMode a))))
      /\ (forall a_out dest dest_antenna f_in f_out save,
             assign_device_as_repeater s1 a a_out dest dest_antenna f_in f_out save
             = (s1, inl (match Py.dict_get a_out (antennas s1) with
                         | None => Py.KeyError a_out
                         | Some _ => Py.Exception (Py.WorksOnAnotherMode a)
                         end))))
  /\ (forall (s s1 : System) (a : Z) (f : option Q) (b : bool),
         assign_device_as_receiver s a f = (s1, inr b) ->
         forall mb rcv f' ar,
           assign_device_as_transmitter s1 mb a rcv f' ar
           = (s1, inl (Py.Exception (Py.WorksOnAnotherMode a))))
  /\ (forall (s s1 : System) (a_in a_out dest : Z) (dest_antenna : option Z)
             (f_in f_out : option Q) (save b : bool),
         assign_device_as_repeater s a_in a_out dest dest_antenna f_in f_out save
         = (s1, inr b) ->
         (forall mb rcv f' ar,
             assign_device_as_transmitter s1 mb a_out rcv f' ar
             = (s1, inl (Py.Exception (Py.WorksOnAnotherMode a_out))))
         /\ (forall f', assign_device_as_receiver s1 a_out f'
                        = (s1, inl (Py.Exception (Py.WorksOnAnotherMode a_out))))).
Proof.
  split; [|split].
  - intros s s1 mb a rcv f ar b H.
    destruct (assign_transmitter_inr _ _ _ _ _ _ _ _ H) as [d [Hg Hm]]. split.
    + intros f'. unfold assign_device_as_receiver. rewrite Hg, Hm. reflexivity.
    + intros a_out dest dest_antenna f_in f_out save.
      unfold assign_device_as_repeater. rewrite Hg.
      destruct (Py.dict_get a_out (antennas s1)); [|reflexivity].
      rewrite Hm. reflexivity.
  - intros s s1 a f b H mb rcv f' ar.
    destruct (assign_receiver_inr _ _ _ _ _ H) as [d [Hg Hm]].
    unfold assign_device_as_transmitter. rewrite Hg, Hm. reflexivity.
  - intros s s1 a_in a_out dest dest_antenna f_in f_out save b H.
    destruct (assign_repeater_inr _ _ _ _ _ _ _ _ _ _ H) as [_ [[d [Hg Hm]] _]]. split.
    + intros mb rcv f' ar.
      unfold assign_device_as_transmitter. rewrite Hg, Hm. reflexivity.
    + intros f'. unfold assign_device_as_receiver. rewrite Hg, Hm. reflexivity.
Qed.

Definition transmitting_system : System :=
  Eval vm_compute in
  fst (assign_device_as_transmitter one_device_system (MemoryBlock.make 121 3 4) 0 2
         (Some 100) None).

Lemma device_serves_one_mode_per_step_witness :
  assign_device_as_transmitter one_device_system (MemoryBlock.make 121 3 4) 0 2
    (Some 100) None = (transmitting_system, inr false)
  /\ assign_device_as_receiver transmitting_system 0 (Some 100)
     = (transmitting_system, inl (Py.Exception (Py.WorksOnAnotherMode 0))).
Proof.
  assert (H : assign_device_as_transmitter one_device_system (MemoryBlock.make 121 3 4)
                0 2 (Some 100) None = (transmitting_system, inr false))
    by (vm_compute; reflexivity).
  split; [exact H|].
  destruct device_serves_one_mode_per_step as [Htransmitter _].
  exact (proj1 (Htransmitter _ _ _ _ _ _ _ _ H) (Some 100)).
Defined.

(** ** Relay channels *)

(** Both mode checks of [assign_device_as_repeater] read the input
    device.  So the call succeeds only when the input device is FREE, and
    after a successful call no further relay channel can be assigned on
    that input device in the same step, whatever the other arguments:
    the call raises and leaves the local system as it was. *)
Theorem repeater_requires_a_free_input_device
    (s s1 : System) (a_in a_out dest : Z) (dest_antenna : option Z)
    (f_in f_out : option Q) (save b : bool) :
  assign_device_as_repeater s a_in a_out dest dest_antenna f_in f_out save = (s1, inr b) ->
  (exists d, Py.dict_get a_in (antennas s) = Some d /\ communication_mode d = FREE)
  /\ forall a_out' dest' dest_antenna' f_in' f_out' save',
       assign_device_as_repeater s1 a_in a_out' dest' dest_antenna' f_in' f_out' save'
       = (s1, inl (match Py.dict_get a_out' (antennas s1) with
                   | None => Py.KeyError a_out'
                   | Some _ =>
                       Py.Exception
                         (Py.WorksOnAnotherMode (if Z.eqb a_in a_out then a_in else a_out'))
                   end)).
Proof.
  intros H. destruct (assign_repeater_inr _ _ _ _ _ _ _ _ _ _ H) as [Hfree [_ [d [Hg Hm]]]].
  split; [exact Hfree|].
  intros a_out' dest' dest_antenna' f_in' f_out' save'.
  unfold assign_device_as_repeater. rewrite Hg.
  destruct (Py.dict_get a_out' (antennas s1)); [|reflexivity].
  rewrite Hm. destruct (Z.eqb a_in a_out); reflexivity.
Qed.

Definition three_device_system : System :=
  Eval vm_compute in
  add_device antenna_properties
    (add_device antenna_properties (add_device antenna_properties (new_system 2))).

Definition relaying_system : System :=
  Eval vm_compute in
  fst (assign_device_as_repeater three_device_system 1 2 3 (Some 1%Z)
         (Some 100) (Some 150) true).

Lemma repeater_requires_a_free_input_device_witness :
  assign_device_as_repeater relaying_system 1 0 3 None None None false
  = (relaying_system, inl (Py.Exception (Py.WorksOnAnotherMode 0))).
Proof.
  assert (H : assign_device_as_repeater three_device_system 1 2 3 (Some 1%Z)
                (Some 100) (Some 150) true = (relaying_system, inr true))
    by (vm_compute; reflexivity).
  exact (proj2 (repeater_requires_a_free_input_device _ _ _ _ _ _ _ _ _ _ H)
           0%Z 3%Z None None None false).
Defined.

(** The mode of the output device is not checked at all.  Whatever the
    output device is doing in this step, a relay channel from a FREE input
    device is accepted (no frequencies requested, neither device listed in a
    relay channel yet): the output device is switched to RELAYING_OUT, while
    the signals staged on it and the transmission and reception channels
    recorded for it stay. *)
Theorem repeater_output_mode_is_not_checked
    (s : System) (a_in a_out dest : Z) (dest_antenna : option Z) (save : bool)
    (d_in d_out : TransmitReceiveDevice) :
  Py.dict_get a_in (antennas s) = Some d_in ->
  Py.dict_get a_out (antennas s) = Some d_out ->
  communication_mode d_in = FREE ->
  existsb (Z.eqb a_in) (map antenna_in (list_relay_channel s)) = false ->
  existsb (Z.eqb a_out) (map antenna_out (list_relay_channel s)) = false ->
  exists s1,
    assign_device_as_repeater s a_in a_out dest dest_antenna None None save
    = (s1, inr true)
    /\ Py.dict_get a_out (antennas s1) = Some (set_mode RELAYING_OUT d_out)
    /\ dict_signals_to_send s1 = dict_signals_to_send s
    /\ list_transmission_channel s1 = list_transmission_channel s
    /\ dict_reception_channel s1 = dict_reception_channel s.
Proof.
  intros Hin Hout Hfree Hnin Hnout.
  unfold assign_device_as_repeater. rewrite Hin, Hout, Hfree, Hnin, Hnout.
  cbn [mode_eqb negb andb tune].
  assert (Hg : Py.dict_get a_out
                 (antennas (update_antenna a_out (set_mode RELAYING_OUT)
                              (update_antenna a_in (set_mode RELAYING_IN) s)))
               = Some (set_mode RELAYING_OUT d_out)).
  { assert (H1 := get_update_mode a_in a_out RELAYING_IN s d_out Hout).
    assert (H2 := get_update_mode a_out a_out RELAYING_OUT _ _ H1).
    rewrite Z.eqb_refl in H2. rewrite H2. now destruct (Z.eqb a_in a_out). }
  eexists. split; [reflexivity|].
  destruct (negb _); auto.
Qed.

Definition two_device_system : System :=
  Eval vm_compute in
  add_device antenna_properties (add_device antenna_properties (new_system 1)).

Definition sender_and_spare : System :=
  Eval vm_compute in
  fst (assign_device_as_transmitter two_device_system (MemoryBlock.make 121 3 4) 0 2
         (Some 100) None).

Lemma repeater_output_mode_is_not_checked_witness :
  (exists d, Py.dict_get 0 (antennas sender_and_spare) = Some d
             /\ communication_mode d = TRANSMISSION)
  /\ exists s1,
       assign_device_as_repeater sender_and_spare 1 0 3 None None None false
       = (s1, inr true)
       /\ (exists d, Py.dict_get 0 (antennas s1) = Some d
                     /\ communication_mode d = RELAYING_OUT)
       /\ Py.dict_list 0 (dict_signals_to_send s1)
          = [Radiosignal.make (-1) 2 (MemoryBlock.make 121 3 4) 100 None].
Proof.
  split; [eexists; split; vm_compute; reflexivity|].
  destruct (repeater_output_mode_is_not_checked sender_and_spare 1 0 3 None false
              (new_device 1 antenna_properties)
              (set_mode TRANSMISSION
                 {| id_antenna := 0; properties := antenna_properties;
                    frequency := 100; communication_mode := FREE |}))
    as [s1 [Hrun [Hg [Hstaged _]]]]; try (vm_compute; reflexivity).
  exists s1. split; [exact Hrun|]. split.
  - eexists. split; [exact Hg | reflexivity].
  - rewrite Hstaged. vm_compute. reflexivity.
Defined.

(** ** Repeating the assignment of a receiver *)

Lemma tune_spec (f : option Q) (id : Z) (s s' : System) (d : TransmitReceiveDevice) :
  tune f id s = inr s' -> Py.dict_get id (antennas s) = Some d ->
  exists d',
    Py.dict_get id (antennas s') = Some d'
    /\ communication_mode d' = communication_mode d
    /\ (forall q, f = Some q -> Py.truthy q = true ->
          frequency d' = q
          /\ frequency_range_min (properties d') <= q
          /\ q <= frequency_range_max (properties d'))
    /\ s' = set_antennas (antennas s') s.
Proof.
  intros Ht Hget. destruct f as [q|]; [destruct (Py.truthy q) eqn:Etr|].
  - rewrite (tune_some q id s d Etr Hget) in Ht.
    destruct (set_frequency q d) as [e|d'] eqn:Hs; [discriminate|].
    apply set_frequency_inr in Hs. destruct Hs as [-> [H1 H2]].
    inversion Ht; subst s'. simpl. rewrite dict_get_set_same.
    eexists. split; [reflexivity|]. simpl. split; [reflexivity|].
    split; [|reflexivity]. intros q0 [= <-] _. auto.
  - unfold tune in Ht. rewrite Etr in Ht. inversion Ht; subst s'.
    exists d. split; [exact Hget|]. split; [reflexivity|].
    split; [|now destruct s]. intros q0 [= <-] Habs. congruence.
  - inversion Ht; subst s'.
    exists d. split; [exact Hget|]. split; [reflexivity|].
    split; [|now destruct s]. intros q0 Habs. discriminate.
Qed.

Lemma tune_fixed (q : Q) (id : Z) (s : System) (d : TransmitReceiveDevice) :
  Py.dict_get id (antennas s) = Some d -> frequency d = q ->
  frequency_range_min (properties d) <= q -> q <= frequency_range_max (properties d) ->
  tune (Some q) id s = inr s.
Proof.
  intros Hget Hf Hmin Hmax. unfold tune.
  destruct (Py.truthy q); [|reflexivity]. rewrite Hget. unfold set_frequency.
  apply lt_false_spec in Hmin. rewrite Hmin.
  unfold Py.gt. apply lt_false_spec in Hmax. rewrite Hmax.
  assert (E : {| id_antenna := id_antenna d; properties := properties d;
                 frequency := q; communication_mode := communication_mode d |} = d)
    by (subst q; now destruct d).
  rewrite E, (dict_set_fixed id d _ Hget), system_eta. reflexivity.
Qed.

Lemma existsb_values_set_self (a : Z) (d : Py.dict Z) :
  existsb (Z.eqb a) (Py.values (Py.dict_set a a d)) = true.
Proof.
  induction d as [|[k v] d IH]; simpl.
  - now rewrite Z.eqb_refl.
  - destruct (Z.eqb k a); simpl.
    + now rewrite Z.eqb_refl.
    + apply orb_true_iff. right. exact IH.
Qed.

(** What a successful [assign_device_as_receiver] leaves behind. *)
Lemma assign_receiver_success (s s1 : System) (a : Z) (f : option Q) (b : bool) :
  assign_device_as_receiver s a f = (s1, inr b) ->
  exists d1,
    Py.dict_get a (antennas s1) = Some d1
    /\ communication_mode d1 = RECEPTION
    /\ (forall q, f = Some q -> Py.truthy q = true ->
          frequency d1 = q
          /\ frequency_range_min (properties d1) <= q
          /\ q <= frequency_range_max (properties d1))
    /\ Py.dict_mem a (dict_reception_channel s1) = true
    /\ (Py.dict_mem a (dict_reception_channel s) = false ->
        existsb (Z.eqb a) (Py.values (dict_reception_channel s1)) = true).
Proof.
  unfold assign_device_as_receiver.
  destruct (Py.dict_get a (antennas s)) as [antenna|] eqn:Hget; [|discriminate].
  destruct (_ && _); [discriminate|].
  destruct (_ && _); [discriminate|].
  destruct (tune f a _) as [e|s2] eqn:Ht; [discriminate|].
  assert (H1 := get_update_mode a a RECEPTION s antenna Hget).
  rewrite Z.eqb_refl in H1.
  destruct (tune_spec _ _ _ _ _ Ht H1) as [d1 [Hg [Hm [Hf E2]]]].
  assert (Hchannels : dict_reception_channel s2 = dict_reception_channel s)
    by (rewrite E2; reflexivity).
  intros [= <- _]. exists d1. rewrite Hchannels.
  destruct (Py.dict_mem a (dict_reception_channel s)) eqn:Hmem; simpl.
  - rewrite Hchannels.
    split; [exact Hg|]. split; [exact Hm|]. split; [exact Hf|].
    split; [exact Hmem | discriminate].
  - split; [exact Hg|]. split; [exact Hm|]. split; [exact Hf|].
    split; [apply dict_mem_set_same | intros _; apply existsb_values_set_self].
Qed.

(** Assigning a receiver again in the same step is accepted only with the
    frequency it was given, and only if that frequency compares equal to
    itself (as every number but NaN does): the repeated call returns [True]
    and changes nothing.  With a frequency that compares different, and
    also with the frequency left out (whatever the first call was given),
    the repeated call raises and changes nothing, because the frequency of
    the device is compared with the argument itself. *)
Theorem receiver_assignment_repeats_only_on_its_frequency :
  (forall (s s1 : System) (a : Z) (q : Q) (b : bool),
      Py.truthy q = true ->
      assign_device_as_receiver s a (Some q) = (s1, inr b) ->
      (Qeq_bool q q = true ->
       assign_device_as_receiver s1 a (Some q) = (s1, inr true))
      /\ (Py.dict_mem a (dict_reception_channel s) = false ->
          forall q', Qeq_bool q q' = false ->
            assign_device_as_receiver s1 a (Some q')
            = (s1, inl (Py.Exception (Py.WorksOnAnotherFrequency a)))))
  /\ (forall (s s1 : System) (a : Z) (f : option Q) (b : bool),
         Py.dict_mem a (dict_reception_channel s) = false ->
         assign_device_as_receiver s a f = (s1, inr b) ->
         assign_device_as_receiver s1 a None
         = (s1, inl (Py.Exception (Py.WorksOnAnotherFrequency a)))).
Proof.
  split.
  - intros s s1 a q b Hq H.
    destruct (assign_receiver_success _ _ _ _ _ H) as [d1 [Hg [Hm [Hf [Hmem Hval]]]]].
    destruct (Hf q eq_refl Hq) as [Hfreq [Hmin Hmax]]. split.
    + intros Hself. unfold assign_device_as_receiver. rewrite Hg, Hm.
      cbn [mode_eqb negb andb frequency_differs].
      rewrite Hfreq, Hself. cbn [negb]. rewrite andb_false_r.
      rewrite (update_mode_fixed a RECEPTION s1 d1 Hg Hm).
      rewrite (tune_fixed q a s1 d1 Hg Hfreq Hmin Hmax).
      now rewrite Hmem.
    + intros Hnew q' E. unfold assign_device_as_receiver. rewrite Hg, Hm.
      cbn [mode_eqb negb andb frequency_differs].
      rewrite (Hval Hnew), Hfreq. now rewrite E.
  - intros s s1 a f b Hnew H.
    destruct (assign_receiver_success _ _ _ _ _ H) as [d1 [Hg [Hm [_ [_ Hval]]]]].
    unfold assign_device_as_receiver. rewrite Hg, Hm.
    cbn [mode_eqb negb andb frequency_differs].
    now rewrite (Hval Hnew).
Qed.

Definition receiving_system : System :=
  Eval vm_compute in fst (assign_device_as_receiver one_device_system 0 (Some 100)).

Lemma receiver_assignment_repeats_only_on_its_frequency_witness :
  assign_device_as_receiver receiving_system 0 (Some 100) = (receiving_system, inr true)
  /\ assign_device_as_receiver receiving_system 0 (Some 150)
     = (receiving_system, inl (Py.Exception (Py.WorksOnAnotherFrequency 0)))
  /\ assign_device_as_receiver receiving_system 0 None
     = (receiving_system, inl (Py.Exception (Py.WorksOnAnotherFrequency 0))).
Proof.
  assert (H : assign_device_as_receiver one_device_system 0 (Some 100)
              = (receiving_system, inr true)) by (vm_compute; reflexivity).
  assert (Hq : Py.truthy 100 = true) by reflexivity.
  assert (Hnew : Py.dict_mem 0 (dict_reception_channel one_device_system) = false)
    by reflexivity.
  destruct receiver_assignment_repeats_only_on_its_frequency as [Hsome Hnone].
  destruct (Hsome _ _ _ _ _ Hq H) as [Hsame Hother].
  split; [exact (Hsame eq_refl)|]. split.
  - apply (Hother Hnew 150). reflexivity.
  - exact (Hnone _ _ _ _ _ Hnew H).
Defined.

(** ** The step of the local system *)

Lemma Forall_values_free (l : Py.dict TransmitReceiveDevice) :
  Forall (fun dev => communication_mode dev = FREE)
    (Py.values (map (fun kd => (fst kd, set_mode FREE (snd kd))) l)).
Proof. induction l as [|[k v] l IH]; simpl; constructor; auto. Qed.

Lemma end_of_step_fields (s : System) :
  duration (end_of_step s) = duration s
  /\ dict_signals_to_send (end_of_step s) = []
  /\ list_transmission_channel (end_of_step s) = []
  /\ dict_reception_channel (end_of_step s) = []
  /\ list_relay_channel (end_of_step s) = []
  /\ dict_id_device_memory_blocks_to_receive (end_of_step s) = []
  /\ antennas (end_of_step s)
     = map (fun kd => (fst kd, set_mode FREE (snd kd))) (antennas s)
  /\ dict_reception_channel_from_prev_step (end_of_step s)
     = deepcopy (antennas s) (dict_reception_channel s).
Proof. do 7 (split; [reflexivity|]). reflexivity. Qed.

(** A step with nothing staged and no channel recorded. *)
Lemma idle_step (d : Q) (m : GlobalSystem.RadioTransmissionMediumSystem) (s : System) :
  dict_signals_to_send s = [] -> dict_reception_channel s = [] ->
  list_relay_channel s = [] ->
  imitation_step d (m, s) = ((m, end_of_step (set_duration (Some d) s)), inr tt).
Proof.
  intros Hstaged Hreception Hrelay. unfold imitation_step. cbn [fst snd].
  change (dict_signals_to_send (set_duration (Some d) s)) with (dict_signals_to_send s).
  rewrite Hstaged. cbn [send_loop fst snd].
  change (dict_reception_channel (set_duration (Some d) s))
    with (dict_reception_channel s).
  rewrite Hreception. cbn [Py.values map fold_left fst snd].
  change (list_relay_channel (set_duration (Some d) s)) with (list_relay_channel s).
  rewrite Hrelay. reflexivity.
Qed.

Lemma finalize_step_without_snapshot
    (m : GlobalSystem.RadioTransmissionMediumSystem) (s : System) :
  dict_reception_channel_from_prev_step s = [] -> finalize_step m s = (s, inr tt).
Proof. intros H. unfold finalize_step. now rewrite H. Qed.

(** A step of the local system that returns ends every assignment: all
    devices are FREE again with their tuning kept, nothing is staged, no
    channel is recorded, and the memory blocks collected by [finalize_step]
    are dropped.  So a second step without new assignments hands nothing to
    the medium, never raises (whatever its duration, zero included), and
    leaves an empty snapshot, after which [finalize_step] collects
    nothing. *)
Theorem local_step_ends_every_assignment (d : Q) (w w1 : world) :
  imitation_step d w = (w1, inr tt) ->
  (duration (snd w1) = Some d
   /\ dict_signals_to_send (snd w1) = []
   /\ list_transmission_channel (snd w1) = []
   /\ dict_reception_channel (snd w1) = []
   /\ list_relay_channel (snd w1) = []
   /\ dict_id_device_memory_blocks_to_receive (snd w1) = []
   /\ Forall (fun dev => communication_mode dev = FREE) (Py.values (antennas (snd w1)))
   /\ modes_only (antennas (snd w)) (antennas (snd w1)))
  /\ forall d', exists s2,
       imitation_step d' w1 = ((fst w1, s2), inr tt)
       /\ dict_reception_channel_from_prev_step s2 = []
       /\ forall m, finalize_step m s2 = (s2, inr tt).
Proof.
  intros H. destruct (imitation_step_inr d w w1 H) as [s3 [[E M] Hs]].
  destruct (end_of_step_fields s3) as [Hd [Hstaged [Ht [Hr [Hrelay [Hb [Ha _]]]]]]].
  rewrite <- Hs in Hd, Hstaged, Ht, Hr, Hrelay, Hb, Ha.
  split.
  - split; [rewrite Hd, E; reflexivity|].
    do 5 (split; [assumption|]). split.
    + rewrite Ha. apply Forall_values_free.
    + rewrite Ha.
      change (antennas (set_duration (Some d) (snd w))) with (antennas (snd w)) in M.
      apply (modes_only_trans _ (antennas s3) _ M).
      exact (modes_only_map (set_mode FREE) (antennas s3) (tuning_set_mode FREE)).
  - clear H Hs. destruct w1 as [m1 s1]. cbn [fst snd] in *.
    intros d'. exists (end_of_step (set_duration (Some d') s1)).
    assert (Hsnapshot : dict_reception_channel_from_prev_step
                          (end_of_step (set_duration (Some d') s1)) = []).
    { rewrite (proj2 (proj2 (proj2 (proj2 (proj2 (proj2 (proj2
                 (end_of_step_fields (set_duration (Some d') s1))))))))).
      change (dict_reception_channel (set_duration (Some d') s1))
        with (dict_reception_channel s1).
      rewrite Hr. reflexivity. }
    split; [apply idle_step; assumption|].
    split; [exact Hsnapshot|].
    intros m. apply finalize_step_without_snapshot. exact Hsnapshot.
Qed.

Lemma local_step_ends_every_assignment_witness :
  dict_id_device_memory_blocks_to_receive (snd after_step_3) = []
  /\ exists s2,
       imitation_step 0 after_step_3 = ((fst after_step_3, s2), inr tt)
       /\ dict_reception_channel_from_prev_step s2 = [].
Proof.
  assert (H : imitation_step 1 before_step_3 = (after_step_3, inr tt))
    by (vm_compute; reflexivity).
  destruct (local_step_ends_every_assignment 1 before_step_3 after_step_3 H)
    as [[_ [_ [_ [_ [_ [Hblocks _]]]]]] Hnext].
  split; [exact Hblocks|].
  destruct (Hnext 0) as [s2 [Hrun [Hsnapshot _]]].
  exists s2. split; [exact Hrun | exact Hsnapshot].
Defined.

Lemma send_staged_exn (d : Q) (id : Z) (antenna : TransmitReceiveDevice)
    (staged : list Radiosignal.t) (e : Py.exn) :
  forall w,
    snd (send_staged d id antenna staged w) = inl e ->
    (e = Py.ZeroDivisionError /\ d == 0)
    \/ (e = Py.Exception (Py.NotEnoughChannelCapacity id) /\ ~ d == 0).
Proof.
  induction staged as [|signal staged IH]; intros w; simpl; [discriminate|].
  destruct (Qeq_bool d 0) eqn:E0.
  - intros [= <-]. left. split; [reflexivity | now apply Qeq_bool_iff].
  - destruct (Py.ge _ _); [apply IH|].
    intros [= <-]. right. split; [reflexivity|].
    intros Habs. apply Qeq_bool_iff in Habs. congruence.
Qed.

Lemma send_loop_exn (d : Q) (staged : Py.dict (list Radiosignal.t)) (e : Py.exn) :
  forall w,
    snd (send_loop d staged w) = inl e ->
    (e = Py.ZeroDivisionError /\ d == 0)
    \/ (exists id, e = Py.KeyError id)
    \/ (exists id, e = Py.Exception (Py.NotEnoughChannelCapacity id) /\ ~ d == 0).
Proof.
  induction staged as [|[id signals] staged IH]; intros w; simpl; [discriminate|].
  destruct (Py.dict_get id (antennas (snd w))) as [antenna|].
  - assert (Hs := send_staged_exn d id antenna signals e w).
    destruct (send_staged d id antenna signals w) as [w' [e0|u]]; simpl in *.
    + intros He. destruct (Hs He) as [H0|Hcap]; eauto.
    + apply IH.
  - intros [= <-]. eauto.
Qed.

(** A step of the local system that raises has cleared nothing: the staged
    signals, the three kinds of channels, the snapshot and the collected
    memory blocks are as before the call, only the duration is recorded and
    modes of devices may have changed.  The exception is the division by a
    zero duration, a missing device, or the lack of transmit capacity (the
    latter only with a non-zero duration). *)
Theorem failed_local_step_keeps_the_assignments (d : Q) (w w1 : world) (e : Py.exn) :
  imitation_step d w = (w1, inl e) ->
  ((e = Py.ZeroDivisionError /\ d == 0)
   \/ (exists id, e = Py.KeyError id)
   \/ (exists id, e = Py.Exception (Py.NotEnoughChannelCapacity id) /\ ~ d == 0))
  /\ duration (snd w1) = Some d
  /\ dict_signals_to_send (snd w1) = dict_signals_to_send (snd w)
  /\ list_transmission_channel (snd w1) = list_transmission_channel (snd w)
  /\ dict_reception_channel (snd w1) = dict_reception_channel (snd w)
  /\ list_relay_channel (snd w1) = list_relay_channel (snd w)
  /\ dict_reception_channel_from_prev_step (snd w1)
     = dict_reception_channel_from_prev_step (snd w)
  /\ dict_id_device_memory_blocks_to_receive (snd w1)
     = dict_id_device_memory_blocks_to_receive (snd w)
  /\ modes_only (antennas (snd w)) (antennas (snd w1)).
Proof.
  unfold imitation_step.
  assert (H1 := send_loop_only_modes d
                  (dict_signals_to_send (snd (fst w, set_duration (Some d) (snd w))))
                  (fst w, set_duration (Some d) (snd w))).
  assert (H2 := send_loop_exn d
                  (dict_signals_to_send (snd (fst w, set_duration (Some d) (snd w)))) e
                  (fst w, set_duration (Some d) (snd w))).
  destruct (send_loop d _ _) as [w' [e0|u]]; [|discriminate].
  intros [= <- <-]. simpl in H1, H2. destruct H1 as [E M].
  split; [apply H2; reflexivity|].
  do 7 (split; [rewrite E; reflexivity|]). exact M.
Qed.

Definition stalled_step : world :=
  Eval vm_compute in fst (imitation_step 0 (registered_medium, sender_and_spare)).

Lemma failed_local_step_keeps_the_assignments_witness :
  imitation_step 0 (registered_medium, sender_and_spare)
  = (stalled_step, inl Py.ZeroDivisionError)
  /\ dict_signals_to_send (snd stalled_step) = dict_signals_to_send sender_and_spare.
Proof.
  assert (H : imitation_step 0 (registered_medium, sender_and_spare)
              = (stalled_step, inl Py.ZeroDivisionError)) by (vm_compute; reflexivity).
  split; [exact H|].
  destruct (failed_local_step_keeps_the_assignments _ _ _ _ H) as [_ [_ [Hstaged _]]].
  exact Hstaged.
Defined.

(** ** What finalize_step collects *)

(** With a non-zero duration, [finalize_step] appends to the blocks kept
    for each antenna exactly the blocks its snapshot collects, in the order
    of the snapshot and of arrival, and removes nothing.  It does not mark
    anything as collected: a second call in the same step appends the same
    blocks once more. *)
Theorem finalize_step_appends_and_repeats
    (m : GlobalSystem.RadioTransmissionMediumSystem) (s : System) (d : Q) (id : Z) :
  ~ d == 0 ->
  duration s = Some d ->
  let blocks :=
    collected m (global_consumer s) d (dict_reception_channel_from_prev_step s) id in
  get_antennas_signals (fst (finalize_step m s)) id
  = get_antennas_signals s id ++ blocks
  /\ get_antennas_signals (fst (finalize_step m (fst (finalize_step m s)))) id
     = get_antennas_signals s id ++ blocks ++ blocks.
Proof.
  intros Hd Hdur blocks. unfold finalize_step.
  assert (H1 := finalize_loop_exact m d (dict_reception_channel_from_prev_step s) Hd s
                  Hdur id).
  split; [exact H1|].
  destruct (finalize_loop_frame m (dict_reception_channel_from_prev_step s) s)
    as [kept Hframe].
  set (s1 := fst (finalize_loop m (dict_reception_channel_from_prev_step s) s)) in *.
  assert (Hdur1 : duration s1 = Some d) by (rewrite Hframe; exact Hdur).
  assert (Hgc : global_consumer s1 = global_consumer s) by (now rewrite Hframe).
  assert (Hsnapshot : dict_reception_channel_from_prev_step s1
                      = dict_reception_channel_from_prev_step s) by (now rewrite Hframe).
  rewrite (finalize_loop_exact m d (dict_reception_channel_from_prev_step s1) Hd s1
             Hdur1 id).
  rewrite Hsnapshot, Hgc, H1, <- app_assoc. reflexivity.
Qed.

Lemma finalize_step_appends_and_repeats_witness :
  get_antennas_signals
    (fst (finalize_step after_global_step
            (fst (finalize_step after_global_step (snd after_step_3))))) 1
  = [MemoryBlock.make 121 3 4; MemoryBlock.make 131 7 8;
     MemoryBlock.make 121 3 4; MemoryBlock.make 131 7 8].
Proof.
  assert (Hd : ~ 1 == 0) by (intros E; discriminate E).
  assert (Hdur : duration (snd after_step_3) = Some 1) by (vm_compute; reflexivity).
  rewrite (proj2 (finalize_step_appends_and_repeats after_global_step (snd after_step_3)
                    1 1 Hd Hdur)).
  vm_compute. reflexivity.
Defined.

(** ** Device ids *)

Definition same_ids (s s' : System) : Prop :=
  map fst (antennas s') = map fst (antennas s).

Lemma modes_only_ids (d d' : Py.dict TransmitReceiveDevice) :
  modes_only d d' -> map fst d' = map fst d.
Proof.
  induction 1 as [|x y l l' [Hk _] _ IH]; simpl; [reflexivity|].
  now rewrite IH, Hk.
Qed.

Lemma only_modes_ids (s s' : System) : only_modes s s' -> same_ids s s'.
Proof. intros [_ M]. now apply modes_only_ids. Qed.

Lemma dict_set_ids {V : Type} (k : Z) (v v0 : V) (d : Py.dict V) :
  Py.dict_get k d = Some v0 -> map fst (Py.dict_set k v d) = map fst d.
Proof.
  induction d as [|[k' v'] d IH]; simpl; [discriminate|].
  destruct (Z.eqb k' k); simpl; [reflexivity|].
  intros H. now rewrite IH.
Qed.

Lemma dict_set_new {V : Type} (k : Z) (v : V) (d : Py.dict V) :
  ~ In k (map fst d) -> Py.dict_set k v d = d ++ [(k, v)].
Proof.
  induction d as [|[k' v'] d IH]; simpl; [reflexivity|].
  intros Hnew. destruct (Z.eqb k' k) eqn:E.
  - apply Z.eqb_eq in E. exfalso. auto.
  - rewrite IH; auto.
Qed.

Lemma tune_ids (f : option Q) (id : Z) (s s' : System) :
  tune f id s = inr s' -> same_ids s s'.
Proof.
  intros Ht. apply tune_inr in Ht.
  destruct Ht as [->|[d [q [_ [_ [Hget [_ [_ ->]]]]]]]]; [reflexivity|].
  unfold same_ids. simpl. eapply dict_set_ids. exact Hget.
Qed.

Lemma update_ids (id : Z) (f : TransmitReceiveDevice -> TransmitReceiveDevice)
    (s : System) :
  same_ids s (update_antenna id f s).
Proof.
  unfold same_ids. simpl. induction (antennas s) as [|[k v] d IH]; simpl; auto.
  destruct (Z.eqb k id); simpl; [reflexivity | now rewrite IH].
Qed.

Lemma same_ids_trans (s1 s2 s3 : System) :
  same_ids s1 s2 -> same_ids s2 s3 -> same_ids s1 s3.
Proof. unfold same_ids. congruence. Qed.

Lemma imitation_step_inl (d : Q) (w w1 : world) (e : Py.exn) :
  imitation_step d w = (w1, inl e) ->
  only_modes (set_duration (Some d) (snd w)) (snd w1).
Proof.
  unfold imitation_step.
  assert (H1 := send_loop_only_modes d
                  (dict_signals_to_send (snd (fst w, set_duration (Some d) (snd w))))
                  (fst w, set_duration (Some d) (snd w))).
  destruct (send_loop d _ _) as [w' [e0|u]]; [|discriminate].
  intros [= <- _]. exact H1.
Qed.

(** Every call but [add_device] keeps the registry keys. *)
Lemma run_ids (c : call) (w : world) :
  match c with AddDevice _ => True | _ => same_ids (snd w) (snd (run c w)) end.
Proof.
  destruct c; simpl; auto.
  - unfold assign_device_as_transmitter.
    destruct (Py.dict_get _ _); [|reflexivity].
    destruct (_ && _); [reflexivity|].
    destruct (_ && _); [reflexivity|].
    assert (H1 := update_ids id_antenna_arg (set_mode TRANSMISSION) (snd w)).
    destruct (tune _ _ _) as [e|s2] eqn:Ht; [exact H1|].
    apply tune_ids in Ht. simpl.
    destruct (negb _); exact (same_ids_trans _ _ _ H1 Ht).
  - unfold assign_device_as_receiver.
    destruct (Py.dict_get _ _); [|reflexivity].
    destruct (_ && _); [reflexivity|].
    destruct (_ && _); [reflexivity|].
    assert (H1 := update_ids id_antenna_arg (set_mode RECEPTION) (snd w)).
    destruct (tune _ _ _) as [e|s2] eqn:Ht; [exact H1|].
    apply tune_ids in Ht. simpl.
    destruct (negb _); exact (same_ids_trans _ _ _ H1 Ht).
  - unfold assign_device_as_repeater.
    destruct (Py.dict_get id_antenna_in _); [|reflexivity].
    destruct (Py.dict_get id_antenna_out _); [|reflexivity].
    destruct (_ && _); [reflexivity|].
    destruct (_ && _); [reflexivity|].
    destruct (_ && _); [reflexivity|].
    destruct (_ && _); [reflexivity|].
    assert (H2 : same_ids (snd w)
                   (update_antenna id_antenna_out (set_mode RELAYING_OUT)
                      (update_antenna id_antenna_in (set_mode RELAYING_IN) (snd w)))).
    { eapply same_ids_trans; apply update_ids. }
    destruct (tune frequency_in _ _) as [e|s3] eqn:Ht1; [exact H2|].
    apply tune_ids in Ht1. assert (H3 := same_ids_trans _ _ _ H2 Ht1).
    destruct (tune frequency_out _ _) as [e|s4] eqn:Ht2; [exact H3|].
    apply tune_ids in Ht2. simpl.
    destruct (negb _); exact (same_ids_trans _ _ _ H3 Ht2).
  - destruct (imitation_step duration_arg w) as [w1 [e|[]]] eqn:Hstep.
    + apply imitation_step_inl in Hstep. apply only_modes_ids in Hstep. exact Hstep.
    + destruct (imitation_step_inr _ _ _ Hstep) as [s3 [Hm Hs]].
      apply only_modes_ids in Hm. unfold same_ids in *. simpl. rewrite Hs.
      rewrite (proj1 (proj2 (proj2 (proj2 (proj2 (proj2 (proj2
                 (end_of_step_fields s3)))))))).
      rewrite map_map. simpl. exact Hm.
  - unfold finalize_step.
    destruct (finalize_loop_frame (fst w)
                (dict_reception_channel_from_prev_step (snd w)) (snd w)) as [blocks ->].
    reflexivity.
Qed.

(** The ids [0, 1, ..., n-1], in this order. *)
Definition first_ids (n : nat) : list Z := map Z.of_nat (seq 0 n).

Lemma first_ids_fresh (n : nat) : ~ In (Z.of_nat n) (first_ids n).
Proof.
  unfold first_ids. rewrite in_map_iff. intros [i [Hi Hin]].
  apply in_seq in Hin. lia.
Qed.

Lemma first_ids_succ (n : nat) : first_ids (S n) = first_ids n ++ [Z.of_nat n].
Proof. unfold first_ids. now rewrite seq_S, map_app. Qed.

(** In every state the local system reaches from its constructor, the
    devices are registered under the ids 0, 1, 2, ... in the order of their
    addition and each device carries the id it is registered under; so
    [add_device] never replaces a device: it appends the new device under
    the next id and leaves every other entry alone. *)
Theorem devices_are_numbered_in_order_of_addition
    (calls : list call) (m : GlobalSystem.RadioTransmissionMediumSystem) (gc : Z) :
  let s := snd (run_all calls (m, new_system gc)) in
  map fst (antennas s) = first_ids (length (antennas s))
  /\ (forall k d, Py.dict_get k (antennas s) = Some d -> id_antenna d = k)
  /\ forall p,
       antennas (add_device p s)
       = antennas s ++ [(Z.of_nat (length (antennas s)),
                         new_device (Z.of_nat (length (antennas s))) p)].
Proof.
  assert (Hids : forall cs w,
             map fst (antennas (snd w)) = first_ids (length (antennas (snd w))) ->
             map fst (antennas (snd (run_all cs w)))
             = first_ids (length (antennas (snd (run_all cs w))))).
  { unfold run_all. induction cs as [|c cs IH]; intros w Hw; simpl; auto.
    apply IH. assert (Hrun := run_ids c w).
    destruct c;
      try (unfold same_ids in Hrun; rewrite Hrun;
           rewrite <- (length_map fst (antennas (snd (run _ w)))), Hrun, length_map;
           exact Hw).
    simpl. destruct (post_init constructor_arguments) as [e|p]; [exact Hw|].
    unfold add_device. simpl.
    rewrite dict_set_new by (rewrite Hw; apply first_ids_fresh).
    rewrite map_app, length_app, Nat.add_1_r, first_ids_succ, Hw. reflexivity. }
  intros s.
  assert (H1 : map fst (antennas s) = first_ids (length (antennas s)))
    by (apply Hids; reflexivity).
  split; [exact H1|]. split.
  - apply (run_all_resolves calls (m, new_system gc)).
    split; simpl; [discriminate | contradiction].
  - intros p. unfold add_device. simpl.
    apply dict_set_new. rewrite H1. apply first_ids_fresh.
Qed.

Lemma devices_are_numbered_in_order_of_addition_witness :
  map fst (antennas (with_devices 3 2)) = [0%Z; 1%Z; 2%Z]
  /\ id_antenna (new_device 1 antenna_properties) = 1%Z.
Proof.
  destruct (devices_are_numbered_in_order_of_addition
              (repeat (AddDevice constructor_arguments_of_test) 3) registered_medium 2)
    as [Hids [Hown _]].
  split.
  - unfold with_devices. rewrite Hids. vm_compute. reflexivity.
  - apply (Hown 1%Z (new_device 1 antenna_properties)). vm_compute. reflexivity.
Defined.

(** ** The queues of the local consumers *)

Lemma send_staged_consumers (cs : Py.dict RadiotransmissionConsumer) (d : Q) (id : Z)
    (antenna : TransmitReceiveDevice) (staged : list Radiosignal.t) :
  forall m s,
    send_staged d id antenna staged (m, set_consumers cs s)
    = let r := send_staged d id antenna staged (m, s) in
      ((fst (fst r), set_consumers cs (snd (fst r))), snd r).
Proof.
  induction staged as [|signal staged IH]; intros m s; simpl; [reflexivity|].
  destruct (Qeq_bool d 0); [reflexivity|].
  destruct (Py.ge _ _); [|reflexivity].
  match goal with
  | |- send_staged _ _ _ _ (?m1, update_antenna ?i ?f _) = _ =>
      exact (IH m1 (update_antenna i f s))
  end.
Qed.

Lemma send_loop_consumers (cs : Py.dict RadiotransmissionConsumer) (d : Q)
    (staged : Py.dict (list Radiosignal.t)) :
  forall m s,
    send_loop d staged (m, set_consumers cs s)
    = let r := send_loop d staged (m, s) in
      ((fst (fst r), set_consumers cs (snd (fst r))), snd r).
Proof.
  induction staged as [|[id signals] staged IH]; intros m s; simpl; [reflexivity|].
  destruct (Py.dict_get id (antennas s)) as [antenna|]; [|reflexivity].
  rewrite send_staged_consumers. cbv zeta.
  destruct (send_staged d id antenna signals (m, s)) as [[m1 s1] [e|u]]; simpl;
    [reflexivity | apply IH].
Qed.

Lemma listen_on_consumers (cs : Py.dict RadiotransmissionConsumer)
    (m : GlobalSystem.RadioTransmissionMediumSystem) (s : System) (antenna_ref : Z) :
  listen_on (m, set_consumers cs s) antenna_ref
  = (fst (listen_on (m, s) antenna_ref),
     set_consumers cs (snd (listen_on (m, s) antenna_ref))).
Proof.
  unfold listen_on. simpl.
  destruct (Py.dict_get antenna_ref _); reflexivity.
Qed.

Lemma relay_on_consumers (cs : Py.dict RadiotransmissionConsumer)
    (m : GlobalSystem.RadioTransmissionMediumSystem) (s : System) (channel : RelayChannel) :
  relay_on (m, set_consumers cs s) channel
  = (fst (relay_on (m, s) channel), set_consumers cs (snd (relay_on (m, s) channel))).
Proof.
  unfold relay_on. simpl.
  destruct (Py.dict_get (antenna_in channel) _);
    [destruct (Py.dict_get (antenna_out channel) _)|]; reflexivity.
Qed.

Lemma fold_consumers {A : Type} (cs : Py.dict RadiotransmissionConsumer)
    (step : world -> A -> world) (l : list A) :
  (forall m s x, step (m, set_consumers cs s) x
                 = (fst (step (m, s) x), set_consumers cs (snd (step (m, s) x)))) ->
  forall m s,
    fold_left step l (m, set_consumers cs s)
    = (fst (fold_left step l (m, s)), set_consumers cs (snd (fold_left step l (m, s)))).
Proof.
  intros Hstep. induction l as [|x l IH]; intros m s; simpl; [reflexivity|].
  rewrite Hstep. destruct (step (m, s) x) as [m1 s1]. apply IH.
Qed.

Lemma end_of_step_consumers (cs : Py.dict RadiotransmissionConsumer) (s : System) :
  end_of_step (set_consumers cs s)
  = set_consumers (map (fun kc => (fst kc, clear_tasks (snd kc))) cs) (end_of_step s).
Proof. reflexivity. Qed.

(** What the local consumers have queued (signals by [send_signal], tasks
    by [listen_ether] and [i_am_repeater]) has no influence on the step of
    the local system: with any registry of consumers the step hands the same
    to the medium, ends the same way and leaves the same system; a step that
    returns has emptied the queues of the consumers, a step that raises has
    left them alone.  Only the assignments of devices decide what is
    sent. *)
Theorem local_queues_do_not_reach_the_medium
    (cs : Py.dict RadiotransmissionConsumer) (d : Q)
    (m : GlobalSystem.RadioTransmissionMediumSystem) (s : System) :
  imitation_step d (m, set_consumers cs s)
  = let r := imitation_step d (m, s) in
    ((fst (fst r),
      set_consumers
        match snd r with
        | inr _ => map (fun kc => (fst kc, clear_tasks (snd kc))) cs
        | inl _ => cs
        end
        (snd (fst r))),
     snd r).
Proof.
  unfold imitation_step. cbn [fst snd].
  change (set_duration (Some d) (set_consumers cs s))
    with (set_consumers cs (set_duration (Some d) s)).
  change (dict_signals_to_send (set_consumers cs (set_duration (Some d) s)))
    with (dict_signals_to_send (set_duration (Some d) s)).
  rewrite send_loop_consumers. cbv zeta.
  destruct (send_loop d _ (m, set_duration (Some d) s)) as [[m1 s1] [e|u]];
    cbn [fst snd]; [reflexivity|].
  change (dict_reception_channel (set_consumers cs s1)) with (dict_reception_channel s1).
  rewrite (fold_consumers cs listen_on _ (listen_on_consumers cs)).
  destruct (fold_left listen_on _ (m1, s1)) as [m2 s2]. cbn [fst snd].
  change (list_relay_channel (set_consumers cs s2)) with (list_relay_channel s2).
  rewrite (fold_consumers cs relay_on _ (relay_on_consumers cs)).
  destruct (fold_left relay_on _ (m2, s2)) as [m3 s3]. cbn [fst snd].
  now rewrite end_of_step_consumers.
Qed.

(** ** What a local system does to the medium *)

(** [c'] is [c] with signals and tasks queued: same properties, same inbox
    and record of seen signals, tasks appended, and under every receiver
    the queue extended at its end. *)
Definition queues_only (c c' : GlobalSystem.Consumer) : Prop :=
  GlobalSystem.properties c' = GlobalSystem.properties c
  /\ GlobalSystem.dict_frequency_signal_to_receive c'
     = GlobalSystem.dict_frequency_signal_to_receive c
  /\ GlobalSystem.dict_getting_information c' = GlobalSystem.dict_getting_information c
  /\ (exists tasks,
         GlobalSystem.listen_ether_tasks c' = GlobalSystem.listen_ether_tasks c ++ tasks)
  /\ forall k, exists refs,
       Py.dict_list k (GlobalSystem.dict_id_receiver_signals_to_send c')
       = Py.dict_list k (GlobalSystem.dict_id_receiver_signals_to_send c) ++ refs.

(** [m'] is [m] after the consumer registered under [gc] has queued signals
    and tasks: the other consumers and the accuracy are the same, no
    consumer is added or removed, and every signal object that exists in [m]
    has the same fields in [m']. *)
Definition acts_through (gc : Z) (m m' : GlobalSystem.RadioTransmissionMediumSystem)
  : Prop :=
  GlobalSystem.frequency_accuracy m' = GlobalSystem.frequency_accuracy m
  /\ (Heap.fresh (GlobalSystem.signals m) <= Heap.fresh (GlobalSystem.signals m'))%nat
  /\ (forall r, (r < Heap.fresh (GlobalSystem.signals m))%nat ->
        Heap.cell (GlobalSystem.signals m') r = Heap.cell (GlobalSystem.signals m) r)
  /\ (forall id, id <> gc ->
        Py.dict_get id (GlobalSystem.consumers m')
        = Py.dict_get id (GlobalSystem.consumers m))
  /\ match Py.dict_get gc (GlobalSystem.consumers m),
           Py.dict_get gc (GlobalSystem.consumers m') with
     | Some c, Some c' => queues_only c c'
     | None, None => True
     | _, _ => False
     end.

Lemma queues_only_refl (c : GlobalSystem.Consumer) : queues_only c c.
Proof.
  repeat split; auto.
  - exists []. now rewrite app_nil_r.
  - intros k. exists []. now rewrite app_nil_r.
Qed.

Lemma queues_only_trans (c1 c2 c3 : GlobalSystem.Consumer) :
  queues_only c1 c2 -> queues_only c2 c3 -> queues_only c1 c3.
Proof.
  intros [P1 [R1 [G1 [[t1 T1] Q1]]]] [P2 [R2 [G2 [[t2 T2] Q2]]]].
  split; [congruence|]. split; [congruence|]. split; [congruence|]. split.
  - exists (t1 ++ t2). now rewrite T2, T1, app_assoc.
  - intros k. destruct (Q1 k) as [r1 H1]. destruct (Q2 k) as [r2 H2].
    exists (r1 ++ r2). now rewrite H2, H1, app_assoc.
Qed.

Lemma acts_through_refl (gc : Z) (m : GlobalSystem.RadioTransmissionMediumSystem) :
  acts_through gc m m.
Proof.
  split; [reflexivity|]. split; [lia|]. split; [reflexivity|]. split; [reflexivity|].
  destruct (Py.dict_get gc (GlobalSystem.consumers m)); auto using queues_only_refl.
Qed.

Lemma acts_through_trans (gc : Z) (m1 m2 m3 : GlobalSystem.RadioTransmissionMediumSystem) :
  acts_through gc m1 m2 -> acts_through gc m2 m3 -> acts_through gc m1 m3.
Proof.
  intros [A1 [F1 [C1 [O1 G1]]]] [A2 [F2 [C2 [O2 G2]]]].
  split; [congruence|]. split; [lia|]. split.
  - intros r Hr. rewrite C2 by lia. now apply C1.
  - split.
    + intros id Hid. rewrite O2 by exact Hid. now apply O1.
    + destruct (Py.dict_get gc (GlobalSystem.consumers m1)),
               (Py.dict_get gc (GlobalSystem.consumers m2)),
               (Py.dict_get gc (GlobalSystem.consumers m3));
        try contradiction; auto.
      eapply queues_only_trans; eauto.
Qed.

Lemma acts_through_update (gc : Z) (f : GlobalSystem.Consumer -> GlobalSystem.Consumer)
    (m : GlobalSystem.RadioTransmissionMediumSystem) :
  (forall c, queues_only c (f c)) ->
  acts_through gc m (GlobalSystem.update_consumer gc f m).
Proof.
  intros Hf. split; [reflexivity|]. split; [simpl; lia|]. split; [reflexivity|].
  simpl. split.
  - intros id Hid. apply dict_get_update_other. congruence.
  - rewrite dict_get_update_same.
    destruct (Py.dict_get gc (GlobalSystem.consumers m)); simpl; auto.
Qed.

Lemma global_send_signal_acts (m : GlobalSystem.RadioTransmissionMediumSystem) (gc : Z)
    (id_receiver : Z) (memory : MemoryBlock.t) (f : option Q) (a : option Z) :
  acts_through gc m (global_send_signal m gc id_receiver memory f a).
Proof.
  unfold global_send_signal.
  destruct (Py.dict_get gc (GlobalSystem.consumers m)) as [c|] eqn:Hget;
    [|apply acts_through_refl].
  unfold GlobalSystem.send_signal.
  destruct (Z.eqb _ id_receiver).
  - split; [reflexivity|]. split; [simpl; lia|]. split; [reflexivity|]. simpl. split.
    + intros id Hid. apply dict_get_set_other. congruence.
    + rewrite Hget, dict_get_set_same. apply queues_only_refl.
  - split; [reflexivity|]. split; [simpl; lia|]. split; simpl.
    + intros r Hr. destruct (Nat.eqb r _) eqn:E; [|reflexivity].
      apply Nat.eqb_eq in E. lia.
    + split.
      * intros id Hid. apply dict_get_set_other. congruence.
      * rewrite Hget, dict_get_set_same.
        split; [reflexivity|]. split; [reflexivity|]. split; [reflexivity|]. split.
        -- exists []. simpl. now rewrite app_nil_r.
        -- intros k. simpl. destruct (Z.eq_dec id_receiver k) as [<-|Hne].
           ++ eexists. now rewrite dict_list_append_same, dict_list_setdefault.
           ++ exists []. rewrite dict_list_append_other by exact Hne.
              now rewrite dict_list_setdefault, app_nil_r.
Qed.

Lemma global_listen_ether_acts (m : GlobalSystem.RadioTransmissionMediumSystem) (gc : Z)
    (a : option Z) (f : option Q) :
  acts_through gc m (global_listen_ether m gc a f).
Proof.
  apply acts_through_update. intros c. unfold GlobalSystem.listen_ether.
  destruct (negb _); simpl; [|apply queues_only_refl].
  split; [reflexivity|]. split; [reflexivity|]. split; [reflexivity|]. split.
  - eexists. reflexivity.
  - intros k. exists []. now rewrite app_nil_r.
Qed.

Lemma global_i_am_repeater_acts (m : GlobalSystem.RadioTransmissionMediumSystem)
    (gc dest : Z) (a dest_antenna : option Z) (f_in f_out : option Q) (save : bool) :
  acts_through gc m (global_i_am_repeater m gc dest a dest_antenna f_in f_out save).
Proof.
  apply acts_through_update. intros c. unfold GlobalSystem.i_am_repeater.
  destruct (Z.eqb _ dest); simpl; [apply queues_only_refl|].
  split; [reflexivity|]. split; [reflexivity|]. split; [reflexivity|]. split.
  - eexists. reflexivity.
  - intros k. exists []. now rewrite app_nil_r.
Qed.

Lemma only_modes_consumer (s s' : System) :
  only_modes s s' -> global_consumer s' = global_consumer s.
Proof. intros [E _]. now rewrite E. Qed.

Lemma send_staged_acts (d : Q) (id : Z) (antenna : TransmitReceiveDevice)
    (staged : list Radiosignal.t) :
  forall w,
    acts_through (global_consumer (snd w)) (fst w)
      (fst (fst (send_staged d id antenna staged w))).
Proof.
  induction staged as [|signal staged IH]; intros w; simpl.
  - apply acts_through_refl.
  - destruct (Qeq_bool d 0); [apply acts_through_refl|].
    destruct (Py.ge _ _); [|apply acts_through_refl].
    match goal with
    | |- acts_through _ _ (fst (fst (send_staged _ _ _ _ ?w1))) =>
        apply (acts_through_trans _ _ (fst w1)); [|exact (IH w1)]
    end.
    apply global_send_signal_acts.
Qed.

Lemma send_loop_acts (d : Q) (staged : Py.dict (list Radiosignal.t)) :
  forall w,
    acts_through (global_consumer (snd w)) (fst w)
      (fst (fst (send_loop d staged w))).
Proof.
  induction staged as [|[id signals] staged IH]; intros w; simpl.
  - apply acts_through_refl.
  - destruct (Py.dict_get id (antennas (snd w))) as [antenna|];
      [|apply acts_through_refl].
    assert (H := send_staged_acts d id antenna signals w).
    assert (Hm := only_modes_consumer _ _ (send_staged_only_modes d id antenna signals w)).
    destruct (send_staged d id antenna signals w) as [w' [e|u]]; simpl in *; [exact H|].
    eapply acts_through_trans; [exact H|]. rewrite <- Hm. apply IH.
Qed.

Lemma fold_acts {A : Type} (step : world -> A -> world) (l : list A) :
  (forall w x, acts_through (global_consumer (snd w)) (fst w) (fst (step w x))) ->
  (forall w x, only_modes (snd w) (snd (step w x))) ->
  forall w, acts_through (global_consumer (snd w)) (fst w) (fst (fold_left step l w)).
Proof.
  intros Hacts Hmodes. induction l as [|x l IH]; intros w; simpl.
  - apply acts_through_refl.
  - eapply acts_through_trans; [apply Hacts|].
    rewrite <- (only_modes_consumer _ _ (Hmodes w x)). apply IH.
Qed.

Lemma listen_on_acts (w : world) (antenna_ref : Z) :
  acts_through (global_consumer (snd w)) (fst w) (fst (listen_on w antenna_ref)).
Proof.
  unfold listen_on. destruct (Py.dict_get antenna_ref _); simpl;
    [apply global_listen_ether_acts | apply acts_through_refl].
Qed.

Lemma relay_on_acts (w : world) (channel : RelayChannel) :
  acts_through (global_consumer (snd w)) (fst w) (fst (relay_on w channel)).
Proof.
  unfold relay_on.
  destruct (Py.dict_get (antenna_in channel) _);
    [destruct (Py.dict_get (antenna_out channel) _)|]; simpl;
    try apply acts_through_refl.
  apply global_i_am_repeater_acts.
Qed.

(** A local system acts on the medium only through the consumer it is
    bound to, and only by queueing.  Whether its step returns or raises,
    every other consumer of the medium is exactly as before, no consumer is
    added or removed, the accuracy is the same, every signal object that
    existed keeps its fields, and the bound consumer keeps its properties,
    its inbox and its record of seen signals; its task list and its send
    queues are only extended at the end. *)
Theorem local_step_acts_through_its_own_consumer (d : Q) (w : world) :
  acts_through (global_consumer (snd w)) (fst w) (fst (fst (imitation_step d w))).
Proof.
  unfold imitation_step.
  assert (H1 := send_loop_acts d
                  (dict_signals_to_send (snd (fst w, set_duration (Some d) (snd w))))
                  (fst w, set_duration (Some d) (snd w))).
  assert (M1 := only_modes_consumer _ _
                  (send_loop_only_modes d
                     (dict_signals_to_send (snd (fst w, set_duration (Some d) (snd w))))
                     (fst w, set_duration (Some d) (snd w)))).
  destruct (send_loop d _ _) as [w1 [e|u]]; cbn [fst snd] in *; [exact H1|].
  change (global_consumer (set_duration (Some d) (snd w)))
    with (global_consumer (snd w)) in *.
  eapply acts_through_trans; [exact H1|]. rewrite <- M1.
  assert (H2 := fold_acts listen_on (Py.values (dict_reception_channel (snd w1)))
                  listen_on_acts listen_on_only_modes w1).
  assert (M2 := only_modes_consumer _ _
                  (fold_only_modes listen_on (Py.values (dict_reception_channel (snd w1)))
                     listen_on_only_modes w1)).
  eapply acts_through_trans; [exact H2|]. rewrite <- M2.
  apply (fold_acts relay_on _ relay_on_acts relay_on_only_modes).
Qed.

Lemma local_step_acts_through_its_own_consumer_witness :
  Py.dict_get 1 (GlobalSystem.consumers (fst after_step_3))
  = Py.dict_get 1 (GlobalSystem.consumers (fst before_step_3)).
Proof.
  assert (H : imitation_step 1 before_step_3 = (after_step_3, inr tt))
    by (vm_compute; reflexivity).
  assert (Hacts := local_step_acts_through_its_own_consumer 1 before_step_3).
  rewrite H in Hacts. destruct Hacts as [_ [_ [_ [Hothers _]]]].
  apply Hothers. vm_compute. discriminate.
Defined.

(** ** From a reception channel to a task of the bound consumer *)

(** The task that [listen_ether] of a consumer with properties [p] builds
    for a device. *)
Definition listening_task (p : GlobalSystem.RadioTransmissionMediumConsumerProperties)
    (dev : TransmitReceiveDevice) : ListenEtherTask.t :=
  ListenEtherTask.make
    (Py.or_else (Some (frequency dev)) (GlobalSystem.frequency p))
    (Some (id_antenna dev)) None None None false.

Lemma task_mem_app (t : ListenEtherTask.t) (l l' : list ListenEtherTask.t) :
  ListenEtherTask.mem t l = true -> ListenEtherTask.mem t (l ++ l') = true.
Proof.
  unfold ListenEtherTask.mem. intros H. now rewrite existsb_app, H.
Qed.

(** Once the bound consumer holds a task, whatever the local system queues
    later keeps it. *)
Lemma acts_through_keeps_task (gc : Z) (m m' : GlobalSystem.RadioTransmissionMediumSystem)
    (p : GlobalSystem.RadioTransmissionMediumConsumerProperties) (t : ListenEtherTask.t) :
  acts_through gc m m' ->
  (exists c, Py.dict_get gc (GlobalSystem.consumers m) = Some c
             /\ GlobalSystem.properties c = p
             /\ ListenEtherTask.mem t (GlobalSystem.listen_ether_tasks c) = true) ->
  exists c', Py.dict_get gc (GlobalSystem.consumers m') = Some c'
             /\ GlobalSystem.properties c' = p
             /\ ListenEtherTask.mem t (GlobalSystem.listen_ether_tasks c') = true.
Proof.
  intros [_ [_ [_ [_ G]]]] [c [Hget [Hp Hmem]]]. rewrite Hget in G.
  destruct (Py.dict_get gc (GlobalSystem.consumers m')) as [c'|]; [|contradiction].
  destruct G as [P [_ [_ [[tasks T] _]]]].
  exists c'. split; [reflexivity|]. split; [congruence|].
  rewrite T. now apply task_mem_app.
Qed.

Lemma acts_through_keeps_consumer (gc : Z)
    (m m' : GlobalSystem.RadioTransmissionMediumSystem) (c : GlobalSystem.Consumer) :
  acts_through gc m m' ->
  Py.dict_get gc (GlobalSystem.consumers m) = Some c ->
  exists c', Py.dict_get gc (GlobalSystem.consumers m') = Some c'
             /\ GlobalSystem.properties c' = GlobalSystem.properties c.
Proof.
  intros [_ [_ [_ [_ G]]]] Hget. rewrite Hget in G.
  destruct (Py.dict_get gc (GlobalSystem.consumers m')) as [c'|]; [|contradiction].
  destruct G as [P _]. eauto.
Qed.

Lemma listen_on_registers (w : world) (a : Z) (dev : TransmitReceiveDevice)
    (c : GlobalSystem.Consumer) :
  Py.dict_get a (antennas (snd w)) = Some dev ->
  Py.dict_get (global_consumer (snd w)) (GlobalSystem.consumers (fst w)) = Some c ->
  exists c', Py.dict_get (global_consumer (snd w))
               (GlobalSystem.consumers (fst (listen_on w a))) = Some c'
             /\ GlobalSystem.properties c' = GlobalSystem.properties c
             /\ ListenEtherTask.mem (listening_task (GlobalSystem.properties c) dev)
                  (GlobalSystem.listen_ether_tasks c') = true.
Proof.
  intros Hdev Hc. unfold listen_on.
  assert (H1 : Py.dict_get a
                 (antennas (update_antenna a
                              (fun d => set_consumption (set_mode RECEPTION d)) (snd w)))
               = Some (set_mode RECEPTION dev)).
  { simpl. now rewrite dict_get_update_same, Hdev. }
  rewrite H1. cbn [fst]. unfold global_listen_ether, GlobalSystem.update_consumer.
  cbn [GlobalSystem.consumers GlobalSystem.set_consumers].
  change (global_consumer (update_antenna a
            (fun d => set_consumption (set_mode RECEPTION d)) (snd w)))
    with (global_consumer (snd w)).
  rewrite dict_get_update_same, Hc. cbn [option_map].
  eexists. split; [reflexivity|].
  unfold GlobalSystem.listen_ether.
  change (ListenEtherTask.make
            (Py.or_else (Some (frequency (set_mode RECEPTION dev)))
               (GlobalSystem.frequency (GlobalSystem.properties c)))
            (Some (id_antenna (set_mode RECEPTION dev))) None None None false)
    with (listening_task (GlobalSystem.properties c) dev).
  destruct (ListenEtherTask.mem _ (GlobalSystem.listen_ether_tasks c)) eqn:E;
    cbn [negb fst].
  - split; [reflexivity | exact E].
  - split; [reflexivity|]. cbn [GlobalSystem.listen_ether_tasks GlobalSystem.set_tasks].
    apply task_mem_last.
Qed.

Lemma fold_listen_on_registers (l : list Z) (a : Z)
    (p : GlobalSystem.RadioTransmissionMediumConsumerProperties)
    (key : Z * TransmitReceiveDeviceProperties * Q) :
  In a l ->
  forall (w : world) (dev : TransmitReceiveDevice) (c : GlobalSystem.Consumer),
    Py.dict_get a (antennas (snd w)) = Some dev -> tuning dev = key ->
    Py.dict_get (global_consumer (snd w)) (GlobalSystem.consumers (fst w)) = Some c ->
    GlobalSystem.properties c = p ->
    exists c' dev',
      Py.dict_get (global_consumer (snd w))
        (GlobalSystem.consumers (fst (fold_left listen_on l w))) = Some c'
      /\ GlobalSystem.properties c' = p
      /\ tuning dev' = key
      /\ ListenEtherTask.mem (listening_task p dev')
           (GlobalSystem.listen_ether_tasks c') = true.
Proof.
  induction l as [|x l IH]; intros Hin w dev c Hdev Hkey Hc Hp; [contradiction|].
  simpl.
  assert (Hm := listen_on_only_modes w x).
  assert (Hgc := only_modes_consumer _ _ Hm).
  destruct (in_dec Z.eq_dec a l) as [Hlater|Hlast].
  - destruct (modes_only_get_some _ _ _ _ (proj2 Hm) Hdev) as [dev1 [Hdev1 Ht1]].
    destruct (acts_through_keeps_consumer _ _ _ _ (listen_on_acts w x) Hc)
      as [c1 [Hc1 Hp1]].
    rewrite <- Hgc in Hc1.
    destruct (IH Hlater (listen_on w x) dev1 c1 Hdev1) as [c' [dev' H']];
      try congruence.
    rewrite Hgc in H'. eauto.
  - destruct Hin as [->|Hin]; [|contradiction].
    destruct (listen_on_registers w a dev c Hdev Hc) as [c1 [Hc1 [Hp1 Hmem]]].
    assert (Hrest := fold_acts listen_on l listen_on_acts listen_on_only_modes
                       (listen_on w a)).
    rewrite Hgc in Hrest.
    destruct (acts_through_keeps_task _ _ _ p (listening_task p dev) Hrest)
      as [c' [Hc' [Hp' Hmem']]].
    + exists c1. split; [exact Hc1|]. split; [congruence|]. rewrite <- Hp. exact Hmem.
    + exists c', dev. auto.
Qed.

Lemma listening_task_tuning
    (p : GlobalSystem.RadioTransmissionMediumConsumerProperties)
    (dev dev' : TransmitReceiveDevice) :
  tuning dev' = tuning dev -> listening_task p dev' = listening_task p dev.
Proof. unfold tuning, listening_task. intros [= -> _ ->]. reflexivity. Qed.

(** Reception channels become tasks of the bound consumer.  When a step of
    the local system returns, for every device recorded in a reception
    channel the bound consumer holds a task that listens on the id of the
    device at its frequency (at the default frequency of the consumer when
    the device is tuned to 0), with no relay destination. *)
Theorem reception_channel_becomes_a_listening_task
    (d : Q) (w w1 : world) (a : Z) (dev : TransmitReceiveDevice)
    (c : GlobalSystem.Consumer) :
  imitation_step d w = (w1, inr tt) ->
  In a (Py.values (dict_reception_channel (snd w))) ->
  Py.dict_get a (antennas (snd w)) = Some dev ->
  Py.dict_get (global_consumer (snd w)) (GlobalSystem.consumers (fst w)) = Some c ->
  exists c1,
    Py.dict_get (global_consumer (snd w)) (GlobalSystem.consumers (fst w1)) = Some c1
    /\ ListenEtherTask.mem (listening_task (GlobalSystem.properties c) dev)
         (GlobalSystem.listen_ether_tasks c1) = true.
Proof.
  unfold imitation_step. intros Hstep Hin Hdev Hc.
  assert (A1 := send_loop_acts d
                  (dict_signals_to_send (snd (fst w, set_duration (Some d) (snd w))))
                  (fst w, set_duration (Some d) (snd w))).
  assert (M1 := send_loop_only_modes d
                  (dict_signals_to_send (snd (fst w, set_duration (Some d) (snd w))))
                  (fst w, set_duration (Some d) (snd w))).
  destruct (send_loop d _ _) as [w' [e|u]]; [discriminate|].
  cbn [fst snd] in *. injection Hstep as Hw1. subst w1. cbn [fst].
  change (global_consumer (set_duration (Some d) (snd w)))
    with (global_consumer (snd w)) in *.
  assert (Hgc := only_modes_consumer _ _ M1).
  change (global_consumer (set_duration (Some d) (snd w)))
    with (global_consumer (snd w)) in Hgc.
  assert (Hchannels : dict_reception_channel (snd w') = dict_reception_channel (snd w))
    by (rewrite (proj1 M1); reflexivity).
  destruct (modes_only_get_some _ _ _ _ (proj2 M1) Hdev) as [dev1 [Hdev1 Ht1]].
  destruct (acts_through_keeps_consumer _ _ _ _ A1 Hc) as [c' [Hc' Hp']].
  rewrite <- Hgc in Hc'. rewrite <- Hchannels in Hin.
  destruct (fold_listen_on_registers _ a (GlobalSystem.properties c) (tuning dev)
              Hin w' dev1 c' Hdev1 Ht1 Hc' Hp')
    as [c2 [dev2 [Hc2 [Hp2 [Ht2 Hmem]]]]].
  set (w2 := fold_left listen_on (Py.values (dict_reception_channel (snd w'))) w') in *.
  assert (Hgc2 : global_consumer (snd w2) = global_consumer (snd w')).
  { apply only_modes_consumer. apply fold_only_modes. apply listen_on_only_modes. }
  assert (Hrest := fold_acts relay_on (list_relay_channel (snd w2)) relay_on_acts
                     relay_on_only_modes w2).
  rewrite Hgc2 in Hrest.
  destruct (acts_through_keeps_task _ _ _ (GlobalSystem.properties c)
              (listening_task (GlobalSystem.properties c) dev2) Hrest)
    as [c3 [Hc3 [_ Hmem3]]]; [eauto|].
  exists c3. rewrite <- Hgc. split; [exact Hc3|].
  rewrite <- (listening_task_tuning _ _ _ Ht2). exact Hmem3.
Qed.

Lemma reception_channel_becomes_a_listening_task_witness :
  exists c1,
    Py.dict_get 3 (GlobalSystem.consumers (fst after_step_3)) = Some c1
    /\ ListenEtherTask.mem (ListenEtherTask.make 150 (Some 1%Z) None None None false)
         (GlobalSystem.listen_ether_tasks c1) = true.
Proof.
  assert (H : imitation_step 1 before_step_3 = (after_step_3, inr tt))
    by (vm_compute; reflexivity).
  destruct (reception_channel_becomes_a_listening_task 1 before_step_3 after_step_3 1
              {| id_antenna := 1; properties := antenna_properties;
                 frequency := 150; communication_mode := RECEPTION |}
              (GlobalSystem.new_consumer
                 {| GlobalSystem.frequency := 150; GlobalSystem.id_consumer := 3 |}) H)
    as [c1 [Hget Hmem]].
  - vm_compute. auto.
  - vm_compute. reflexivity.
  - vm_compute. reflexivity.
  - exists c1. split; [exact Hget | exact Hmem].
Defined.

End MoreLocalProperties.
